(** * MCP OAuth example: router, authentication middleware, token codec, OAuth client

    A shallow embedding of the TypeScript sources of the MCP server
    (router.ts, middleware/auth.ts, auth/tokenValidator.ts, routes/sse.ts)
    and of the MCP client (auth/oauth.ts, auth/token.ts), with the
    properties of the design document stated and settled against them.

    Conventions.
    - A JavaScript string is modelled as a [string] of bytes (its UTF-8
      encoding).  All the comparisons made by the sources are against ASCII
      literals, for which byte-wise and code-unit-wise operations agree.
    - An [async] function is run to completion where it is called (every
      call behaves as if awaited); what the caller does with a rejection is
      explicit in the continuation of the call.
    - [console.log]/[console.error] are diagnostics and are left out.
    - Functions of the platform and of third-party packages (the WHATWG URL
      parser, [Buffer], [JSON.parse], jsonwebtoken, jwks-rsa, [fetch]) are
      section variables, or are modelled from their documentation where a
      claim needs to evaluate them; each such place says so. *)

From Stdlib Require Import ZArith List Bool Lia Ascii String.
From Stdlib Require Import Decimal DecimalString DecimalPos DecimalZ.
From stdpp Require Import gmap strings.
Import ListNotations.
Open Scope string_scope.

(* ===================================================================== *)
(** * JavaScript string primitives used by the sources *)
(* ===================================================================== *)

Module JsString.

(** [s.startsWith(p)] *)
Fixpoint startsWith (s p : string) {struct p} : bool :=
  match p, s with
  | EmptyString, _ => true
  | String a p', String b s' => Ascii.eqb a b && startsWith s' p'
  | String _ _, EmptyString => false
  end.

(** [s.includes(needle)] *)
Fixpoint includes (s needle : string) : bool :=
  startsWith s needle
  || match s with
     | EmptyString => false
     | String _ s' => includes s' needle
     end.

(** [s.endsWith(suf)] *)
Fixpoint endsWith (s suf : string) : bool :=
  String.eqb s suf
  || match s with
     | EmptyString => false
     | String _ s' => endsWith s' suf
     end.

(** [s.slice(0, -1)]: all but the last character. *)
Fixpoint dropLast (s : string) : string :=
  match s with
  | EmptyString => EmptyString
  | String c EmptyString => EmptyString
  | String c s' => String c (dropLast s')
  end.

(** [s.substring(n)] *)
Fixpoint substringFrom (n : nat) (s : string) : string :=
  match n, s with
  | O, _ => s
  | S n', String _ s' => substringFrom n' s'
  | S _, EmptyString => EmptyString
  end.

Definition lowerAscii (c : ascii) : ascii :=
  let n := nat_of_ascii c in
  if (65 <=? n)%nat && (n <=? 90)%nat then ascii_of_nat (n + 32) else c.

(** [s.toLowerCase()], on the ASCII letters.  The only non-ASCII
    character whose lower case is an ASCII letter is the Kelvin sign
    (giving k), and no literal compared after lowering has a k. *)
Fixpoint toLowerCase (s : string) : string :=
  match s with
  | EmptyString => EmptyString
  | String c s' => String (lowerAscii c) (toLowerCase s')
  end.

(** [s.split(sep)] for a one-character separator: never empty. *)
Fixpoint split (sep : ascii) (s : string) : list string :=
  match s with
  | EmptyString => [EmptyString]
  | String c s' =>
      if Ascii.eqb c sep then EmptyString :: split sep s'
      else match split sep s' with
           | [] => [String c EmptyString]
           | h :: t => String c h :: t
           end
  end.

(** The text before the first [sep], and the text after it when there
    is one. *)
Fixpoint cut (sep : ascii) (s : string) : string * option string :=
  match s with
  | EmptyString => (EmptyString, None)
  | String c s' =>
      if Ascii.eqb c sep then (EmptyString, Some s')
      else let '(h, t) := cut sep s' in (String c h, t)
  end.

Definition isAsciiSpace (c : ascii) : bool :=
  let n := nat_of_ascii c in
  ((9 <=? n)%nat && (n <=? 13)%nat) || (n =? 32)%nat.

(** Skips one white-space character of ECMAScript's [WhiteSpace] and
    [LineTerminator] at the head of [s], in UTF-8; [None] when the head
    is not white space. *)
Definition skipSpace (s : string) : option string :=
  match s with
  | String c s1 =>
      if isAsciiSpace c then Some s1
      else
        match nat_of_ascii c, s1 with
        | 194, String d s2 =>                      (* U+00A0 *)
            if (nat_of_ascii d =? 160)%nat then Some s2 else None
        | 225, String d (String e s3) =>           (* U+1680 *)
            if (nat_of_ascii d =? 154)%nat && (nat_of_ascii e =? 128)%nat
            then Some s3 else None
        | 226, String d (String e s3) =>
            let d := nat_of_ascii d in
            let e := nat_of_ascii e in
            if (d =? 128)%nat
               && (((128 <=? e)%nat && (e <=? 138)%nat)   (* U+2000-200A *)
                   || (e =? 168)%nat || (e =? 169)%nat   (* U+2028, 2029 *)
                   || (e =? 175)%nat)                    (* U+202F *)
            then Some s3
            else if (d =? 129)%nat && (e =? 159)%nat     (* U+205F *)
            then Some s3 else None
        | 227, String d (String e s3) =>           (* U+3000 *)
            if (nat_of_ascii d =? 128)%nat && (nat_of_ascii e =? 128)%nat
            then Some s3 else None
        | 239, String d (String e s3) =>           (* U+FEFF *)
            if (nat_of_ascii d =? 187)%nat && (nat_of_ascii e =? 191)%nat
            then Some s3 else None
        | _, _ => None
        end
  | EmptyString => None
  end.

(** [s.trimStart()], with fuel the length of [s]. *)
Fixpoint trimStartFuel (fuel : nat) (s : string) : string :=
  match fuel with
  | O => s
  | S fuel' =>
      match skipSpace s with
      | Some s' => trimStartFuel fuel' s'
      | None => s
      end
  end.

Definition trimStart (s : string) : string :=
  trimStartFuel (String.length s) s.

(** [s.trim() === ""]: the string is white space only. *)
Definition trimIsEmpty (s : string) : bool :=
  String.eqb (trimStart s) EmptyString.

(** [s.trimEnd()]: the shortest prefix whose remainder is white space. *)
Fixpoint trimEnd (s : string) : string :=
  match s with
  | EmptyString => EmptyString
  | String c s' => if trimIsEmpty s then EmptyString else String c (trimEnd s')
  end.

(** [s.trim()] *)
Definition trim (s : string) : string := trimEnd (trimStart s).

End JsString.

(* ===================================================================== *)
(** * Values, requests and responses *)
(* ===================================================================== *)

(** A JavaScript value as far as the sources look at one: its truthiness,
    whether it is a string, and its fields.  Numbers that are not integers
    are not represented; the sources only test numbers for truthiness. *)
#[warnings="-register-all"] Inductive JsValue : Type :=
| JsUndefined
| JsNull
| JsBool (b : bool)
| JsNumber (n : Z)
| JsString (s : string)
| JsArray (items : list JsValue)
| JsObject (fields : list (string * JsValue)).

(** [!!v] *)
Definition truthy (v : JsValue) : bool :=
  match v with
  | JsUndefined | JsNull => false
  | JsBool b => b
  | JsNumber n => negb (n =? 0)%Z
  | JsString s => negb (String.eqb s "")
  | JsArray _ | JsObject _ => true
  end.

(** [o.name] on an object; [undefined] when the field is absent or the
    value has no own fields. *)
Fixpoint lookupField (name : string) (fields : list (string * JsValue)) : JsValue :=
  match fields with
  | [] => JsUndefined
  | (k, v) :: rest => if String.eqb k name then v else lookupField name rest
  end.

Definition getField (v : JsValue) (name : string) : JsValue :=
  match v with
  | JsObject fields => lookupField name fields
  | _ => JsUndefined
  end.

(** A value of [req.headers]: [string | string[]]. *)
Inductive HeaderValue : Type :=
| HString (v : string)
| HArray (vs : list string).

(** [IncomingMessage], with the fields the sources read.  [headers] lists
    the entries of [req.headers] in the order of [Object.entries]; [body]
    is the [body] property another middleware may have attached. *)
Record IncomingMessage : Type := mkRequest {
  method : option string;
  url : option string;
  headers : list (string * HeaderValue);
  body : JsValue
}.

(** [req.headers[name]] *)
Fixpoint header (name : string) (hs : list (string * HeaderValue)) : option HeaderValue :=
  match hs with
  | [] => None
  | (k, v) :: rest => if String.eqb k name then Some v else header name rest
  end.

(** A header read where the typings say [string]: [host], [cookie],
    [content-type]. *)
Definition headerString (name : string) (hs : list (string * HeaderValue)) : option string :=
  match header name hs with
  | Some (HString v) => Some v
  | _ => None
  end.

(** What [res.end] is given: a text, or [JSON.stringify(v)] kept as the
    value [v] it serialises. *)
Inductive Body : Type :=
| Text (s : string)
| Json (v : JsValue).

(** [ServerResponse], with what node:http documents of [writeHead] and
    [end]: [writeHead] throws once the headers are sent, [end] finishes the
    response (sending implicit headers when none were written) and does
    nothing on a finished response. *)
Record ServerResponse : Type := mkResponse {
  headersSent : bool;
  statusCode : Z;
  sent : Body;
  writableEnded : bool
}.

Definition freshResponse : ServerResponse :=
  {| headersSent := false; statusCode := 200; sent := Text ""; writableEnded := false |}.

Definition writeHead (status : Z) (r : ServerResponse) : option ServerResponse :=
  if headersSent r then None
  else Some {| headersSent := true; statusCode := status;
               sent := sent r; writableEnded := writableEnded r |}.

Definition endResponse (data : Body) (r : ServerResponse) : ServerResponse :=
  if writableEnded r then r
  else {| headersSent := true; statusCode := statusCode r;
          sent := data; writableEnded := true |}.

(* ===================================================================== *)
(** * Request-handling programs *)
(* ===================================================================== *)

(** How a call that was waited for came back. *)
Inductive Outcome : Type :=
| Normal
| Thrown (e : string).

(** The behaviour of a middleware or of a route handler on one request, as
    the tree of what it does to the response and to its continuation.
    [E] are the other observable actions of the program, [C] the functions
    it may call ([unit] for a middleware: its [next]; [Empty_set] for a
    route handler, which has none).  [Call c k] calls and waits, and [k]
    says what the program does with the outcome: rethrow, handle or drop. *)
Inductive Prog (E C : Type) : Type :=
| Return
| Throw (e : string)
| WriteHead (status : Z) (k kfail : Prog E C)
| End (data : Body) (k : Prog E C)
| Observe (k : ServerResponse -> Prog E C)
| Do (e : E) (k : Prog E C)
| Call (c : C) (k : Outcome -> Prog E C).

Arguments Return {E C}.
Arguments Throw {E C} e.
Arguments WriteHead {E C} status k kfail.
Arguments End {E C} data k.
Arguments Observe {E C} k.
Arguments Do {E C} e k.
Arguments Call {E C} c k.

(** What an observer of one request sees, in order.  The two invocation
    events record whether the response was finished at the invocation. *)
Inductive Event (E : Type) : Type :=
| EvMiddleware (index : nat) (ended : bool)
| EvHandler (route : nat) (ended : bool)
| EvWriteHead (status : Z)
| EvEnd (data : Body)
| EvDo (e : E).

Arguments EvMiddleware {E} index ended.
Arguments EvHandler {E} route ended.
Arguments EvWriteHead {E} status.
Arguments EvEnd {E} data.
Arguments EvDo {E} e.

Record St (E : Type) : Type := mkSt {
  res : ServerResponse;
  trace : list (Event E)
}.

Arguments mkSt {E} res trace.
Arguments res {E} s.
Arguments trace {E} s.

Definition emit {E} (ev : Event E) (st : St E) : St E :=
  mkSt (res st) (trace st ++ [ev]).

Definition Comp (E : Type) : Type := St E -> Outcome * St E.

(** Runs a program; [call] is what its calls do. *)
Fixpoint run {E C} (call : C -> Comp E) (p : Prog E C) (st : St E) : Outcome * St E :=
  match p with
  | Return => (Normal, st)
  | Throw e => (Thrown e, st)
  | WriteHead status k kfail =>
      match writeHead status (res st) with
      | Some r => run call k (mkSt r (trace st ++ [EvWriteHead status]))
      | None => run call kfail st
      end
  | End data k =>
      if writableEnded (res st) then run call k st
      else run call k (mkSt (endResponse data (res st)) (trace st ++ [EvEnd data]))
  | Observe k => run call (k (res st)) st
  | Do e k => run call k (emit (EvDo e) st)
  | Call c k => let '(o, st') := call c st in run call (k o) st'
  end.

Definition noCall {E} (c : Empty_set) : Comp E := match c with end.

(** [res.writeHead(status).end(data)], the way every response of the
    server is written; a [writeHead] that throws is not caught there. *)
Definition respond {E C} (status : Z) (data : Body) (k : Prog E C) : Prog E C :=
  WriteHead status (End data k) (Throw "ERR_HTTP_HEADERS_SENT").

(** [try { await p } catch (e) { ... }]: [k] continues after [p] with the
    way [p] ended. *)
Fixpoint andThen {E C} (p : Prog E C) (k : Outcome -> Prog E C) : Prog E C :=
  match p with
  | Return => k Normal
  | Throw e => k (Thrown e)
  | WriteHead status a b => WriteHead status (andThen a k) (andThen b k)
  | End data a => End data (andThen a k)
  | Observe f => Observe (fun r => andThen (f r) k)
  | Do e a => Do e (andThen a k)
  | Call c f => Call c (fun o => andThen (f o) k)
  end.

(** [return next()] of an async middleware: the promise of [next] becomes
    its own, so a rejection reaches whoever waits for the middleware. *)
Definition returnNext {E} : Prog E unit :=
  Call tt (fun o => match o with Normal => Return | Thrown e => Throw e end).

(* ===================================================================== *)
(** * router.ts *)
(* ===================================================================== *)

Module Router.

(** [route.path]: a string or a [RegExp]; a regular expression is the
    predicate its [test] computes (one without the [g] or [y] flag, whose
    [test] keeps no position between calls). *)
Inductive PathPattern : Type :=
| PathString (p : string)
| PathRegExp (test : string -> bool).

Definition MiddlewareHandler (E : Type) : Type := IncomingMessage -> Prog E unit.

(** [(req, res, url) => ...] *)
Definition RouteHandler (E : Type) : Type := IncomingMessage -> string -> Prog E Empty_set.

Record Route (E : Type) : Type := mkRoute {
  routeMethod : string;
  path : PathPattern;
  handler : RouteHandler E
}.

Arguments mkRoute {E} routeMethod path handler.
Arguments routeMethod {E} r.
Arguments path {E} r.
Arguments handler {E} r.

Record Router (E : Type) : Type := mkRouter {
  routes : list (Route E);
  middleware : list (MiddlewareHandler E)
}.

Arguments mkRouter {E} routes middleware.
Arguments routes {E} r.
Arguments middleware {E} r.

Definition empty {E} : Router E := mkRouter [] [].

Definition use {E} (mw : MiddlewareHandler E) (r : Router E) : Router E :=
  mkRouter (routes r) (middleware r ++ [mw]).

Definition get {E} (p : PathPattern) (h : RouteHandler E) (r : Router E) : Router E :=
  mkRouter (routes r ++ [mkRoute "GET" p h]) (middleware r).

Definition post {E} (p : PathPattern) (h : RouteHandler E) (r : Router E) : Router E :=
  mkRouter (routes r ++ [mkRoute "POST" p h]) (middleware r).

Definition all {E} (p : PathPattern) (h : RouteHandler E) (r : Router E) : Router E :=
  mkRouter (routes r ++ [mkRoute "ALL" p h]) (middleware r).

(** The method test of the route loop. *)
Definition methodMatches {E} (route : Route E) (m : string) : bool :=
  String.eqb (routeMethod route) "ALL" || String.eqb (routeMethod route) m.

(** The value of [isMatch] for a route path and the request's [url]. *)
Definition isMatch (p : PathPattern) (u : string) : bool :=
  match p with
  | PathString s =>
      if String.eqb s "*" then true
      else if JsString.endsWith s "*"
           then JsString.startsWith u (JsString.dropLast s)
           else String.eqb s u
  | PathRegExp test => test u
  end.

(** [executeMiddlewareChain(req, res, index, finalHandler)] on the
    middleware from [index] on.  The continuation handed to a middleware
    skips the rest once the response is finished. *)
Fixpoint chainFrom {E} (rest : list (MiddlewareHandler E)) (index : nat)
    (req : IncomingMessage) (finalHandler : Comp E) (st : St E) : Outcome * St E :=
  match rest with
  | [] => finalHandler st
  | mw :: rest' =>
      run (fun _ st' =>
             if writableEnded (res st') then (Normal, st')
             else chainFrom rest' (S index) req finalHandler st')
          (mw req)
          (emit (EvMiddleware index (writableEnded (res st))) st)
  end.

Definition executeMiddlewareChain {E} (r : Router E) (req : IncomingMessage)
    (index : nat) (finalHandler : Comp E) : Comp E :=
  chainFrom (drop index (middleware r)) index req finalHandler.

(** [await route.handler(req, res, url)] for the route of index [i]. *)
Definition invokeHandler {E} (i : nat) (route : Route E) (req : IncomingMessage)
    (u : string) : Comp E :=
  fun st => run noCall (handler route req u)
                (emit (EvHandler i (writableEnded (res st))) st).

(** What the promise of [handleRequest] settles to. *)
Inductive Handled : Type :=
| Resolved (matched : bool)
| Rejected (e : string).

(** The body of [if (isMatch)]. *)
Definition dispatch {E} (r : Router E) (i : nat) (route : Route E)
    (req : IncomingMessage) (u : string) (st : St E) : Handled * St E :=
  match middleware r with
  | _ :: _ =>
      match executeMiddlewareChain r req 0 (invokeHandler i route req u) st with
      | (Normal, st1) => (Resolved true, st1)
      | (Thrown _, st1) =>
          if writableEnded (res st1) then (Resolved true, st1)
          else match run noCall (respond 500 (Text "Internal Server Error") Return) st1 with
               | (Normal, st2) => (Resolved true, st2)
               | (Thrown e, st2) => (Rejected e, st2)
               end
      end
  | [] =>
      match invokeHandler i route req u st with
      | (Normal, st1) => (Resolved true, st1)
      | (Thrown e, st1) => (Rejected e, st1)
      end
  end.

(** The route loop, over the routes from index [i] on. *)
Fixpoint matchRoutes {E} (r : Router E) (rs : list (Route E)) (i : nat)
    (req : IncomingMessage) (m u : string) (st : St E) : Handled * St E :=
  match rs with
  | [] => (Resolved false, st)
  | route :: rs' =>
      if methodMatches route m && isMatch (path route) u
      then dispatch r i route req u st
      else matchRoutes r rs' (S i) req m u st
  end.

Definition handleRequest {E} (r : Router E) (req : IncomingMessage) (st : St E)
    : Handled * St E :=
  match url req, method req with
  | Some u, Some m =>
      if String.eqb u "" || String.eqb m "" then (Resolved false, st)
      else matchRoutes r (routes r) 0 req m u st
  | _, _ => (Resolved false, st)
  end.

(** How often the trace invokes a route handler. *)
Definition isHandlerEvent {E} (ev : Event E) : bool :=
  match ev with EvHandler _ _ => true | _ => false end.

Fixpoint handlerInvocations {E} (t : list (Event E)) : nat :=
  match t with
  | [] => 0
  | ev :: t' => (if isHandlerEvent ev then 1 else 0) + handlerInvocations t'
  end.

(** No middleware after the first, and no handler, is invoked on a
    finished response. *)
Definition lateInvocation {E} (ev : Event E) : bool :=
  match ev with
  | EvMiddleware (S _) true => true
  | EvHandler _ true => true
  | _ => false
  end.

(** The response the router writes when the chain failed. *)
Definition serverError : ServerResponse :=
  {| headersSent := true; statusCode := 500;
     sent := Text "Internal Server Error"; writableEnded := true |}.

(** No invocation in the trace came after the response was finished. *)
Definition noLate {E} (t : list (Event E)) : Prop :=
  Forall (fun ev => lateInvocation ev = false) t.

(** The program calls its continuation at most [n] times on every path. *)
Inductive callsAtMost {E C} : nat -> Prog E C -> Prop :=
| cam_return n : callsAtMost n Return
| cam_throw n e : callsAtMost n (Throw e)
| cam_writeHead n s k kf :
    callsAtMost n k -> callsAtMost n kf -> callsAtMost n (WriteHead s k kf)
| cam_end n d k : callsAtMost n k -> callsAtMost n (End d k)
| cam_observe n k : (forall r, callsAtMost n (k r)) -> callsAtMost n (Observe k)
| cam_do n e k : callsAtMost n k -> callsAtMost n (Do e k)
| cam_call n c k : (forall o, callsAtMost n (k o)) -> callsAtMost (S n) (Call c k).

End Router.

(* ===================================================================== *)
(** * URL query strings *)
(* ===================================================================== *)

Module Url.

Definition hexValue (c : ascii) : option nat :=
  let n := nat_of_ascii c in
  if (48 <=? n)%nat && (n <=? 57)%nat then Some (n - 48)
  else if (65 <=? n)%nat && (n <=? 70)%nat then Some (n - 55)
  else if (97 <=? n)%nat && (n <=? 102)%nat then Some (n - 87)
  else None.

(** Percent-decoding: [%XY] with two hexadecimal digits is the byte XY,
    everything else stands for itself. *)
Fixpoint percentDecode (s : string) : string :=
  match s with
  | EmptyString => EmptyString
  | String c rest =>
      match c, rest with
      | "%"%char, String h (String l rest') =>
          match hexValue h, hexValue l with
          | Some a, Some b => String (ascii_of_nat (16 * a + b)) (percentDecode rest')
          | _, _ => String c (percentDecode rest)
          end
      | _, _ => String c (percentDecode rest)
      end
  end.

Fixpoint plusToSpace (s : string) : string :=
  match s with
  | EmptyString => EmptyString
  | String c rest => String (if Ascii.eqb c "+" then " "%char else c) (plusToSpace rest)
  end.

(** A name or a value of a query: [+] is a space, then percent-decoding.
    (The platform then reads the bytes as UTF-8, putting U+FFFD for what
    is not; session identifiers and tokens are ASCII.) *)
Definition decodeComponent (s : string) : string := percentDecode (plusToSpace s).

(** One [name=value] piece of a query string. *)
Definition parsePair (piece : string) : string * string :=
  let '(n, v) := JsString.cut "=" piece in
  (decodeComponent n, decodeComponent (default "" v)).

(** The application/x-www-form-urlencoded parser of the URL Standard:
    pieces between [&], empty pieces skipped. *)
Definition parseQuery (q : string) : list (string * string) :=
  map parsePair (filter (fun piece => piece <> "") (JsString.split "&" q)).

(** The query of a URL that parses: the text after the first [?] of what
    precedes the first [#].  (A request target holds no tab, line break or
    surrounding space, which the parser would strip first.) *)
Definition queryOf (u : string) : string :=
  default "" (snd (JsString.cut "?" (fst (JsString.cut "#" u)))).

(** [searchParams.get(name)]: the value of the first pair of that name. *)
Fixpoint getParam (name : string) (pairs : list (string * string)) : option string :=
  match pairs with
  | [] => None
  | (n, v) :: rest => if String.eqb n name then Some v else getParam name rest
  end.

(** [new URL(u, `http://${host}`).searchParams.get(name)]: [None] when the
    constructor throws, [Some None] for JavaScript's [null].  Whether the
    constructor accepts its arguments is the platform's [urlOk]. *)
Definition searchParam (urlOk : string -> string -> bool)
    (u host name : string) : option (option string) :=
  if urlOk u host then Some (getParam name (parseQuery (queryOf u))) else None.

End Url.

(* ===================================================================== *)
(** * auth/tokenValidator.ts *)
(* ===================================================================== *)

Module TokenValidator.

Record JwtConfig : Type := mkJwtConfig {
  issuer : string;
  audience : string;
  jwksUri : string
}.

(** [defaultConfig] before the environment overrides it. *)
Definition defaultConfig : JwtConfig :=
  {| issuer := "http://localhost:5556/dex";
     audience := "mcp-client";
     jwksUri := "http://localhost:5556/dex/keys" |}.

(** [{ ...defaultConfig, ...config }] for a [Partial<JwtConfig>]. *)
Record PartialConfig : Type := mkPartialConfig {
  issuer' : option string;
  audience' : option string;
  jwksUri' : option string
}.

Definition noOverride : PartialConfig :=
  {| issuer' := None; audience' := None; jwksUri' := None |}.

Definition mergeConfig (base : JwtConfig) (over : PartialConfig) : JwtConfig :=
  {| issuer := default (issuer base) (issuer' over);
     audience := default (audience base) (audience' over);
     jwksUri := default (jwksUri base) (jwksUri' over) |}.

(** [jwt.JwtPayload] with the claims the server reads; the numeric claims
    are numbers or absent, as the typings of jsonwebtoken declare them. *)
Record JwtPayload : Type := mkPayload {
  sub : JsValue;
  iss : JsValue;
  aud : JsValue;
  exp : option Z;
  iat : option Z
}.

(** The result of [jwt.decode(token, { complete: true })]. *)
Record CompleteJwt : Type := mkJwt {
  jwtHeader : JsValue;
  jwtPayload : JwtPayload
}.

(** The options object given to [jwt.verify]. *)
Record VerifyOptions : Type := mkVerifyOptions {
  optIssuer : string;
  optAudience : string;
  algorithms : list string
}.

(** What the callback of the JWKS client's [getSigningKey] receives. *)
Inductive SigningKeyResult : Type :=
| KeyError (message : string)
| KeyMissing
| KeyFound (publicKey : string).

(** The packages jsonwebtoken and jwks-rsa.  A JWKS client is identified
    by the URI it was created for. *)
Record JwtLibrary : Type := mkJwtLibrary {
  jwt_decode : string -> option CompleteJwt;
  jwt_verify : string -> string -> VerifyOptions -> JwtPayload + string;
  jwks_getSigningKey : string -> JsValue -> SigningKeyResult
}.

(** The calls a verification makes to the two packages, in order. *)
Inductive LibraryCall : Type :=
| CallDecode (token : string)
| CallGetSigningKey (client : string) (kid : JsValue)
| CallVerify (token key : string) (options : VerifyOptions).

(** [getJwksClient]: the module-level [jwksClientInstance] is created on
    the first use and kept from then on, whatever URI is asked for later. *)
Definition getJwksClient (uri : string) (instance : option string) : string * option string :=
  match instance with
  | None => (uri, Some uri)
  | Some client => (client, instance)
  end.

(** [getSigningKey(kid, jwksUri)]: the key, or the rejection's message. *)
Definition getSigningKey (lib : JwtLibrary) (kid : JsValue) (uri : string)
    (instance : option string) : (string + string) * option string :=
  let '(client, instance') := getJwksClient uri instance in
  (match jwks_getSigningKey lib client kid with
   | KeyError message => inr message
   | KeyMissing => inr "No signing key found"
   | KeyFound publicKey => inl publicKey
   end, instance').

(** The settled promise of [verifyToken], the calls it made, and the
    client instance it leaves. *)
Record Verification : Type := mkVerification {
  calls : list LibraryCall;
  result : JwtPayload + string;
  instance : option string
}.

(** [verifyToken(token, config)]; the [catch] only logs and rethrows. *)
Definition verifyToken (lib : JwtLibrary) (base : JwtConfig) (token : string)
    (config : PartialConfig) (inst : option string) : Verification :=
  let cfg := mergeConfig base config in
  match jwt_decode lib token with
  | None => mkVerification [CallDecode token] (inr "Invalid token format") inst
  | Some decoded =>
      let kid := getField (jwtHeader decoded) "kid" in
      if negb (truthy kid)
      then mkVerification [CallDecode token]
             (inr "No key ID (kid) found in token header") inst
      else
        let client := fst (getJwksClient (jwksUri cfg) inst) in
        match getSigningKey lib kid (jwksUri cfg) inst with
        | (inr message, inst') =>
            mkVerification [CallDecode token; CallGetSigningKey client kid]
              (inr message) inst'
        | (inl signingKey, inst') =>
            let options := {| optIssuer := issuer cfg;
                              optAudience := audience cfg;
                              algorithms := ["RS256"] |} in
            mkVerification
              [CallDecode token; CallGetSigningKey client kid;
               CallVerify token signingKey options]
              (jwt_verify lib token signingKey options) inst'
        end
  end.

(** [decodeToken(token)]: the payload, or the thrown message. *)
Definition decodeToken (lib : JwtLibrary) (token : string) : JwtPayload + string :=
  match jwt_decode lib token with
  | None => inr "Invalid token format"
  | Some decoded => inl (jwtPayload decoded)
  end.

(** The signing algorithm a token's header names. *)
Definition algorithmOf (decoded : CompleteJwt) : JsValue :=
  getField (jwtHeader decoded) "alg".

(** The contract of the [algorithms] option of [jwt.verify], as
    jsonwebtoken documents it: a token whose header names an algorithm
    outside the list is refused. *)
Definition honoursAlgorithms (lib : JwtLibrary) : Prop :=
  forall token key options decoded,
    jwt_decode lib token = Some decoded ->
    (forall a, In a (algorithms options) -> algorithmOf decoded <> JsString a) ->
    exists message, jwt_verify lib token key options = inr message.

(** The message of jsonwebtoken's [TokenExpiredError]. *)
Definition jwtExpired : string := "jwt expired".

End TokenValidator.

(* ===================================================================== *)
(** * middleware/auth.ts and routes/sse.ts *)
(* ===================================================================== *)

Module Server.

Import JsString.

(** The calls of the server code that are neither response writes nor
    continuations. *)
Inductive ServerEffect : Type :=
| GetTransport (sessionId : string)
| ExtractToken
| VerifyToken (token : string)
| DecodeToken (token : string)
| UnhandledRejection (e : string)
| SetCorsHeaders.

(** A registered SSE transport: what its [handlePostMessage] does. *)
Record Transport : Type := mkTransport {
  handlePostMessage : IncomingMessage -> Prog ServerEffect Empty_set
}.

(** What the server code is run against: the session registry, the
    platform's URL constructor ([urlOk u host] for [new URL(u, base)],
    [absoluteUrlOk u] for [new URL(u)]), and the token validator's
    packages, configuration and JWKS client instance. *)
Record Env : Type := mkEnv {
  transports : gmap string Transport;
  urlOk : string -> string -> bool;
  absoluteUrlOk : string -> bool;
  lib : TokenValidator.JwtLibrary;
  config : TokenValidator.JwtConfig;
  jwksInstance : option string
}.

(** Modelled from the spec: [getTransport] of the module [../mcp], which
    is not among the sources; "lookup(sessionId) -> connectionHandle | not
    found" on the session registry. *)
Definition getTransport (env : Env) (sessionId : string) : option Transport :=
  transports env !! sessionId.

(** [req.headers.host || "localhost"] *)
Definition hostOf (req : IncomingMessage) : string :=
  match headerString "host" (headers req) with
  | Some h => if String.eqb h "" then "localhost" else h
  | None => "localhost"
  end.

(** [`${req.url}`] *)
Definition urlText (req : IncomingMessage) : string :=
  default "undefined" (url req).

(** [req.url?.includes(s)] as a condition. *)
Definition urlIncludes (req : IncomingMessage) (s : string) : bool :=
  match url req with
  | Some u => includes u s
  | None => false
  end.

(** [Array.isArray(value) ? value[0] : value], then the test of the
    bearer prefix and [substring(7)]. *)
Definition bearerToken (value : HeaderValue) : option string :=
  let authHeader :=
    match value with
    | HString v => Some v
    | HArray vs => head vs
    end in
  match authHeader with
  | Some a =>
      if negb (String.eqb a "") && startsWith (toLowerCase a) "bearer "
      then Some (substringFrom 7 a)
      else None
  | None => None
  end.

(** The loop over [Object.entries(req.headers)]; [acc] is
    [(token, source)]. *)
Fixpoint scanHeaders (hs : list (string * HeaderValue)) (acc : JsValue * string)
    : JsValue * string :=
  match hs with
  | [] => acc
  | (key, value) :: rest =>
      if String.eqb (toLowerCase key) "authorization"
      then match bearerToken value with
           | Some t => (JsString t, "Authorization header")
           | None => scanHeaders rest acc
           end
      else scanHeaders rest acc
  end.

(** "If not found, check URL parameter" *)
Definition scanUrl (env : Env) (req : IncomingMessage) (acc : JsValue * string)
    : JsValue * string :=
  let '(token, source) := acc in
  if negb (truthy token) && urlIncludes req "?"
  then match Url.searchParam (urlOk env) (default "" (url req)) (hostOf req) "access_token" with
       | None => acc
       | Some None => (JsNull, source)
       | Some (Some t) =>
           (JsString t, if negb (String.eqb t "") then "URL parameter" else source)
       end
  else acc.

(** The loop over [req.headers.cookie.split(';')]. *)
Fixpoint scanCookies (cookies : list string) (acc : JsValue * string) : JsValue * string :=
  match cookies with
  | [] => acc
  | cookie :: rest =>
      match split "=" (trim cookie) with
      | name :: more =>
          if String.eqb name "access_token"
          then (match more with
                | value :: _ => JsString value
                | [] => JsUndefined
                end, "Cookie")
          else scanCookies rest acc
      | [] => scanCookies rest acc
      end
  end.

(** "If still not found, check cookies" *)
Definition scanCookieHeader (req : IncomingMessage) (acc : JsValue * string)
    : JsValue * string :=
  match headerString "cookie" (headers req) with
  | Some c =>
      if negb (truthy (fst acc)) && negb (String.eqb c "")
      then scanCookies (split ";" c) acc
      else acc
  | None => acc
  end.

(** [req.method === 'POST' &&
     req.headers['content-type']?.includes('application/json')] *)
Definition isJsonPost (req : IncomingMessage) : bool :=
  match method req, headerString "content-type" (headers req) with
  | Some m, Some ct => String.eqb m "POST" && includes ct "application/json"
  | _, _ => false
  end.

(** "Check for token in request body (POST requests)" *)
Definition scanBody (req : IncomingMessage) (acc : JsValue * string) : JsValue * string :=
  if negb (truthy (fst acc)) && isJsonPost req
  then if truthy (body req) && truthy (getField (body req) "token")
       then (getField (body req) "token", "Request body")
       else acc
  else acc.

(** [extractToken(req)]: [(token, source)]. *)
Definition extractToken (env : Env) (req : IncomingMessage) : JsValue * string :=
  scanBody req
    (scanCookieHeader req
       (scanUrl env req
          (scanHeaders (headers req) (JsNull, "none")))).

(** [{ error: message }] *)
Definition errorBody (message : string) : Body :=
  Json (JsObject [("error", JsString message)]).

(** [{ error: "Unauthorized", code: 401, message }] *)
Definition unauthorizedBody (message : string) : Body :=
  Json (JsObject [("error", JsString "Unauthorized"); ("code", JsNumber 401);
                  ("message", JsString message)]).

(** The [catch] of [authMiddleware]'s outer [try]. *)
Definition authFailure : Prog ServerEffect unit :=
  respond 500 (errorBody "Internal Server Error during authentication") Return.

(** The [catch] of [simpleAuthMiddleware]'s outer [try]. *)
Definition simpleAuthFailure : Prog ServerEffect unit :=
  respond 500 (errorBody "Internal Server Error") Return.

(** [handleUnauthorized(req, res, errorMessage)], called inside the outer
    [try] of [authMiddleware]. *)
Definition handleUnauthorized (req : IncomingMessage) (errorMessage : string)
    : Prog ServerEffect unit :=
  if urlIncludes req "/.well-known/" then Return
  else WriteHead 401 (End (errorBody errorMessage) Return) authFailure.

(** "Skip auth for discovery endpoints and OPTIONS requests" *)
Definition skipsAuth (req : IncomingMessage) : bool :=
  urlIncludes req "/.well-known/"
  || match method req with Some m => String.eqb m "OPTIONS" | None => false end
  || match url req with Some u => String.eqb u "/ping" | None => false end.

(** [new Date(seconds * 1000).toISOString()] throws a RangeError for a
    time that is not a number or is out of the range of [Date]. *)
Definition isoDateThrows (seconds : option Z) : bool :=
  match seconds with
  | None => true
  | Some n => (8640000000000000 <? Z.abs (n * 1000))%Z
  end.

(** [next()] neither awaited nor returned: a rejection is nobody's. *)
Definition detachedNext : Prog ServerEffect unit :=
  Call tt (fun o => match o with
                    | Normal => Return
                    | Thrown e => Do (UnhandledRejection e) Return
                    end).

(** "Check if this is a messages request with a sessionId": the program
    that follows is [otherwise] unless the session is found. *)
Definition sessionCheck (env : Env) (req : IncomingMessage)
    (otherwise : Prog ServerEffect unit) : Prog ServerEffect unit :=
  match url req with
  | Some u =>
      if startsWith u "/messages" && includes u "sessionId="
      then match Url.searchParam (urlOk env) u (hostOf req) "sessionId" with
           | Some (Some sessionId) =>
               if negb (String.eqb sessionId "")
               then Do (GetTransport sessionId)
                      (match getTransport env sessionId with
                       | Some _ => returnNext
                       | None => otherwise
                       end)
               else otherwise
           | _ => otherwise
           end
      else otherwise
  | None => otherwise
  end.

(** The verification made by the middleware: [verifyToken(token)]. *)
Definition verify (env : Env) (token : string) : TokenValidator.JwtPayload + string :=
  TokenValidator.result
    (TokenValidator.verifyToken (lib env) (config env) token
       TokenValidator.noOverride (jwksInstance env)).

(** The [catch] of [authMiddleware]'s inner [try]. *)
Definition authRejected (req : IncomingMessage) (message : string)
    : Prog ServerEffect unit :=
  if includes message "expired"
  then handleUnauthorized req "Unauthorized - Token expired"
  else handleUnauthorized req ("Token verification failed: " ++ message).

(** [authMiddleware(req, res, next)] *)
Definition authMiddleware (env : Env) (req : IncomingMessage) : Prog ServerEffect unit :=
  if skipsAuth req then returnNext
  else
    sessionCheck env req
      (Do ExtractToken
         (let '(token, source) := extractToken env req in
          if negb (truthy token)
          then handleUnauthorized req
                 ("No valid token provided for request to " ++ urlText req)
          else match token with
               | JsString t =>
                   if trimIsEmpty t
                   then handleUnauthorized req
                          ("No valid token provided for request to " ++ urlText req)
                   else
                     Do (VerifyToken t)
                        (match verify env t with
                         | inl decodedToken =>
                             if isoDateThrows (TokenValidator.exp decodedToken)
                             then authRejected req "Invalid time value"
                             else detachedNext
                         | inr message => authRejected req message
                         end)
               | _ => authFailure
               end)).

(** The 401 of [simpleAuthMiddleware], written inside its outer [try]. *)
Definition simpleUnauthorized (message : string) : Prog ServerEffect unit :=
  WriteHead 401 (End (unauthorizedBody message) Return) simpleAuthFailure.

(** [simpleAuthMiddleware(req, res, next, validateToken)] *)
Definition simpleAuthMiddleware (env : Env) (validateToken : bool)
    (req : IncomingMessage) : Prog ServerEffect unit :=
  if skipsAuth req then returnNext
  else
    sessionCheck env req
      (Do ExtractToken
         (let '(token, source) := extractToken env req in
          if negb (truthy token) then simpleUnauthorized "No valid token provided"
          else match token with
               | JsString t =>
                   if trimIsEmpty t then simpleUnauthorized "No valid token provided"
                   else if validateToken
                   then
                     Do (VerifyToken t)
                        (match verify env t with
                         | inl decodedToken =>
                             if isoDateThrows (TokenValidator.exp decodedToken)
                                || match TokenValidator.iat decodedToken with
                                   | Some i => negb (i =? 0)%Z && isoDateThrows (Some i)
                                   | None => false
                                   end
                             then simpleUnauthorized "Invalid token: Invalid time value"
                             else detachedNext
                         | inr message => simpleUnauthorized ("Invalid token: " ++ message)
                         end)
                   else Do (DecodeToken t) detachedNext
               | _ => simpleAuthFailure
               end)).

(** [sseMessagesHandler(req, res, url)] *)
Definition sseMessagesHandler (env : Env) (req : IncomingMessage) (u : string)
    : Prog ServerEffect Empty_set :=
  let parsed :=
    if startsWith u "http"
    then (if absoluteUrlOk env u then Some (Url.parseQuery (Url.queryOf u)) else None)
    else (if urlOk env u (hostOf req) then Some (Url.parseQuery (Url.queryOf u)) else None) in
  match parsed with
  | None => Throw "Invalid URL"
  | Some params =>
      Observe (fun r =>
        if headersSent r then Throw "ERR_HTTP_HEADERS_SENT"
        else
          Do SetCorsHeaders
            (match Url.getParam "sessionId" params with
             | Some sessionId =>
                 if String.eqb sessionId ""
                 then respond 400 (errorBody "No sessionId provided") Return
                 else
                   Do (GetTransport sessionId)
                      (match getTransport env sessionId with
                       | None => respond 404 (errorBody "Session not found or expired") Return
                       | Some activeTransport =>
                           andThen (handlePostMessage activeTransport req)
                             (fun o =>
                                match o with
                                | Normal => Return
                                | Thrown _ =>
                                    Observe (fun r' =>
                                      if writableEnded r' then Return
                                      else respond 500 (errorBody "Internal server error") Return)
                                end)
                       end)
             | None => respond 400 (errorBody "No sessionId provided") Return
             end))
  end.

(** The 404 of the messages handler. *)
Definition sessionNotFound : ServerResponse :=
  {| headersSent := true; statusCode := 404;
     sent := errorBody "Session not found or expired"; writableEnded := true |}.

(** The response a program leaves when its continuation does nothing. *)
Definition answerOf (p : Prog ServerEffect unit) : ServerResponse :=
  res (run (fun _ st => (Normal, st)) p (mkSt freshResponse [])).2.

(** The router of index.ts, without the SSE connection route's handler and
    the metadata handler, which are given. *)
Definition appRouter (env : Env)
    (protectedResourceHandler sseConnectionHandler : Router.RouteHandler ServerEffect)
    : Router.Router ServerEffect :=
  Router.post (Router.PathString "/messages*") (sseMessagesHandler env)
    (Router.get (Router.PathString "/sse") sseConnectionHandler
       (Router.get (Router.PathString "/.well-known/oauth-protected-resource")
          protectedResourceHandler
          (Router.use (simpleAuthMiddleware env true) Router.empty))).

End Server.

(* ===================================================================== *)
(** * The credential scan as the design document words it *)
(* ===================================================================== *)

Module Design.

Import JsString.

(** What each source yields on its own, in the words of the design: the
    conditions are written out here and owe nothing to the functions of
    auth.ts. *)

(** The text of a header value: the string, or the first of several. *)
Definition headerText (value : HeaderValue) : option string :=
  match value with
  | HString v => Some v
  | HArray vs => head vs
  end.

(** "Value beginning with the prefix [bearer ], matched
    case-insensitively": the first seven characters of the value are the
    word and the space, in whatever lettering; the token is what follows
    them. *)
Definition afterBearer (a : string) : option string :=
  if String.eqb (toLowerCase (String.substring 0 7 a)) "bearer "
  then Some (substringFrom 7 a)
  else None.

(** The first header named [authorization], in whatever lettering, whose
    value has the prefix. *)
Fixpoint headerSource (hs : list (string * HeaderValue)) : option string :=
  match hs with
  | [] => None
  | (key, value) :: rest =>
      if String.eqb (toLowerCase key) "authorization"
      then match headerText value with
           | Some a =>
               match afterBearer a with
               | Some t => Some t
               | None => headerSource rest
               end
           | None => headerSource rest
           end
      else headerSource rest
  end.

(** The host against which the URL of a request is read: the one the
    request names, or [localhost]. *)
Definition requestHost (req : IncomingMessage) : string :=
  match headerString "host" (headers req) with
  | Some "" | None => "localhost"
  | Some host => host
  end.

(** The [access_token] parameter of the query of the request's URL. *)
Definition urlSource (env : Server.Env) (req : IncomingMessage) : option string :=
  match url req with
  | Some u =>
      match Url.searchParam (Server.urlOk env) u (requestHost req) "access_token" with
      | Some (Some t) => Some t
      | _ => None
      end
  | None => None
  end.

Fixpoint cookieNamed (cookies : list string) : option JsValue :=
  match cookies with
  | [] => None
  | cookie :: rest =>
      match split "=" (trim cookie) with
      | name :: more =>
          if String.eqb name "access_token"
          then Some (match more with
                     | value :: _ => JsString value
                     | [] => JsUndefined
                     end)
          else cookieNamed rest
      | [] => cookieNamed rest
      end
  end.

Definition cookieSource (req : IncomingMessage) : option JsValue :=
  match headerString "cookie" (headers req) with
  | Some c => if String.eqb c "" then None else cookieNamed (split ";" c)
  | None => None
  end.

(** "Only for POST requests with JSON content type": the method is POST
    and the content type names [application/json]. *)
Definition jsonPost (req : IncomingMessage) : bool :=
  bool_decide (method req = Some "POST")
  && match headerString "content-type" (headers req) with
     | Some contentType => includes contentType "application/json"
     | None => false
     end.

(** The [token] field of a previously parsed body. *)
Definition bodySource (req : IncomingMessage) : option JsValue :=
  if jsonPost req && truthy (body req)
  then Some (getField (body req) "token")
  else None.

(** A source counts when its value is not empty. *)
Definition nonEmpty (v : option JsValue) : option JsValue :=
  match v with
  | Some x => if truthy x then Some x else None
  | None => None
  end.

(** The outcome of one step of the scan: the step's source wins, or the
    token stays empty. *)
Definition wins (source : option JsValue) (label : string) (after : JsValue * string) : Prop :=
  match nonEmpty source with
  | Some v => after = (v, label)
  | None => truthy (fst after) = false
  end.

(** "First source that yields a non-empty value wins; record which
    source": header, query parameter, cookie, body, in this order. *)
Definition scan (header query cookie body : option JsValue) : option (JsValue * string) :=
  match nonEmpty header with
  | Some t => Some (t, "Authorization header")
  | None =>
      match nonEmpty query with
      | Some t => Some (t, "URL parameter")
      | None =>
          match nonEmpty cookie with
          | Some t => Some (t, "Cookie")
          | None =>
              match nonEmpty body with
              | Some t => Some (t, "Request body")
              | None => None
              end
          end
      end
  end.

Definition firstSource (env : Server.Env) (req : IncomingMessage) : option (JsValue * string) :=
  scan (JsString <$> headerSource (headers req))
       (JsString <$> urlSource env req)
       (cookieSource req)
       (bodySource req).

(** The header source as the claim words it: the value "must start with a
    [Bearer ] prefix", compared as written. *)
Definition bearerTokenAsStated (value : HeaderValue) : option string :=
  match headerText value with
  | Some a => if startsWith a "Bearer " then Some (substringFrom 7 a) else None
  | None => None
  end.

Fixpoint headerSourceAsStated (hs : list (string * HeaderValue)) : option string :=
  match hs with
  | [] => None
  | (key, value) :: rest =>
      if String.eqb (toLowerCase key) "authorization"
      then match bearerTokenAsStated value with
           | Some t => Some t
           | None => headerSourceAsStated rest
           end
      else headerSourceAsStated rest
  end.

Definition firstSourceAsStated (env : Server.Env) (req : IncomingMessage)
    : option (JsValue * string) :=
  scan (JsString <$> headerSourceAsStated (headers req))
       (JsString <$> urlSource env req)
       (cookieSource req)
       (bodySource req).

End Design.

(* ===================================================================== *)
(** * The client: auth/token.ts and auth/oauth.ts *)
(* ===================================================================== *)

Module Client.

Import JsString.

(** [s.length]: UTF-16 code units of a UTF-8 text, one per character and
    two for a character of four bytes. *)
Fixpoint utf16Length (s : string) : nat :=
  match s with
  | EmptyString => 0
  | String c s' =>
      let n := nat_of_ascii c in
      (if (n <? 128)%nat then 1
       else if (n <? 192)%nat then 0
       else if (n <? 240)%nat then 1
       else 2) + utf16Length s'
  end.

(** ["=".repeat(n)] *)
Fixpoint repeatEquals (n : nat) : string :=
  match n with
  | O => EmptyString
  | S n' => String "="%char (repeatEquals n')
  end.

(** [.replace(/-/g, "+").replace(/_/g, "/")] *)
Fixpoint urlSafeToStandard (s : string) : string :=
  match s with
  | EmptyString => EmptyString
  | String c s' =>
      String (if Ascii.eqb c "-" then "+"%char
              else if Ascii.eqb c "_" then "/"%char else c)
             (urlSafeToStandard s')
  end.

(** [Buffer.from(s, "base64").toString()], which does not throw, and
    [JSON.parse], which does ([None]). *)
Record Codec : Type := mkCodec {
  base64ToUtf8 : string -> string;
  JSON_parse : string -> option JsValue
}.

(** [{ error: message }] *)
Definition errorObject (message : string) : JsValue :=
  JsObject [("error", JsString message)].

(** [decodeBase64Part(b64)]; [None] is the TypeError of [b64.length] on
    [undefined], which is raised outside the function's own [try]. *)
Definition decodeBase64Part (codec : Codec) (b64 : option string) : option JsValue :=
  match b64 with
  | None => None
  | Some s =>
      let padding :=
        if (utf16Length s mod 4 =? 0)%nat then 0 else 4 - utf16Length s mod 4 in
      let padded := s ++ repeatEquals padding in
      let base64 := urlSafeToStandard padded in
      match JSON_parse codec (base64ToUtf8 codec base64) with
      | Some v => Some v
      | None => Some (errorObject "Could not parse JSON")
      end
  end.

(** The string given to the base64 decoder for a segment, and the value
    [decodeBase64Part] returns for a segment that is there. *)
Definition standardForm (s : string) : string :=
  urlSafeToStandard
    (s ++ repeatEquals (if (utf16Length s mod 4 =? 0)%nat then 0
                        else 4 - utf16Length s mod 4)).


Record DecodedToken : Type := mkDecoded {
  header : JsValue;
  payload : JsValue;
  hasSignature : bool
}.

(** The value returned by the [catch] of [decodeToken]. *)
Definition invalidToken : DecodedToken :=
  {| header := errorObject "Invalid token format";
     payload := errorObject "Invalid token format";
     hasSignature := false |}.

(** [decodeToken(token)] *)
Definition decodeToken (codec : Codec) (token : string) : DecodedToken :=
  let parts := split "." token in
  let headerBase64 := parts !! 0 in
  let payloadBase64 := parts !! 1 in
  let signatureBase64 := parts !! 2 in
  match decodeBase64Part codec headerBase64, decodeBase64Part codec payloadBase64 with
  | Some h, Some p =>
      {| header := h; payload := p;
         hasSignature := match signatureBase64 with
                         | Some s => negb (String.eqb s "")
                         | None => false
                         end |}
  | _, _ => invalidToken
  end.

(** ** config.ts *)

Definition CLIENT_ID : string := "mcp-client".
Definition CLIENT_SECRET : string := "mcp-client-secret".
Definition REDIRECT_URI : string := "http://localhost:3000/callback".
Definition PORT : Z := 3000.
Definition MCP_SERVER_URL : string := "http://localhost:3001".

(** ** The callback listener of [openAuthorizationWindow] *)

(** A value of the object [querystring.parse] returns. *)
Inductive QueryValue : Type :=
| QString (s : string)
| QArray (items : list string).

Fixpoint valuesOf (name : string) (pairs : list (string * string)) : list string :=
  match pairs with
  | [] => []
  | (n, v) :: rest =>
      if String.eqb n name then v :: valuesOf name rest else valuesOf name rest
  end.

(** [querystring.parse(s)[name]]: repeated names give an array.  The
    parser reads the first 1000 pieces between [&] ([maxKeys]): every
    piece counts, the empty ones too, which it then skips. *)
Definition queryField (name s : string) : option QueryValue :=
  match valuesOf name
          (map Url.parsePair
             (filter (fun piece => piece <> "") (take 1000 (split "&" s)))) with
  | [] => None
  | [v] => Some (QString v)
  | vs => Some (QArray vs)
  end.

Fixpoint joinComma (items : list string) : string :=
  match items with
  | [] => ""
  | [x] => x
  | x :: rest => x ++ "," ++ joinComma rest
  end.

(** [String(v)] for a query value or [undefined]. *)
Definition queryText (v : option QueryValue) : string :=
  match v with
  | None => "undefined"
  | Some (QString s) => s
  | Some (QArray items) => joinComma items
  end.

Definition queryTruthy (v : option QueryValue) : bool :=
  match v with
  | None => false
  | Some (QString s) => negb (String.eqb s "")
  | Some (QArray _) => true
  end.

(** The pages the listener answers with. *)
Inductive Page : Type :=
| SuccessPage (code : string)
| ErrorPage (error description : string)
| NotFoundPage.

(** The promise of [openAuthorizationWindow] with its server: whether the
    server accepts connections, whether an exception escaped a request
    listener, what the promise settled to (the code, or the message of the
    rejection), and the answers given so far. *)
Record Listener : Type := mkListener {
  listening : bool;
  crashed : bool;
  settled : option (string + string);
  answers : list (Z * Page)
}.

(** After [server.listen(PORT)]. *)
Definition listenerStarted : Listener :=
  {| listening := true; crashed := false; settled := None; answers := [] |}.

(** [resolve]/[reject] of a promise: only the first one counts. *)
Definition settle (r : string + string) (p : option (string + string))
    : option (string + string) :=
  match p with
  | None => Some r
  | Some _ => p
  end.

Definition answer (status : Z) (page : Page) (l : Listener) : Listener :=
  {| listening := listening l; crashed := crashed l; settled := settled l;
     answers := answers l ++ [(status, page)] |}.

Definition settleWith (r : string + string) (l : Listener) : Listener :=
  {| listening := listening l; crashed := crashed l;
     settled := settle r (settled l); answers := answers l |}.

(** [server.close()] *)
Definition close (l : Listener) : Listener :=
  {| listening := false; crashed := crashed l; settled := settled l;
     answers := answers l |}.

(** The request listener given to [http.createServer], for a request the
    server accepted. *)
Definition requestListener (u : option string) (l : Listener) : Listener :=
  match u with
  | Some u' =>
      if startsWith u' "/callback"
      then
        let q := default "" (split "?" u' !! 1) in
        let error := queryField "error" q in
        let error_description := queryField "error_description" q in
        let code := queryField "code" q in
        if queryTruthy error
        then
          let errorMessage :=
            match error_description with
            | Some (QString s) => s
            | Some (QArray items) => joinComma items
            | None => ""
            end in
          settleWith (inr ("Authorization error: " ++ queryText error))
            (answer 400 (ErrorPage (queryText error) errorMessage) l)
        else
          match code with
          | Some (QString c) =>
              if String.eqb c ""
              then settleWith (inr "No authorization code received")
                     (answer 400 (ErrorPage "missing_code" "No authorization code received") l)
              else settleWith (inl c) (close (answer 200 (SuccessPage c) l))
          | None =>
              settleWith (inr "No authorization code received")
                (answer 400 (ErrorPage "missing_code" "No authorization code received") l)
          | Some (QArray _) =>
              (* [code.substring] is not a function: thrown after
                 [writeHead(200)], so the [writeHead(400)] of the [catch]
                 throws in turn and nothing rejects the promise *)
              {| listening := false; crashed := true; settled := settled l;
                 answers := answers l |}
          end
      else answer 404 NotFoundPage l
  | None => answer 404 NotFoundPage l
  end.

(** One incoming request on a new connection: served only while the
    server listens.  (For the requests on a connection kept alive from
    before [server.close()], see [onArrival] below.) *)
Definition onRequest (l : Listener) (u : option string) : Listener :=
  if listening l && negb (crashed l) then requestListener u l else l.

(** The listener after the requests that arrive, in order. *)
Definition serve (requests : list (option string)) : Listener :=
  fold_left onRequest requests listenerStarted.

(** ** The token exchange and the flow *)

(** [`${n}`] for an integer below 1e21 in magnitude, which JavaScript
    prints in full (beyond, it prints an exponent); the status of a
    response is such a number. *)
Definition decimal (n : Z) : string := NilZero.string_of_int (Z.to_int n).

(** No character of the text is a space. *)
Definition spaceFree (s : string) : Prop :=
  forall c, In c (list_ascii_of_string s) -> c <> " "%char.

(** The first character of a UTF-8 text: its first byte and the
    continuation bytes that follow it. *)
Fixpoint continuation (s : string) : string :=
  match s with
  | String c s' =>
      if (128 <=? nat_of_ascii c)%nat && (nat_of_ascii c <? 192)%nat
      then String c (continuation s')
      else EmptyString
  | EmptyString => EmptyString
  end.

(** [`${v}`] *)
Fixpoint jsToString (v : JsValue) : string :=
  match v with
  | JsUndefined => "undefined"
  | JsNull => "null"
  | JsBool b => if b then "true" else "false"
  | JsNumber n => decimal n
  | JsString s => s
  | JsArray items =>
      (fix join (l : list JsValue) : string :=
         let item x := match x with
                       | JsUndefined | JsNull => ""
                       | _ => jsToString x
                       end in
         match l with
         | [] => ""
         | [x] => item x
         | x :: rest => item x ++ "," ++ join rest
         end) items
  | JsObject _ => "[object Object]"
  end.

(** [const [first] = v]: [None] is the TypeError for a value that cannot
    be iterated. *)
Definition firstOf (v : JsValue) : option JsValue :=
  match v with
  | JsArray [] => Some JsUndefined
  | JsArray (x :: _) => Some x
  | JsString EmptyString => Some JsUndefined
  | JsString (String c s) => Some (JsString (String c (continuation s)))
  | _ => None
  end.

(** [v.name]: [None] is the TypeError of a property read on [undefined] or
    [null]. *)
Definition property (v : JsValue) (name : string) : option JsValue :=
  match v with
  | JsUndefined | JsNull => None
  | _ => Some (getField v name)
  end.

Record FetchRequest : Type := mkFetchRequest {
  target : JsValue;
  fetchMethod : string;
  fetchHeaders : list (string * string);
  fetchBody : string
}.

(** A response: its status, what [text()] gives, and what [json()] gives
    (the value, or the message of its rejection). *)
Record FetchResponse : Type := mkFetchResponse {
  status : Z;
  text : string;
  json : JsValue + string
}.

(** [response.ok] *)
Definition ok (r : FetchResponse) : bool :=
  (200 <=? status r)%Z && (status r <=? 299)%Z.

(** The network and the encoders of the platform: [fetch] (the response,
    or the message of its rejection), [Buffer.from(s).toString("base64")],
    [querystring.stringify], and whether [new URL(v)] accepts a value. *)
Record Platform : Type := mkPlatform {
  fetch : FetchRequest -> FetchResponse + string;
  toBase64 : string -> string;
  stringify : list (string * string) -> string;
  absoluteUrlOk : JsValue -> bool
}.

Definition getRequest (u : string) : FetchRequest :=
  {| target := JsString u; fetchMethod := "GET"; fetchHeaders := []; fetchBody := "" |}.

(** [fetchResourceMetadata()] *)
Definition fetchResourceMetadata (pf : Platform) : JsValue + string :=
  match fetch pf (getRequest "http://localhost:3001/.well-known/oauth-protected-resource") with
  | inr e => inr e
  | inl resourceResponse =>
      if negb (ok resourceResponse)
      then inr ("Failed to access protected resource: " ++ decimal (status resourceResponse))
      else json resourceResponse
  end.

(** [fetchAuthServerMetadata(authServerUrl)] *)
Definition fetchAuthServerMetadata (pf : Platform) (authServerUrl : JsValue)
    : JsValue + string :=
  let metadataUrl := jsToString authServerUrl ++ "/.well-known/oauth-authorization-server" in
  match fetch pf (getRequest metadataUrl) with
  | inr e => inr e
  | inl metadataResponse =>
      if negb (ok metadataResponse)
      then inr ("Failed to fetch authorization server metadata: "
                ++ decimal (status metadataResponse))
      else json metadataResponse
  end.

(** The message of the error thrown for a response that is not [ok]. *)
Definition tokenExchangeFailed (st : Z) (errorText : string) : string :=
  "Token exchange failed: " ++ decimal st ++ " - " ++ errorText.

Definition tokenRequest (pf : Platform) (code : string) (tokenEndpoint : JsValue)
    : FetchRequest :=
  {| target := tokenEndpoint;
     fetchMethod := "POST";
     fetchHeaders :=
       [("Content-Type", "application/x-www-form-urlencoded");
        ("Authorization", "Basic " ++ toBase64 pf (CLIENT_ID ++ ":" ++ CLIENT_SECRET))];
     fetchBody :=
       stringify pf [("grant_type", "authorization_code"); ("code", code);
                     ("client_id", CLIENT_ID); ("client_secret", CLIENT_SECRET);
                     ("redirect_uri", REDIRECT_URI)] |}.

(** [exchangeCodeForToken(code, tokenEndpoint)]: [tokenData], or the
    message of the rejection. *)
Definition exchangeCodeForToken (pf : Platform) (code : string) (tokenEndpoint : JsValue)
    : JsValue + string :=
  match fetch pf (tokenRequest pf code tokenEndpoint) with
  | inr e => inr e
  | inl tokenResponse =>
      if negb (ok tokenResponse)
      then inr (tokenExchangeFailed (status tokenResponse) (text tokenResponse))
      else
        match json tokenResponse with
        | inr e => inr e
        | inl tokenData =>
            match property tokenData "access_token" with
            | Some (JsString _) => inl tokenData
            | _ => inr "TypeError"
            end
        end
  end.

(** How a flow ends for its caller. *)
Inductive FlowResult : Type :=
| AccessToken (token : JsValue)
| Failed (message : string)
| Pending.

(** [openAuthorizationWindow(authorizationEndpoint)] for the requests the
    callback server receives: the code, the rejection, or a promise that
    never settles. *)
Definition openAuthorizationWindow (pf : Platform) (authorizationEndpoint : JsValue)
    (requests : list (option string)) : option (string + string) :=
  if absoluteUrlOk pf authorizationEndpoint
  then settled (serve requests)
  else Some (inr "Invalid URL").

(** [startOAuthFlow()]; the [catch] logs and rethrows. *)
Definition startOAuthFlow (pf : Platform) (requests : list (option string)) : FlowResult :=
  match fetchResourceMetadata pf with
  | inr e => Failed e
  | inl resourceMetadata =>
      match property resourceMetadata "authorization_servers" with
      | None => Failed "TypeError"
      | Some servers =>
          match firstOf servers with
          | None => Failed "TypeError"
          | Some authServerUrl =>
              match fetchAuthServerMetadata pf authServerUrl with
              | inr e => Failed e
              | inl serverMetadata =>
                  match property serverMetadata "authorization_endpoint",
                        property serverMetadata "token_endpoint" with
                  | Some authorization_endpoint, Some token_endpoint =>
                      match openAuthorizationWindow pf authorization_endpoint requests with
                      | None => Pending
                      | Some (inr e) => Failed e
                      | Some (inl code) =>
                          match exchangeCodeForToken pf code token_endpoint with
                          | inr e => Failed e
                          | inl tokenData => AccessToken (getField tokenData "access_token")
                          end
                      end
                  | _, _ => Failed "TypeError"
                  end
              end
          end
      end
  end.

End Client.

(* ===================================================================== *)
(** * Concrete routers and requests *)
(* ===================================================================== *)

Module Scenario.

(** A middleware that waits for [next()] twice. *)
Definition callsNextTwice : Router.MiddlewareHandler Empty_set :=
  fun _ => Call tt (fun _ => Call tt (fun _ => Return)).

(** A middleware that only passes on: [return next()]. *)
Definition passesOn : Router.MiddlewareHandler Empty_set := fun _ => returnNext.

(** A handler that leaves the response open, as a streaming handler does. *)
Definition leavesOpen : Router.RouteHandler Empty_set := fun _ _ => Return.

(** A handler that answers 200. *)
Definition answersOk : Router.RouteHandler Empty_set :=
  fun _ _ => respond 200 (Text "ok") Return.

Definition getSse : IncomingMessage :=
  {| method := Some "GET"; url := Some "/sse"; headers := []; body := JsUndefined |}.

Definition twiceRouter : Router.Router Empty_set :=
  Router.get (Router.PathString "/sse") leavesOpen (Router.use callsNextTwice Router.empty).

Definition plainRouter : Router.Router Empty_set :=
  Router.get (Router.PathString "/sse") answersOk (Router.use passesOn Router.empty).

(** A middleware that answers 401 and then throws. *)
Definition answersThenThrows : Router.MiddlewareHandler Empty_set :=
  fun _ => respond 401 (Text "Unauthorized") (Throw "boom").

Definition throwingRouter : Router.Router Empty_set :=
  Router.get (Router.PathString "/sse") answersOk
    (Router.use answersThenThrows Router.empty).

Definition sseRoute : Router.Route Empty_set :=
  Router.mkRoute "GET" (Router.PathString "/sse") answersOk.

Definition start : St Empty_set := mkSt freshResponse [].

(** ** A token library and a server environment

    Tokens are named by what they are: ["valid"], ["old"] (expired),
    ["forged"] (bad signature), ["hs"] (signed with HS256), ["nokid"] (no
    key identifier) and ["tls"] (its key set cannot be fetched). *)

Definition rs256Header (kid : string) : JsValue :=
  JsObject [("alg", JsString "RS256"); ("kid", JsString kid)].

Definition somePayload : TokenValidator.JwtPayload :=
  {| TokenValidator.sub := JsString "alice";
     TokenValidator.iss := JsString "http://localhost:5556/dex";
     TokenValidator.aud := JsString "mcp-client";
     TokenValidator.exp := Some 2000000000%Z;
     TokenValidator.iat := Some 1700000000%Z |}.

Definition toyDecode (token : string) : option TokenValidator.CompleteJwt :=
  if String.eqb token "valid" || String.eqb token "old" || String.eqb token "forged"
  then Some (TokenValidator.mkJwt (rs256Header "k1") somePayload)
  else if String.eqb token "hs"
  then Some (TokenValidator.mkJwt
               (JsObject [("alg", JsString "HS256"); ("kid", JsString "k1")]) somePayload)
  else if String.eqb token "nokid"
  then Some (TokenValidator.mkJwt (JsObject [("alg", JsString "RS256")]) somePayload)
  else if String.eqb token "tls"
  then Some (TokenValidator.mkJwt (rs256Header "k2") somePayload)
  else None.

Definition allowed (algorithms : list string) (alg : JsValue) : bool :=
  match alg with
  | JsString a => existsb (String.eqb a) algorithms
  | _ => false
  end.

Definition toyVerify (token key : string) (options : TokenValidator.VerifyOptions)
    : TokenValidator.JwtPayload + string :=
  match toyDecode token with
  | None => inr "jwt malformed"
  | Some decoded =>
      if negb (allowed (TokenValidator.algorithms options)
                 (TokenValidator.algorithmOf decoded))
      then inr "invalid algorithm"
      else if String.eqb token "forged" then inr "invalid signature"
      else if String.eqb token "old" then inr TokenValidator.jwtExpired
      else inl (TokenValidator.jwtPayload decoded)
  end.

Definition toyKeys (client : string) (kid : JsValue) : TokenValidator.SigningKeyResult :=
  match kid with
  | JsString k =>
      if String.eqb k "k1" then TokenValidator.KeyFound "-----BEGIN PUBLIC KEY-----"
      else if String.eqb k "k2" then TokenValidator.KeyError "certificate has expired"
      else TokenValidator.KeyMissing
  | _ => TokenValidator.KeyMissing
  end.

Definition toyLibrary : TokenValidator.JwtLibrary :=
  {| TokenValidator.jwt_decode := toyDecode;
     TokenValidator.jwt_verify := toyVerify;
     TokenValidator.jwks_getSigningKey := toyKeys |}.

(** A transport that accepts every message with 202. *)
Definition accepting : Server.Transport :=
  {| Server.handlePostMessage := fun _ => respond 202 (Text "Accepted") Return |}.

(** One open session, ["s1"].  Of the URL constructor the scenarios use
    one refusal, documented by the URL Standard: a base whose host has a
    space is not a URL. *)
Definition env : Server.Env :=
  {| Server.transports := {["s1" := accepting]};
     Server.urlOk := fun _ host => negb (JsString.includes host " ");
     Server.absoluteUrlOk := fun _ => true;
     Server.lib := toyLibrary;
     Server.config := TokenValidator.defaultConfig;
     Server.jwksInstance := None |}.

Definition request (m u : string) (hs : list (string * HeaderValue)) : IncomingMessage :=
  {| method := Some m; url := Some u; headers := hs; body := JsUndefined |}.

Definition bearer (token : string) : list (string * HeaderValue) :=
  [("authorization", HString ("Bearer " ++ token))].

(** The router of index.ts over [env]; the two handlers that are not
    modelled answer 200. *)
Definition app : Router.Router Server.ServerEffect :=
  Server.appRouter env (fun _ _ => respond 200 (Text "metadata") Return)
    (fun _ _ => respond 200 (Text "stream") Return).

Definition fresh : St Server.ServerEffect := mkSt freshResponse [].

(** ** A codec and a network for the client

    The codec knows the segment [e30] (the object without fields) and
    nothing else; the network serves the two metadata documents and
    answers the token request as [tokenResponse] says. *)

Definition toyCodec : Client.Codec :=
  {| Client.base64ToUtf8 := fun s => if String.eqb s "e30=" then "{}" else "?";
     Client.JSON_parse := fun s => if String.eqb s "{}" then Some (JsObject []) else None |}.

Definition resourceMetadata : JsValue :=
  JsObject [("resource_name", JsString "My MCP Server");
            ("authorization_servers", JsArray [JsString "http://localhost:5558"])].

Definition serverMetadata : JsValue :=
  JsObject [("authorization_endpoint", JsString "http://localhost:5556/dex/auth");
            ("token_endpoint", JsString "http://localhost:5556/dex/token")].

Definition okJson (v : JsValue) : Client.FetchResponse :=
  {| Client.status := 200; Client.text := ""; Client.json := inl v |}.

Definition network (tokenResponse : Client.FetchResponse) (r : Client.FetchRequest)
    : Client.FetchResponse + string :=
  match Client.target r with
  | JsString u =>
      if String.eqb u "http://localhost:3001/.well-known/oauth-protected-resource"
      then inl (okJson resourceMetadata)
      else if String.eqb u "http://localhost:5558/.well-known/oauth-authorization-server"
      then inl (okJson serverMetadata)
      else if String.eqb u "http://localhost:5556/dex/token"
      then inl tokenResponse
      else inr "fetch failed"
  | _ => inr "fetch failed"
  end.

Definition platform (tokenResponse : Client.FetchResponse) : Client.Platform :=
  {| Client.fetch := network tokenResponse;
     Client.toBase64 := fun s => s;
     Client.stringify := fun _ => "";
     Client.absoluteUrlOk := fun _ => true |}.

Definition badRequest : Client.FetchResponse :=
  {| Client.status := 400; Client.text := "invalid_grant";
     Client.json := inr "Unexpected token" |}.

Definition granted : Client.FetchResponse :=
  okJson (JsObject [("access_token", JsString "eyJ.eyJ.sig");
                    ("token_type", JsString "bearer"); ("expires_in", JsNumber 3600)]).

End Scenario.

(* ===================================================================== *)
(** * Further concrete routers *)
(* ===================================================================== *)

Module Cases.

(** A handler that throws before it writes anything. *)
Definition failing : Router.RouteHandler Empty_set := fun _ _ => Throw "boom".

(** A handler that writes the head of a stream and then throws. *)
Definition failingMidStream : Router.RouteHandler Empty_set :=
  fun _ _ => WriteHead 200 (Throw "boom") (Throw "ERR_HTTP_HEADERS_SENT").

Definition failingRoute : Router.Route Empty_set :=
  Router.mkRoute "GET" (Router.PathString "/sse") failing.

(** No middleware, one failing route. *)
Definition bareRouter : Router.Router Empty_set :=
  Router.get (Router.PathString "/sse") failing Router.empty.

(** Two pass-through middlewares in front of the failing route. *)
Definition guardedRouter : Router.Router Empty_set :=
  Router.get (Router.PathString "/sse") failing
    (Router.use Scenario.passesOn (Router.use Scenario.passesOn Router.empty)).

Definition midStreamRouter : Router.Router Empty_set :=
  Router.get (Router.PathString "/sse") failingMidStream
    (Router.use Scenario.passesOn Router.empty).

Definition getOther : IncomingMessage :=
  {| method := Some "GET"; url := Some "/other"; headers := []; body := JsUndefined |}.

(** ** The router of index.ts with a stream handler that fails *)

Definition servesMetadata : Router.RouteHandler Server.ServerEffect :=
  fun _ _ => respond 200 (Text "metadata") Return.

Definition failingStream : Router.RouteHandler Server.ServerEffect :=
  fun _ _ => Throw "boom".

Definition failingApp : Router.Router Server.ServerEffect :=
  Server.appRouter Scenario.env servesMetadata failingStream.

Definition metadataRoute : Router.Route Server.ServerEffect :=
  Router.mkRoute "GET" (Router.PathString "/.well-known/oauth-protected-resource")
    servesMetadata.

Definition streamRoute : Router.Route Server.ServerEffect :=
  Router.mkRoute "GET" (Router.PathString "/sse") failingStream.

(** ** A token without an expiry

    The library of the scenarios, except that the payload of every token
    has no [exp] claim. *)

Definition undated : TokenValidator.JwtPayload :=
  {| TokenValidator.sub := JsString "alice";
     TokenValidator.iss := JsString "http://localhost:5556/dex";
     TokenValidator.aud := JsString "mcp-client";
     TokenValidator.exp := None;
     TokenValidator.iat := Some 1700000000%Z |}.

Definition undatedLibrary : TokenValidator.JwtLibrary :=
  {| TokenValidator.jwt_decode :=
       fun _ => Some (TokenValidator.mkJwt (Scenario.rs256Header "k1") undated);
     TokenValidator.jwt_verify := fun _ _ _ => inl undated;
     TokenValidator.jwks_getSigningKey := Scenario.toyKeys |}.

Definition undatedEnv : Server.Env :=
  {| Server.transports := ∅;
     Server.urlOk := fun _ _ => true;
     Server.absoluteUrlOk := fun _ => true;
     Server.lib := undatedLibrary;
     Server.config := TokenValidator.defaultConfig;
     Server.jwksInstance := None |}.

(** A JSON request whose body has a number for a token. *)
Definition numericToken : IncomingMessage :=
  {| method := Some "POST"; url := Some "/messages";
     headers := [("content-type", HString "application/json")];
     body := JsObject [("token", JsNumber 123)] |}.

(** A query that begins with [n] empty pieces:
    ["&".repeat(n) + q]. *)
Fixpoint afterEmptyPieces (n : nat) (q : string) : string :=
  match n with
  | O => q
  | S n' => String "&" (afterEmptyPieces n' q)
  end.

End Cases.

(* ===================================================================== *)
(** * How a request gets past the authentication middleware *)
(* ===================================================================== *)

Module Gate.

(** The middlewares of auth.ts as a router registers them:
    [authMiddleware], or
    [(req, res, next) => simpleAuthMiddleware(req, res, next, validateToken)]. *)
Inductive Kind : Type :=
| Full
| Simple (validateToken : bool).

Definition middlewareOf (env : Server.Env) (kind : Kind)
    : Router.MiddlewareHandler Server.ServerEffect :=
  match kind with
  | Full => Server.authMiddleware env
  | Simple validateToken => Server.simpleAuthMiddleware env validateToken
  end.

(** The request names, the way the session check reads it, a session of
    the registry. *)
Definition openSession (env : Server.Env) (req : IncomingMessage) : Prop :=
  exists u sid t,
    url req = Some u
    /\ JsString.startsWith u "/messages" = true
    /\ JsString.includes u "sessionId=" = true
    /\ Url.searchParam (Server.urlOk env) u (Server.hostOf req) "sessionId"
       = Some (Some sid)
    /\ sid <> ""
    /\ Server.getTransport env sid = Some t.

(** The registry lookups that the session check makes when it goes on to
    the credential: one, for a /messages URL that names a session the
    registry does not have; none otherwise. *)
Definition sessionProbe (env : Server.Env) (req : IncomingMessage)
    : list Server.ServerEffect :=
  match url req with
  | Some u =>
      if JsString.startsWith u "/messages" && JsString.includes u "sessionId="
      then match Url.searchParam (Server.urlOk env) u (Server.hostOf req) "sessionId" with
           | Some (Some sid) =>
               if negb (String.eqb sid "") then [Server.GetTransport sid] else []
           | _ => []
           end
      else []
  | None => []
  end.

(** The dates that a middleware logs of a verified payload can be
    formatted: [exp] by both, and [iat] when it is there by
    [simpleAuthMiddleware]. *)
Definition loggable (kind : Kind) (payload : TokenValidator.JwtPayload) : bool :=
  match kind with
  | Full => negb (Server.isoDateThrows (TokenValidator.exp payload))
  | Simple _ =>
      negb (Server.isoDateThrows (TokenValidator.exp payload)
            || match TokenValidator.iat payload with
               | Some i => negb (i =? 0)%Z && Server.isoDateThrows (Some i)
               | None => false
               end)
  end.

(** The request carries a token that is not blank and, unless the
    middleware is the one that does not validate, that [verifyToken]
    resolved to a payload whose dates could be logged. *)
Definition tokenAccepted (env : Server.Env) (kind : Kind) (req : IncomingMessage) : Prop :=
  exists t source,
    Server.extractToken env req = (JsString t, source)
    /\ JsString.trimIsEmpty t = false
    /\ (kind = Simple false
        \/ exists payload,
             Server.verify env t = inl payload /\ loggable kind payload = true).

(** A value that is a string, [null] or [undefined]. *)
Definition textual (v : JsValue) : bool :=
  match v with
  | JsString _ | JsNull | JsUndefined => true
  | _ => false
  end.

(** The 500 of the outer [catch] of a middleware. *)
Definition failureBody (kind : Kind) : Body :=
  match kind with
  | Full => Server.errorBody "Internal Server Error during authentication"
  | Simple _ => Server.errorBody "Internal Server Error"
  end.

(** The 401 of a middleware for a token that failed with [message]. *)
Definition rejectionBody (kind : Kind) (message : string) : Body :=
  match kind with
  | Full =>
      Server.errorBody (if JsString.includes message "expired"
                        then "Unauthorized - Token expired"
                        else "Token verification failed: " ++ message)
  | Simple _ => Server.unauthorizedBody ("Invalid token: " ++ message)
  end.

(** A finished response. *)
Definition answered (status : Z) (data : Body) : ServerResponse :=
  {| headersSent := true; statusCode := status; sent := data; writableEnded := true |}.

(** What a middleware does with a token it found before it goes on. *)
Definition tokenCheck (kind : Kind) (t : string) : Server.ServerEffect :=
  match kind with
  | Simple false => Server.DecodeToken t
  | _ => Server.VerifyToken t
  end.

(** A middleware program that settles the request on an unsent response:
    it calls its continuation, or it writes a 401 or a 500 and returns. *)
Inductive decides {E : Type} : Prog E unit -> Prop :=
| decides_call k : decides (Call tt k)
| decides_do e k : decides k -> decides (Do e k)
| decides_answer status data kfail :
    status = 401%Z \/ status = 500%Z ->
    decides (WriteHead status (End data Return) kfail).

(** A middleware program that goes on to its continuation without a look
    at the response. *)
Inductive passes {E : Type} : Prog E unit -> Prop :=
| passes_call k : passes (Call tt k)
| passes_do e k : passes k -> passes (Do e k).

End Gate.

(* ===================================================================== *)
(** * routes/protected-resource.ts *)
(* ===================================================================== *)

Module Routes.

(** The [metadata] object of the handler. *)
Definition metadata : JsValue :=
  JsObject [("resource_name", JsString "My MCP Server");
            ("authorization_servers", JsArray [JsString "http://localhost:5558"])].

(** [protectedResourceHandler(req, res)]: [setHeader] throws once the
    headers are sent; then [writeHead(200)] and [end] with the metadata as
    JSON.  (The response headers themselves are not part of
    [ServerResponse] here.) *)
Definition protectedResourceHandler : Router.RouteHandler Server.ServerEffect :=
  fun _ _ =>
    Observe (fun r =>
      if headersSent r then Throw "ERR_HTTP_HEADERS_SENT"
      else WriteHead 200 (End (Json metadata) Return) (Throw "ERR_HTTP_HEADERS_SENT")).

End Routes.

(* ===================================================================== *)
(** * The callback listener, request by request *)
(* ===================================================================== *)

Module Flow.

(** A request that the listener of [openAuthorizationWindow] takes for a
    callback: [req.url?.startsWith("/callback")]. *)
Definition isCallback (u : option string) : bool :=
  match u with
  | Some u' => JsString.startsWith u' "/callback"
  | None => false
  end.

(** A request as it reaches the callback server: its URL, and whether it
    comes on a connection that the server accepted earlier and that is
    kept alive.  [server.close()] stops the server from accepting
    connections and leaves such a connection open. *)
Record Arrival : Type := mkArrival {
  arrivalUrl : option string;
  keptAlive : bool
}.

Definition newConnection (u : option string) : Arrival :=
  {| arrivalUrl := u; keptAlive := false |}.

Definition sameConnection (u : option string) : Arrival :=
  {| arrivalUrl := u; keptAlive := true |}.

(** One arrival: the request listener runs when the server still accepts
    connections or the request comes on a connection it had accepted,
    unless an exception has escaped a listener before. *)
Definition onArrival (l : Client.Listener) (a : Arrival) : Client.Listener :=
  if (Client.listening l || keptAlive a) && negb (Client.crashed l)
  then Client.requestListener (arrivalUrl a) l
  else l.

Definition serveAll (arrivals : list Arrival) : Client.Listener :=
  fold_left onArrival arrivals Client.listenerStarted.

(** The code on the first success page among the answers. *)
Fixpoint firstSuccess (answers : list (Z * Client.Page)) : option string :=
  match answers with
  | [] => None
  | (_, Client.SuccessPage c) :: _ => Some c
  | _ :: rest => firstSuccess rest
  end.

(** What holds of the listener between two requests: while it listens it
    has not crashed, the promise is not resolved and no success page was
    sent; once the promise is resolved, the code is not empty, the
    server is closed and the first success page sent was the one for the
    code; as long as the promise is pending no success page was sent. *)
Definition sound (l : Client.Listener) : Prop :=
  (Client.listening l = true ->
   Client.crashed l = false
   /\ (forall c, Client.settled l <> Some (inl c))
   /\ firstSuccess (Client.answers l) = None)
  /\ (forall c, Client.settled l = Some (inl c) ->
        c <> "" /\ Client.listening l = false
        /\ firstSuccess (Client.answers l) = Some c)
  /\ (Client.settled l = None -> firstSuccess (Client.answers l) = None).

(** The flow makes the token exchange for [code] at [tokenEndpoint]: both
    metadata requests of [startOAuthFlow] succeed, the metadata names the
    two endpoints, and the promise of [openAuthorizationWindow] resolves
    with the code. *)
Definition exchanges (pf : Client.Platform) (requests : list (option string))
    (code : string) (tokenEndpoint : JsValue) : Prop :=
  exists resourceMetadata servers authServerUrl serverMetadata authorization_endpoint,
    Client.fetchResourceMetadata pf = inl resourceMetadata
    /\ Client.property resourceMetadata "authorization_servers" = Some servers
    /\ Client.firstOf servers = Some authServerUrl
    /\ Client.fetchAuthServerMetadata pf authServerUrl = inl serverMetadata
    /\ Client.property serverMetadata "authorization_endpoint" = Some authorization_endpoint
    /\ Client.property serverMetadata "token_endpoint" = Some tokenEndpoint
    /\ Client.openAuthorizationWindow pf authorization_endpoint requests = Some (inl code).

End Flow.

(* ===================================================================== *)
(** * auth/token.ts: patchFetchWithToken, and transport/sseTransport.ts *)
(* ===================================================================== *)

Module Patch.

(** A value of [init.headers]: a plain object, a [Headers] instance, or
    an array of pairs.  [own] are the properties that were assigned to an
    instance or to an array as to any object; they are no headers. *)
Inductive HeadersInit : Type :=
| PlainObject (fields : list (string * string))
| HeadersInstance (entries own : list (string * string))
| PairArray (pairs own : list (string * string)).

(** [RequestInit]: its [headers], and the other fields as they are. *)
Record RequestInit : Type := mkInit {
  initHeaders : option HeadersInit;
  others : list (string * JsValue)
}.

(** [obj[name] = value]: a property that is there keeps its place. *)
Fixpoint assign (name value : string) (fields : list (string * string))
    : list (string * string) :=
  match fields with
  | [] => [(name, value)]
  | (k, v) :: rest =>
      if String.eqb k name then (k, value) :: rest
      else (k, v) :: assign name value rest
  end.

(** [obj[name]] *)
Fixpoint field (name : string) (fields : list (string * string)) : option string :=
  match fields with
  | [] => None
  | (k, v) :: rest => if String.eqb k name then Some v else field name rest
  end.

(** [(newInit.headers as any).Authorization = `Bearer ${token}`];
    [typeof newInit.headers === "object"] holds of the three. *)
Definition authorize (token : string) (h : HeadersInit) : HeadersInit :=
  match h with
  | PlainObject fields => PlainObject (assign "Authorization" ("Bearer " ++ token) fields)
  | HeadersInstance entries own =>
      HeadersInstance entries (assign "Authorization" ("Bearer " ++ token) own)
  | PairArray pairs own => PairArray pairs (assign "Authorization" ("Bearer " ++ token) own)
  end.

(** The headers that [fetch] sends for a value of [init.headers], the way
    the Fetch Standard fills a [Headers] object: the pairs of a [Headers]
    instance or of a sequence, the own properties of any other object. *)
Definition sentHeaders (h : HeadersInit) : list (string * string) :=
  match h with
  | PlainObject fields => fields
  | HeadersInstance entries _ => entries
  | PairArray pairs _ => pairs
  end.

(** [newInit.headers || {}] for [newInit = { ...(init || {}) }]. *)
Definition headersOf (init : option RequestInit) : HeadersInit :=
  match init with
  | Some i => default (PlainObject []) (initHeaders i)
  | None => PlainObject []
  end.

(** The [newInit] that the patched function gives to the original one. *)
Definition newInit (token : string) (init : option RequestInit) : RequestInit :=
  {| initHeaders := Some (authorize token (headersOf init));
     others := match init with Some i => others i | None => [] end |}.

(** [fetch], by what it is given. *)
Definition Fetch (A : Type) : Type := JsValue -> option RequestInit -> A.

(** The function that [patchFetchWithToken(token)] puts in
    [global.fetch], over the [originalFetch] it found there. *)
Definition patched {A : Type} (token : string) (originalFetch : Fetch A) : Fetch A :=
  fun input init => originalFetch input (Some (newInit token init)).

(** The caller's own [init.headers] after a call of the patched function:
    the copy of [init] is shallow, so the assignment is made on the
    caller's object when there is one. *)
Definition callerHeadersAfter (token : string) (init : option RequestInit)
    : option HeadersInit :=
  match init with
  | Some i =>
      match initHeaders i with
      | Some h => Some (authorize token h)
      | None => None
      end
  | None => None
  end.

(** [patchFetchWithToken(token)] on [global.fetch]: the new
    [global.fetch], and the function that the returned cleanup puts
    back. *)
Definition patchFetchWithToken {A : Type} (token : string) (globalFetch : Fetch A)
    : Fetch A * Fetch A :=
  (patched token globalFetch, globalFetch).

(** [createAuthenticatedTransport(token)], as far as [global.fetch]
    goes: the patch is installed and its cleanup dropped. *)
Definition createAuthenticatedTransport {A : Type} (token : string)
    (globalFetch : Fetch A) : Fetch A :=
  (patchFetchWithToken token globalFetch).1.

(** A list of request headers as a Node server presents it in
    [req.headers]: the names in lower case.  (Node also joins the values
    of a repeated name; the lists here repeat none.) *)
Definition received (hs : list (string * string)) : list (string * HeaderValue) :=
  map (fun kv => (JsString.toLowerCase kv.1, HString kv.2)) hs.

End Patch.

(* ===================================================================== *)
(** * utils/cors.ts *)
(* ===================================================================== *)

Module Cors.

(** The headers of a response that is not sent yet, by their names in
    lower case, as [res.getHeaders()] has them. *)
Definition ResponseHeaders : Type := gmap string string.

(** [res.setHeader(name, value)] *)
Definition setHeader (name value : string) (hs : ResponseHeaders) : ResponseHeaders :=
  <[JsString.toLowerCase name := value]> hs.

(** [req.method !== 'OPTIONS'] *)
Definition notOptions (req : IncomingMessage) : bool :=
  match method req with
  | Some m => negb (String.eqb m "OPTIONS")
  | None => true
  end.

(** [setCorsHeaders(req, res)] on the headers of [res]. *)
Definition setCorsHeaders (req : IncomingMessage) (hs : ResponseHeaders) : ResponseHeaders :=
  let hs := setHeader "Access-Control-Allow-Origin" "http://localhost:3000" hs in
  let hs := setHeader "Access-Control-Allow-Methods" "GET, POST, OPTIONS" hs in
  let hs := setHeader "Access-Control-Allow-Headers"
              "Authorization, Content-Type, Accept, Cache-Control, Pragma" hs in
  let hs := setHeader "Access-Control-Allow-Credentials" "true" hs in
  let hs := setHeader "Vary" "Origin" hs in
  if Server.urlIncludes req "/sse"
  then
    if notOptions req
    then
      let hs := setHeader "Content-Type" "text/event-stream" hs in
      let hs := setHeader "Cache-Control" "no-cache" hs in
      setHeader "Connection" "keep-alive" hs
    else hs
  else if notOptions req then setHeader "Content-Type" "application/json" hs
  else hs.

(** [handleOptionsRequest(req, res)]: the headers and the response it
    leaves; [None] when the headers were sent, which [setHeader] answers
    with an exception. *)
Definition handleOptionsRequest (req : IncomingMessage) (hs : ResponseHeaders)
    (r : ServerResponse) : option (ResponseHeaders * ServerResponse) :=
  match writeHead 204 r with
  | Some r' => Some (setCorsHeaders req hs, endResponse (Text "") r')
  | None => None
  end.

(** The names that [setCorsHeaders] may set. *)
Definition names : list string :=
  ["access-control-allow-origin"; "access-control-allow-methods";
   "access-control-allow-headers"; "access-control-allow-credentials"; "vary";
   "content-type"; "cache-control"; "connection"].

End Cors.

(* ===================================================================== *)
(** * Facts about the string primitives *)
(* ===================================================================== *)

Lemma append_length (a b : string) :
  String.length (a ++ b) = String.length a + String.length b.
Proof. induction a as [|c a IH]; simpl; [reflexivity | now rewrite IH]. Qed.

Lemma append_nonempty_neq (a b : string) : b <> "" -> a ++ b <> a.
Proof.
  intros Hb Heq. apply (f_equal String.length) in Heq.
  rewrite append_length in Heq. destruct b; [congruence | simpl in Heq; lia].
Qed.

Lemma startsWith_append (p rest : string) : JsString.startsWith (p ++ rest) p = true.
Proof.
  induction p as [|c p IH]; simpl; [reflexivity |].
  now rewrite Ascii.eqb_refl.
Qed.

Lemma startsWith_empty (u : string) : JsString.startsWith u "" = true.
Proof. reflexivity. Qed.

Lemma endsWith_append_star (p : string) : JsString.endsWith (p ++ "*") "*" = true.
Proof.
  induction p as [|c p IH]; simpl; [reflexivity |].
  rewrite IH. apply orb_true_r.
Qed.

Lemma dropLast_append_star (p : string) : JsString.dropLast (p ++ "*") = p.
Proof.
  induction p as [|c p IH]; simpl; [reflexivity |].
  rewrite IH. destruct p; reflexivity.
Qed.

Lemma includes_startsWith (s needle : string) :
  JsString.startsWith s needle = true -> JsString.includes s needle = true.
Proof. destruct s; simpl; intros ->; reflexivity. Qed.

Lemma includes_append (a needle b : string) :
  JsString.includes (a ++ needle ++ b) needle = true.
Proof.
  induction a as [|c a IH].
  - apply includes_startsWith. exact (startsWith_append needle b).
  - change (String c a ++ needle ++ b) with (String c (a ++ needle ++ b)).
    cbn [JsString.includes]. rewrite IH. apply orb_true_r.
Qed.

(* ===================================================================== *)
(** * The router: path matching *)
(* ===================================================================== *)

Lemma isMatch_exact (p u : string) :
  p <> "*" -> JsString.endsWith p "*" = false ->
  Router.isMatch (Router.PathString p) u = String.eqb p u.
Proof.
  intros Hstar Hexact. unfold Router.isMatch.
  apply String.eqb_neq in Hstar. now rewrite Hstar, Hexact.
Qed.

Lemma isMatch_wildcard (prefix u : string) :
  Router.isMatch (Router.PathString (prefix ++ "*")) u = JsString.startsWith u prefix.
Proof.
  unfold Router.isMatch. destruct (String.eqb (prefix ++ "*") "*") eqn:E.
  - apply String.eqb_eq in E. destruct prefix as [|c prefix].
    + now rewrite startsWith_empty.
    + simpl in E. injection E as _ E. destruct prefix; discriminate.
  - now rewrite endsWith_append_star, dropLast_append_star.
Qed.

(* ===================================================================== *)
(** * The router: the middleware chain *)
(* ===================================================================== *)

Section RouterChain.

Context {E : Type}.

Implicit Types (st : St E) (t : list (Event E)) (req : IncomingMessage).

Lemma noLate_snoc t ev :
  Router.noLate t -> Router.lateInvocation ev = false -> Router.noLate (t ++ [ev]).
Proof. intros Ht Hev. apply Forall_app. split; [exact Ht | now constructor]. Qed.

Lemma handlerInvocations_snoc t ev :
  Router.handlerInvocations (t ++ [ev])
  = Router.handlerInvocations t + (if Router.isHandlerEvent ev then 1 else 0).
Proof. induction t as [|x t IH]; simpl; [lia | rewrite IH; lia]. Qed.

(** A step of [run] that is not a call adds no invocation. *)
Lemma run_noLate {C} (call : C -> Comp E) (p : Prog E C) :
  (forall c st, Router.noLate (trace st) -> Router.noLate (trace (call c st).2)) ->
  forall st, Router.noLate (trace st) -> Router.noLate (trace (run call p st).2).
Proof.
  intros Hcall. induction p as [| e | s k IHk kf IHkf | d k IHk | k IHk | e k IHk | c k IHk];
    intros st Hst; simpl.
  - exact Hst.
  - exact Hst.
  - destruct (writeHead s (res st)); [apply IHk | apply IHkf; exact Hst].
    simpl. now apply noLate_snoc.
  - destruct (writableEnded (res st)); apply IHk; [exact Hst |].
    simpl. now apply noLate_snoc.
  - now apply IHk.
  - apply IHk. simpl. now apply noLate_snoc.
  - specialize (Hcall c st Hst). destruct (call c st) as [o st']. now apply IHk.
Qed.

Lemma run_count {C} (call : C -> Comp E) (d n : nat) (p : Prog E C) :
  Router.callsAtMost n p ->
  (forall c st, Router.handlerInvocations (trace (call c st).2)
                <= Router.handlerInvocations (trace st) + d) ->
  forall st, Router.handlerInvocations (trace (run call p st).2)
             <= Router.handlerInvocations (trace st) + n * d.
Proof.
  intros Hp Hcall. induction Hp as [n | n e | n s k kf _ IHk _ IHkf | n dt k _ IHk
                                   | n k _ IHk | n e k _ IHk | n c k _ IHk];
    intros st; simpl.
  - lia.
  - lia.
  - destruct (writeHead s (res st)); [| apply IHkf].
    etransitivity; [apply IHk |]. simpl. rewrite handlerInvocations_snoc. simpl. lia.
  - destruct (writableEnded (res st)); [apply IHk |].
    etransitivity; [apply IHk |]. simpl. rewrite handlerInvocations_snoc. simpl. lia.
  - apply IHk.
  - etransitivity; [apply IHk |]. simpl. rewrite handlerInvocations_snoc. simpl. lia.
  - specialize (Hcall c st). destruct (call c st) as [o st']. simpl in Hcall.
    etransitivity; [apply IHk |]. lia.
Qed.

(** A route handler has no continuation: running it invokes nothing. *)
Lemma run_noCall_count (p : Prog E Empty_set) st :
  Router.handlerInvocations (trace (run noCall p st).2)
  = Router.handlerInvocations (trace st).
Proof.
  revert st. induction p as [| e | s k IHk kf IHkf | d k IHk | k IHk | e k IHk | c k IHk];
    intros st; simpl; try reflexivity.
  - destruct (writeHead s (res st)); [| apply IHkf].
    rewrite IHk. simpl. rewrite handlerInvocations_snoc. simpl. lia.
  - destruct (writableEnded (res st)); [apply IHk |].
    rewrite IHk. simpl. rewrite handlerInvocations_snoc. simpl. lia.
  - apply IHk.
  - rewrite IHk. simpl. rewrite handlerInvocations_snoc. simpl. lia.
  - destruct c.
Qed.

Lemma invokeHandler_count i (route : Router.Route E) req u st :
  Router.handlerInvocations (trace (Router.invokeHandler i route req u st).2)
  = Router.handlerInvocations (trace st) + 1.
Proof.
  unfold Router.invokeHandler. rewrite run_noCall_count. simpl.
  rewrite handlerInvocations_snoc. reflexivity.
Qed.

Lemma invokeHandler_noLate i (route : Router.Route E) req u st :
  writableEnded (res st) = false -> Router.noLate (trace st) ->
  Router.noLate (trace (Router.invokeHandler i route req u st).2).
Proof.
  intros Hopen Hst. unfold Router.invokeHandler. apply run_noLate.
  - intros [].
  - simpl. apply noLate_snoc; [exact Hst | now rewrite Hopen].
Qed.

Lemma chainFrom_noLate (fh : Comp E) req :
  (forall st, writableEnded (res st) = false -> Router.noLate (trace st) ->
              Router.noLate (trace (fh st).2)) ->
  forall rest index st,
    (index = 0 /\ rest <> []) \/ writableEnded (res st) = false ->
    Router.noLate (trace st) ->
    Router.noLate (trace (Router.chainFrom rest index req fh st).2).
Proof.
  intros Hfh rest. induction rest as [|mw rest IH]; intros index st Hpre Hst; simpl.
  - destruct Hpre as [[_ Hne] | Hopen]; [congruence | now apply Hfh].
  - apply run_noLate.
    + intros _ st' Hst'. destruct (writableEnded (res st')) eqn:Hended; [exact Hst' |].
      apply IH; [now right | exact Hst'].
    + simpl. apply noLate_snoc; [exact Hst |].
      destruct Hpre as [[-> _] | ->]; [reflexivity | now destruct index].
Qed.

Lemma chainFrom_count (fh : Comp E) req :
  (forall st, Router.handlerInvocations (trace (fh st).2)
              <= Router.handlerInvocations (trace st) + 1) ->
  forall rest index st,
    Forall (fun mw => Router.callsAtMost 1 (mw req)) rest ->
    Router.handlerInvocations (trace (Router.chainFrom rest index req fh st).2)
    <= Router.handlerInvocations (trace st) + 1.
Proof.
  intros Hfh rest. induction rest as [|mw rest IH]; intros index st Hlin; simpl.
  - apply Hfh.
  - inversion Hlin as [|? ? Hmw Hrest]; subst.
    etransitivity.
    + apply (run_count _ 1 1 _ Hmw). intros _ st'.
      destruct (writableEnded (res st')); [simpl; lia | now apply IH].
    + simpl. rewrite handlerInvocations_snoc. simpl. lia.
Qed.

(** The route loop dispatches the first route that matches. *)
Lemma matchRoutes_first (r : Router.Router E) req m u st
    (before after : list (Router.Route E)) (route : Router.Route E) i :
  (forall x, In x before ->
             Router.methodMatches x m && Router.isMatch (Router.path x) u = false) ->
  Router.methodMatches route m && Router.isMatch (Router.path route) u = true ->
  Router.matchRoutes r (before ++ route :: after) i req m u st
  = Router.dispatch r (i + length before) route req u st.
Proof.
  revert i. induction before as [|x before IH]; intros i Hbefore Hroute; simpl.
  - rewrite Hroute. now rewrite Nat.add_0_r.
  - rewrite (Hbefore x) by now left. rewrite IH; [| | exact Hroute].
    + f_equal. lia.
    + intros y Hy. apply Hbefore. now right.
Qed.

Lemma matchRoutes_none (r : Router.Router E) req m u st (rs : list (Router.Route E)) i :
  (forall x, In x rs ->
             Router.methodMatches x m && Router.isMatch (Router.path x) u = false) ->
  Router.matchRoutes r rs i req m u st = (Router.Resolved false, st).
Proof.
  revert i. induction rs as [|x rs IH]; intros i Hrs; simpl; [reflexivity |].
  rewrite (Hrs x) by now left. apply IH. intros y Hy. apply Hrs. now right.
Qed.

Lemma dispatch_noLate (r : Router.Router E) i route req u st :
  Router.middleware r <> [] \/ writableEnded (res st) = false ->
  Router.noLate (trace st) ->
  Router.noLate (trace (Router.dispatch r i route req u st).2).
Proof.
  intros Hpre Hst. unfold Router.dispatch, Router.executeMiddlewareChain.
  destruct (Router.middleware r) as [|mw mws] eqn:Hmws.
  - destruct Hpre as [Hne | Hopen]; [congruence |].
    pose proof (invokeHandler_noLate i route req u st Hopen Hst) as H.
    destruct (Router.invokeHandler i route req u st) as [[|e] st1]; exact H.
  - assert (Hchain : Router.noLate (trace
        (Router.chainFrom (drop 0 (mw :: mws)) 0 req
           (Router.invokeHandler i route req u) st).2)).
    { apply chainFrom_noLate; [| left; split; [reflexivity | discriminate] | exact Hst].
      intros st0. apply invokeHandler_noLate. }
    destruct (Router.chainFrom _ _ _ _ _) as [[|e] st1]; [exact Hchain |].
    simpl in Hchain. destruct (writableEnded (res st1)); [exact Hchain |].
    pose proof (run_noLate (C := Empty_set) noCall
                  (respond 500 (Text "Internal Server Error") Return)
                  (fun c => match c with end) st1 Hchain) as H.
    destruct (run noCall _ st1) as [[|e'] st2]; exact H.
Qed.

Lemma dispatch_count (r : Router.Router E) i route req u st :
  Forall (fun mw => Router.callsAtMost 1 (mw req)) (Router.middleware r) ->
  Router.handlerInvocations (trace (Router.dispatch r i route req u st).2)
  <= Router.handlerInvocations (trace st) + 1.
Proof.
  intros Hlin. unfold Router.dispatch, Router.executeMiddlewareChain.
  destruct (Router.middleware r) as [|mw mws] eqn:Hmws.
  - pose proof (invokeHandler_count i route req u st) as H.
    destruct (Router.invokeHandler i route req u st) as [[|e] st1]; simpl in *; lia.
  - assert (Hchain : Router.handlerInvocations (trace
        (Router.chainFrom (drop 0 (mw :: mws)) 0 req
           (Router.invokeHandler i route req u) st).2)
        <= Router.handlerInvocations (trace st) + 1).
    { apply chainFrom_count; [| exact Hlin].
      intros st0. rewrite invokeHandler_count. lia. }
    destruct (Router.chainFrom _ _ _ _ _) as [[|e] st1]; [exact Hchain |].
    simpl in Hchain. destruct (writableEnded (res st1)); [exact Hchain |].
    pose proof (run_noCall_count (respond 500 (Text "Internal Server Error") Return) st1) as H.
    destruct (run noCall _ st1) as [[|e'] st2]; simpl in *; lia.
Qed.

(** Without a call to the continuation a program invokes nothing. *)
Lemma run_no_call {C} (call : C -> Comp E) (p : Prog E C) :
  Router.callsAtMost 0 p ->
  forall st, Router.handlerInvocations (trace (run call p st).2)
             <= Router.handlerInvocations (trace st).
Proof.
  induction p as [| e | s k IHk kf IHkf | d k IHk | k IHk | e k IHk | c k IHk];
    intros Hp st; inversion Hp; subst; cbn [run]; try (cbn; lia).
  - destruct (writeHead _ (res st)); [| now apply IHkf].
    etransitivity; [now apply IHk |]. cbn. rewrite handlerInvocations_snoc. cbn. lia.
  - destruct (writableEnded (res st)); [now apply IHk |].
    etransitivity; [now apply IHk |]. cbn. rewrite handlerInvocations_snoc. cbn. lia.
  - now apply IHk.
  - etransitivity; [now apply IHk |]. cbn. rewrite handlerInvocations_snoc. cbn. lia.
Qed.

(** A middleware that never calls its continuation ends the chain. *)
Lemma chainFrom_no_call (mw : Router.MiddlewareHandler E) rest index req
    (fh : Comp E) st :
  Router.callsAtMost 0 (mw req) ->
  Router.handlerInvocations (trace (Router.chainFrom (mw :: rest) index req fh st).2)
  <= Router.handlerInvocations (trace st).
Proof.
  intros Hmw. cbn [Router.chainFrom].
  etransitivity; [now apply run_no_call |].
  cbn. rewrite handlerInvocations_snoc. cbn. lia.
Qed.

End RouterChain.

(* --------------------------------------------------------------------- *)
(** ** String patterns and the raw URL *)

Lemma matchRoutes_passed_over {E : Type} (r : Router.Router E) req m u (st : St E)
    (before after : list (Router.Route E)) (route : Router.Route E) i :
  (forall x, In x before ->
             Router.methodMatches x m && Router.isMatch (Router.path x) u = false) ->
  Router.methodMatches route m && Router.isMatch (Router.path route) u = false ->
  Router.matchRoutes r (before ++ route :: after) i req m u st
  = Router.matchRoutes r after (S (i + length before)) req m u st.
Proof.
  revert i. induction before as [|x before IH]; intros i Hbefore Hroute;
    cbn [app Router.matchRoutes length].
  - rewrite Hroute. now rewrite Nat.add_0_r.
  - rewrite (Hbefore x) by now left.
    rewrite IH; [f_equal; lia | | exact Hroute].
    intros y Hy. apply Hbefore. now right.
Qed.

Lemma exact_route_passed_over {E : Type} (rm p q m : string) (h : Router.RouteHandler E) :
  p <> "*" -> JsString.endsWith p "*" = false ->
  Router.methodMatches (Router.mkRoute rm (Router.PathString p) h) m
  && Router.isMatch (Router.PathString p) (p ++ "?" ++ q) = false.
Proof.
  intros Hpattern Hexact. rewrite isMatch_exact by assumption.
  replace (String.eqb p (p ++ "?" ++ q)) with false; [apply andb_false_r |].
  symmetry. apply String.eqb_neq. intros H. symmetry in H. revert H.
  now apply append_nonempty_neq.
Qed.

Lemma methodMatches_registered {E : Type} (rm m : string) (pattern : Router.PathPattern)
    (h : Router.RouteHandler E) :
  rm = "ALL" \/ rm = m ->
  Router.methodMatches (Router.mkRoute rm pattern h) m = true.
Proof.
  intros [-> | ->]; unfold Router.methodMatches; cbn [Router.routeMethod];
    [reflexivity | rewrite String.eqb_refl; apply orb_true_r].
Qed.

(** C10.  [handleRequest] compares a string pattern with the raw
    [req.url], query string included.  For a route registered (by [get],
    [post] or [all]) with a pattern [p] that has no wildcard:
    - a request whose URL is [p] followed by a query string, [p?q], is
      not matched by the route: when no other route matches it,
      [handleRequest] resolves to [false], no middleware and no handler
      runs and nothing is written; in general the route loop goes on with
      the routes registered after it;
    - the same route does serve the URL [p] itself.
    A route registered with [prefix*] is dispatched for every URL that
    begins with [prefix], whatever follows, a query string included, and
    its handler is given that raw URL; it is passed over for the others.
    So on the router of index.ts a GET of [/sse?q] is matched by no
    route, while a POST of [/messages?q] reaches the messages route.  The
    match itself: a pattern without wildcard matches the URL equal to it
    and no other, [prefix*] matches the URLs that start with [prefix]. *)
Theorem isMatch_raw_url (p : string)
    (Hpattern : p <> "*") (Hexact : JsString.endsWith p "*" = false) :
  (forall (E : Type) (r : Router.Router E) (before after : list (Router.Route E))
          (rm : string) (h : Router.RouteHandler E)
          (req : IncomingMessage) (m q : string) (st : St E),
      Router.routes r = (before ++ Router.mkRoute rm (Router.PathString p) h :: after)%list ->
      method req = Some m -> url req = Some (p ++ "?" ++ q) ->
      (forall x, In x before ->
         Router.methodMatches x m && Router.isMatch (Router.path x) (p ++ "?" ++ q) = false) ->
      (m <> "" ->
       Router.handleRequest r req st
       = Router.matchRoutes r after (S (length before)) req m (p ++ "?" ++ q) st)
      /\ ((forall x, In x after ->
             Router.methodMatches x m && Router.isMatch (Router.path x) (p ++ "?" ++ q) = false) ->
          Router.handleRequest r req st = (Router.Resolved false, st)))
  /\ (forall (E : Type) (r : Router.Router E) (before after : list (Router.Route E))
             (rm : string) (h : Router.RouteHandler E)
             (req : IncomingMessage) (m : string) (st : St E),
        Router.routes r = (before ++ Router.mkRoute rm (Router.PathString p) h :: after)%list ->
        method req = Some m -> url req = Some p -> m <> "" -> p <> "" ->
        rm = "ALL" \/ rm = m ->
        (forall x, In x before ->
           Router.methodMatches x m && Router.isMatch (Router.path x) p = false) ->
        Router.handleRequest r req st
        = Router.dispatch r (length before) (Router.mkRoute rm (Router.PathString p) h)
            req p st)
  /\ (forall (E : Type) (r : Router.Router E) (before after : list (Router.Route E))
             (rm prefix : string) (h : Router.RouteHandler E)
             (req : IncomingMessage) (m u : string) (st : St E),
        Router.routes r
        = (before ++ Router.mkRoute rm (Router.PathString (prefix ++ "*")) h :: after)%list ->
        method req = Some m -> url req = Some u -> m <> "" -> u <> "" ->
        (forall x, In x before ->
           Router.methodMatches x m && Router.isMatch (Router.path x) u = false) ->
        ((exists rest, u = prefix ++ rest) -> rm = "ALL" \/ rm = m ->
         Router.handleRequest r req st
         = Router.dispatch r (length before)
             (Router.mkRoute rm (Router.PathString (prefix ++ "*")) h) req u st)
        /\ (JsString.startsWith u prefix = false ->
            Router.handleRequest r req st
            = Router.matchRoutes r after (S (length before)) req m u st))
  /\ (forall env protectedResourceHandler sseConnectionHandler headers body q st,
        Router.handleRequest
          (Server.appRouter env protectedResourceHandler sseConnectionHandler)
          {| method := Some "GET"; url := Some ("/sse" ++ "?" ++ q);
             headers := headers; body := body |} st
        = (Router.Resolved false, st)
        /\ Router.handleRequest
             (Server.appRouter env protectedResourceHandler sseConnectionHandler)
             {| method := Some "POST"; url := Some ("/messages" ++ "?" ++ q);
                headers := headers; body := body |} st
           = Router.dispatch
               (Server.appRouter env protectedResourceHandler sseConnectionHandler) 2
               (Router.mkRoute "POST" (Router.PathString "/messages*")
                  (Server.sseMessagesHandler env))
               {| method := Some "POST"; url := Some ("/messages" ++ "?" ++ q);
                  headers := headers; body := body |}
               ("/messages" ++ "?" ++ q) st)
  /\ (forall u, Router.isMatch (Router.PathString p) u = true <-> u = p)
  /\ (forall prefix u,
        Router.isMatch (Router.PathString (prefix ++ "*")) u
        = JsString.startsWith u prefix).
Proof.
  split; [| split; [| split; [| split; [| split]]]].
  - intros E r before after rm h req m q st Hroutes Hmethod Hurl Hbefore.
    assert (Hu : String.eqb (p ++ "?" ++ q) "" = false).
    { apply String.eqb_neq. destruct p; discriminate. }
    assert (Hloop : forall i,
              Router.matchRoutes r (before ++ Router.mkRoute rm (Router.PathString p) h :: after)%list
                i req m (p ++ "?" ++ q) st
              = Router.matchRoutes r after (S (i + length before)) req m (p ++ "?" ++ q) st).
    { intros i. apply matchRoutes_passed_over; [exact Hbefore |].
      apply (exact_route_passed_over rm p q m h Hpattern Hexact). }
    split.
    + intros Hm. unfold Router.handleRequest. rewrite Hurl, Hmethod, Hu.
      apply String.eqb_neq in Hm. rewrite Hm. cbn [orb]. rewrite Hroutes.
      apply Hloop.
    + intros Hafter. unfold Router.handleRequest. rewrite Hurl, Hmethod, Hu.
      cbn [orb]. destruct (String.eqb m ""); [reflexivity |].
      rewrite Hroutes, Hloop. now apply matchRoutes_none.
  - intros E r before after rm h req m st Hroutes Hmethod Hurl Hm Hp Hrm Hbefore.
    unfold Router.handleRequest. rewrite Hurl, Hmethod.
    apply String.eqb_neq in Hm, Hp. rewrite Hm, Hp. cbn [orb]. rewrite Hroutes.
    rewrite (matchRoutes_first r req m p st before after _ 0 Hbefore); [reflexivity |].
    rewrite (methodMatches_registered rm m _ h Hrm). cbn [Router.path andb].
    rewrite isMatch_exact by assumption. apply String.eqb_refl.
  - intros E r before after rm prefix h req m u st Hroutes Hmethod Hurl Hm Hu Hbefore.
    apply String.eqb_neq in Hm, Hu. split.
    + intros [rest ->] Hrm.
      unfold Router.handleRequest. rewrite Hurl, Hmethod, Hm, Hu. cbn [orb].
      rewrite Hroutes.
      rewrite (matchRoutes_first r req m _ st before after _ 0 Hbefore); [reflexivity |].
      rewrite (methodMatches_registered rm m _ h Hrm). cbn [Router.path andb].
      rewrite isMatch_wildcard. apply startsWith_append.
    + intros Hprefix.
      unfold Router.handleRequest. rewrite Hurl, Hmethod, Hm, Hu. cbn [orb].
      rewrite Hroutes.
      apply (matchRoutes_passed_over r req m u st before after _ 0 Hbefore).
      cbn [Router.path]. now rewrite isMatch_wildcard, Hprefix, andb_false_r.
  - intros env protectedResourceHandler sseConnectionHandler headers body q st.
    split; reflexivity.
  - intros u. rewrite isMatch_exact by assumption. split.
    + intros H. now apply String.eqb_eq in H.
    + intros ->. apply String.eqb_refl.
  - intros prefix u. apply isMatch_wildcard.
Qed.

Lemma isMatch_raw_url_witness :
  Router.handleRequest Cases.bareRouter
    (Scenario.request "GET" ("/sse" ++ "?" ++ "access_token=x") []) (mkSt freshResponse [])
  = (Router.Resolved false, mkSt freshResponse [])
  /\ Router.handleRequest Cases.bareRouter (Scenario.request "GET" "/sse" [])
       (mkSt freshResponse [])
     = Router.dispatch Cases.bareRouter 0 Cases.failingRoute
         (Scenario.request "GET" "/sse" []) "/sse" (mkSt freshResponse []).
Proof.
  assert (H1 : "/sse" <> "*") by discriminate.
  assert (H2 : JsString.endsWith "/sse" "*" = false) by reflexivity.
  destruct (isMatch_raw_url "/sse" H1 H2) as (Hquery & Hplain & _).
  split.
  - destruct (Hquery Empty_set Cases.bareRouter [] [] "GET" Cases.failing
                (Scenario.request "GET" ("/sse" ++ "?" ++ "access_token=x") [])
                "GET" "access_token=x" (mkSt freshResponse [])
                eq_refl eq_refl eq_refl) as [_ Hnone].
    + intros x [].
    + apply Hnone. intros x [].
  - apply (Hplain Empty_set Cases.bareRouter [] [] "GET" Cases.failing
             (Scenario.request "GET" "/sse" []) "GET" (mkSt freshResponse [])
             eq_refl eq_refl eq_refl).
    + discriminate.
    + discriminate.
    + now right.
    + intros x [].
Defined.

Section RouterGuarantees.

Context {E : Type}.

Lemma dispatch_thrown (r : Router.Router E) i route req u (st st1 : St E) e :
  Router.middleware r <> [] ->
  Router.executeMiddlewareChain r req 0 (Router.invokeHandler i route req u) st
  = (Thrown e, st1) ->
  headersSent (res st1) = false -> writableEnded (res st1) = false ->
  Router.dispatch r i route req u st
  = (Router.Resolved true,
     mkSt Router.serverError
       (trace st1 ++ [EvWriteHead 500] ++ [EvEnd (Text "Internal Server Error")])%list).
Proof.
  intros Hne Hchain Hhead Hopen. unfold Router.dispatch.
  destruct (Router.middleware r) as [|mw mws]; [congruence |].
  rewrite Hchain, Hopen. simpl. unfold writeHead. rewrite Hhead. simpl.
  rewrite Hopen. unfold endResponse. simpl.
  now rewrite <- app_assoc.
Qed.

(** A middleware that throws ends the chain where it stands. *)
Lemma chainFrom_throw (mw : Router.MiddlewareHandler E) rest index req fh (st : St E) e :
  mw req = Throw e ->
  Router.chainFrom (mw :: rest) index req fh st
  = (Thrown e, emit (EvMiddleware index (writableEnded (res st))) st).
Proof. intros Hmw. simpl. now rewrite Hmw. Qed.

End RouterGuarantees.

(** C9, as amended.  For a request that the router handles (some rule
    matches): the rules are tried in registration order and the first
    that matches is dispatched; no middleware after the first, and no
    route handler, is invoked once the response is finished, so a
    middleware that writes a response short-circuits the rest of the chain
    whether or not it calls its continuation; the route handler is invoked
    at most once provided no middleware calls its continuation more than
    once, and not at all after a middleware that does not call its
    continuation; a middleware that throws stops the chain where it
    stands; and
    when the chain fails the router writes the generic 500 response and
    invokes nothing more, provided the response was still untouched. *)
Theorem router_chain_guarantees {E : Type}
    (r : Router.Router E) (req : IncomingMessage) (st : St E) (m u : string)
    (before after : list (Router.Route E)) (route : Router.Route E)
    (Hmethod : method req = Some m) (Hurl : url req = Some u)
    (Hm : m <> "") (Hu : u <> "")
    (Hroutes : Router.routes r = (before ++ route :: after)%list)
    (Hbefore : forall x, In x before ->
       Router.methodMatches x m && Router.isMatch (Router.path x) u = false)
    (Hroute : Router.methodMatches route m && Router.isMatch (Router.path route) u = true)
    (Hopen : Router.middleware r <> [] \/ writableEnded (res st) = false)
    (Hst : Router.noLate (trace st)) :
  Router.handleRequest r req st = Router.dispatch r (length before) route req u st
  /\ Router.noLate (trace (Router.handleRequest r req st).2)
  /\ (Forall (fun mw => Router.callsAtMost 1 (mw req)) (Router.middleware r) ->
      Router.handlerInvocations (trace (Router.handleRequest r req st).2)
      <= Router.handlerInvocations (trace st) + 1)
  /\ (forall (mw : Router.MiddlewareHandler E) rest index fh (st0 : St E) e,
        mw req = Throw e ->
        Router.chainFrom (mw :: rest) index req fh st0
        = (Thrown e, emit (EvMiddleware index (writableEnded (res st0))) st0))
  /\ (forall e st1,
        Router.middleware r <> [] ->
        Router.executeMiddlewareChain r req 0
          (Router.invokeHandler (length before) route req u) st = (Thrown e, st1) ->
        headersSent (res st1) = false -> writableEnded (res st1) = false ->
        Router.handleRequest r req st
        = (Router.Resolved true,
           mkSt Router.serverError
             (trace st1 ++ [EvWriteHead 500] ++ [EvEnd (Text "Internal Server Error")])%list))
  /\ (forall (mw : Router.MiddlewareHandler E) rest index (fh : Comp E) (st0 : St E),
        Router.callsAtMost 0 (mw req) ->
        Router.handlerInvocations
          (trace (Router.chainFrom (mw :: rest) index req fh st0).2)
        <= Router.handlerInvocations (trace st0)).
Proof.
  assert (Hdispatch :
    Router.handleRequest r req st = Router.dispatch r (length before) route req u st).
  { unfold Router.handleRequest. rewrite Hurl, Hmethod.
    apply String.eqb_neq in Hm, Hu. rewrite Hm, Hu. simpl.
    rewrite Hroutes. now rewrite (matchRoutes_first r req m u st before after route 0). }
  split; [exact Hdispatch |]. rewrite Hdispatch.
  split; [now apply dispatch_noLate |].
  split; [apply dispatch_count |].
  split; [intros mw rest index fh st0 e; apply chainFrom_throw |].
  split; [intros e st1; apply dispatch_thrown |].
  intros mw rest index fh st0. apply chainFrom_no_call.
Qed.

Lemma passesOn_callsAtMost req : Router.callsAtMost 1 (Scenario.passesOn req).
Proof. apply Router.cam_call. intros [|e]; constructor. Qed.

Lemma router_chain_guarantees_witness :
  method Scenario.getSse = Some "GET" /\ url Scenario.getSse = Some "/sse"
  /\ Router.routes Scenario.plainRouter = ([] ++ Scenario.sseRoute :: [])%list
  /\ Router.middleware Scenario.plainRouter <> []
  /\ Router.handlerInvocations
       (trace (Router.handleRequest Scenario.plainRouter Scenario.getSse Scenario.start).2)
     <= 0 + 1.
Proof.
  assert (Hne : Router.middleware Scenario.plainRouter <> []) by discriminate.
  assert (Hm : "GET" <> "") by discriminate.
  assert (Hu : "/sse" <> "") by discriminate.
  destruct (router_chain_guarantees Scenario.plainRouter Scenario.getSse Scenario.start
              "GET" "/sse" [] [] Scenario.sseRoute eq_refl eq_refl Hm Hu eq_refl
              (fun x (H : In x []) => match H with end) eq_refl (or_introl Hne)
              (List.Forall_nil _)) as (_ & _ & Honce & _).
  repeat split; try exact Hne. apply Honce.
  constructor; [apply passesOn_callsAtMost | constructor].
Defined.

(** C9 as stated fails: a middleware that calls its continuation twice
    has the route handler invoked twice when the handler leaves the
    response open. *)
Lemma handler_invoked_twice :
  Router.handlerInvocations
    (trace (Router.handleRequest Scenario.twiceRouter Scenario.getSse Scenario.start).2) = 2
  /\ ~ (forall (r : Router.Router Empty_set) (req : IncomingMessage),
          Router.handlerInvocations (trace (Router.handleRequest r req Scenario.start).2) <= 1).
Proof.
  split; [reflexivity |].
  intros H. specialize (H Scenario.twiceRouter Scenario.getSse).
  vm_compute in H. lia.
Qed.

(** A middleware that finished the response before it threw keeps its own
    answer: the router writes no 500 on a finished response. *)
Example throw_after_answer_keeps_answer :
  let '(outcome, st) :=
    Router.handleRequest Scenario.throwingRouter Scenario.getSse Scenario.start in
  outcome = Router.Resolved true
  /\ statusCode (res st) = 401%Z
  /\ trace st = [EvMiddleware 0 false; EvWriteHead 401; EvEnd (Text "Unauthorized")].
Proof. repeat split. Qed.

(* ===================================================================== *)
(** * The authentication middleware *)
(* ===================================================================== *)

Lemma run_returnNext {E} (call : unit -> Comp E) (st : St E) :
  run call returnNext st = call tt st.
Proof. simpl. destruct (call tt st) as [[|e] st']; reflexivity. Qed.

(** C1.  A request whose URL contains the well-known discovery path, or
    whose method is OPTIONS, makes both middlewares the program
    [return next()] and nothing else: the continuation is invoked, and no
    credential is looked for or verified, whatever the request carries and
    whatever the token validator would say. *)
Theorem gate_skips_discovery_and_preflight
    (env : Server.Env) (validateToken : bool) (req : IncomingMessage)
    (Hskip : Server.urlIncludes req "/.well-known/" = true \/ method req = Some "OPTIONS") :
  Server.authMiddleware env req = returnNext
  /\ Server.simpleAuthMiddleware env validateToken req = returnNext
  /\ (forall call st,
        run call (Server.authMiddleware env req) st = call tt st
        /\ run call (Server.simpleAuthMiddleware env validateToken req) st = call tt st).
Proof.
  assert (H : Server.skipsAuth req = true).
  { unfold Server.skipsAuth. destruct Hskip as [-> | ->]; [reflexivity |].
    simpl. now rewrite orb_true_r. }
  unfold Server.authMiddleware, Server.simpleAuthMiddleware. rewrite H.
  repeat split; apply run_returnNext.
Qed.

Lemma gate_skips_discovery_and_preflight_witness :
  let req := Scenario.request "GET" "/.well-known/oauth-protected-resource"
               (Scenario.bearer "forged") in
  (Server.urlIncludes req "/.well-known/" = true \/ method req = Some "OPTIONS")
  /\ Server.authMiddleware Scenario.env req = returnNext
  /\ Server.simpleAuthMiddleware Scenario.env true req = returnNext.
Proof.
  intros req.
  assert (H : Server.urlIncludes req "/.well-known/" = true \/ method req = Some "OPTIONS")
    by (left; reflexivity).
  destruct (gate_skips_discovery_and_preflight Scenario.env true req H) as (Ha & Hs & _).
  split; [exact H | split; [exact Ha | exact Hs]].
Defined.

(* --------------------------------------------------------------------- *)
(** ** The session shortcut *)

Lemma messages_not_absolute (u : string) :
  JsString.startsWith u "/messages" = true -> JsString.startsWith u "http" = false.
Proof.
  destruct u as [|c u]; cbn [JsString.startsWith]; [discriminate |].
  destruct (Ascii.eqb "/" c) eqn:Hc; [| discriminate].
  apply Ascii.eqb_eq in Hc. now subst c.
Qed.

Lemma sessionCheck_found (env : Server.Env) (req : IncomingMessage) (u sid : string)
    (t : Server.Transport) (otherwise : Prog Server.ServerEffect unit) :
  url req = Some u ->
  JsString.startsWith u "/messages" = true ->
  JsString.includes u "sessionId=" = true ->
  Url.searchParam (Server.urlOk env) u (Server.hostOf req) "sessionId" = Some (Some sid) ->
  sid <> "" ->
  Server.getTransport env sid = Some t ->
  Server.sessionCheck env req otherwise = Do (Server.GetTransport sid) returnNext.
Proof.
  intros Hurl Hpath Hliteral Hparam Hsid Ht. unfold Server.sessionCheck.
  rewrite Hurl, Hpath, Hliteral, Hparam. simpl.
  apply String.eqb_neq in Hsid. now rewrite Hsid, Ht.
Qed.


Lemma messagesHandler_not_found (env : Server.Env) (req : IncomingMessage)
    (u sid : string) (st : St Server.ServerEffect) :
  JsString.startsWith u "/messages" = true ->
  Url.searchParam (Server.urlOk env) u (Server.hostOf req) "sessionId" = Some (Some sid) ->
  sid <> "" ->
  Server.getTransport env sid = None ->
  headersSent (res st) = false -> writableEnded (res st) = false ->
  run noCall (Server.sseMessagesHandler env req u) st
  = (Normal,
     mkSt Server.sessionNotFound
       (trace st ++ [EvDo Server.SetCorsHeaders; EvDo (Server.GetTransport sid);
                     EvWriteHead 404;
                     EvEnd (Server.errorBody "Session not found or expired")])%list).
Proof.
  intros Hpath Hparam Hsid Hnone Hhead Hopen.
  unfold Server.sseMessagesHandler. rewrite (messages_not_absolute u Hpath).
  unfold Url.searchParam in Hparam.
  destruct (Server.urlOk env u (Server.hostOf req)); [| discriminate].
  injection Hparam as Hparam. cbn [run]. rewrite Hhead, Hparam.
  apply String.eqb_neq in Hsid. rewrite Hsid. cbn [run]. rewrite Hnone.
  unfold respond. cbn [run emit res trace]. unfold writeHead. rewrite Hhead.
  cbn [run res trace writableEnded]. rewrite Hopen.
  unfold endResponse. cbn [writableEnded statusCode].
  unfold Server.sessionNotFound. now rewrite <- !app_assoc.
Qed.

(** C2, as amended.  A request to a /messages path whose raw URL contains
    the text [sessionId=], whose URL the platform parses, and whose first
    [sessionId] query parameter is a non-empty identifier of a registered
    transport makes both middlewares look the session up and
    [return next()] (or [return next()] at once when the request is one
    that skips authentication anyway): no credential is looked for or
    verified, with or without an Authorization header.  When the
    identifier maps to no registered transport, the messages handler
    answers 404 with the body [{error: "Session not found or expired"}]. *)
Theorem session_shortcut (env : Server.Env) (validateToken : bool)
    (req : IncomingMessage) (u sid : string)
    (Hurl : url req = Some u)
    (Hpath : JsString.startsWith u "/messages" = true)
    (Hliteral : JsString.includes u "sessionId=" = true)
    (Hparam : Url.searchParam (Server.urlOk env) u (Server.hostOf req) "sessionId"
              = Some (Some sid))
    (Hsid : sid <> "") :
  (forall t, Server.getTransport env sid = Some t ->
     let allowed := if Server.skipsAuth req then returnNext
                    else Do (Server.GetTransport sid) returnNext in
     Server.authMiddleware env req = allowed
     /\ Server.simpleAuthMiddleware env validateToken req = allowed)
  /\ (Server.getTransport env sid = None ->
      forall st, headersSent (res st) = false -> writableEnded (res st) = false ->
        run noCall (Server.sseMessagesHandler env req u) st
        = (Normal,
           mkSt Server.sessionNotFound
             (trace st ++ [EvDo Server.SetCorsHeaders; EvDo (Server.GetTransport sid);
                           EvWriteHead 404;
                           EvEnd (Server.errorBody "Session not found or expired")])%list)).
Proof.
  split.
  - intros t Ht allowed. subst allowed.
    unfold Server.authMiddleware, Server.simpleAuthMiddleware.
    destruct (Server.skipsAuth req); [split; reflexivity |].
    split; now apply sessionCheck_found with (u := u) (t := t).
  - intros Hnone st Hhead Hopen. now apply messagesHandler_not_found.
Qed.

Lemma session_shortcut_witness :
  let req := Scenario.request "POST" "/messages?sessionId=s1" [] in
  url req = Some "/messages?sessionId=s1"
  /\ JsString.startsWith "/messages?sessionId=s1" "/messages" = true
  /\ JsString.includes "/messages?sessionId=s1" "sessionId=" = true
  /\ Url.searchParam (Server.urlOk Scenario.env) "/messages?sessionId=s1"
       (Server.hostOf req) "sessionId" = Some (Some "s1")
  /\ "s1" <> ""
  /\ Server.getTransport Scenario.env "s1" = Some Scenario.accepting
  /\ Server.simpleAuthMiddleware Scenario.env true req
     = Do (Server.GetTransport "s1") returnNext.
Proof.
  intros req.
  assert (Hsid : "s1" <> "") by discriminate.
  assert (Ht : Server.getTransport Scenario.env "s1" = Some Scenario.accepting)
    by (vm_compute; reflexivity).
  destruct (session_shortcut Scenario.env true req "/messages?sessionId=s1" "s1"
              eq_refl eq_refl eq_refl eq_refl Hsid) as [Hallowed _].
  destruct (Hallowed Scenario.accepting Ht) as [_ Hsimple].
  repeat (split; [first [reflexivity | exact Hsid | exact Ht] |]).
  exact Hsimple.
Defined.

(** C2 as stated fails, on two requests that carry the identifier of the
    open session ["s1"] and no credential; both are answered 401.
    The first names the session as [sessionId=s1] but has a Host header
    that is no host: [new URL] throws, the middleware logs it and goes on to look
    for a credential.  The second spells the parameter [session%49d],
    which is [sessionId] to the URL parser and to the messages handler
    (it would deliver the message, 202), but the middleware looks for the text
    [sessionId=] in the raw URL before it parses it. *)
Lemma open_session_rejected :
  let rejected :=
    (Router.Resolved true,
     mkSt {| headersSent := true; statusCode := 401;
             sent := Server.unauthorizedBody "No valid token provided";
             writableEnded := true |}
          [EvMiddleware 0 false; EvDo Server.ExtractToken; EvWriteHead 401;
           EvEnd (Server.unauthorizedBody "No valid token provided")]) in
  let badHost := Scenario.request "POST" "/messages?sessionId=s1"
                   [("host", HString "bad host")] in
  let u := "/messages?session%49d=s1" in
  let encoded := Scenario.request "POST" u [] in
  Server.getTransport Scenario.env "s1" = Some Scenario.accepting
  /\ Url.getParam "sessionId" (Url.parseQuery (Url.queryOf "/messages?sessionId=s1"))
     = Some "s1"
  /\ Router.handleRequest Scenario.app badHost Scenario.fresh = rejected
  /\ Url.searchParam (Server.urlOk Scenario.env) u (Server.hostOf encoded) "sessionId"
     = Some (Some "s1")
  /\ statusCode (res (run noCall (Server.sseMessagesHandler Scenario.env encoded u)
                        Scenario.fresh).2) = 202%Z
  /\ Router.handleRequest Scenario.app encoded Scenario.fresh = rejected.
Proof. vm_compute. repeat split. Qed.

(* --------------------------------------------------------------------- *)
(** ** Rejections after a failed verification *)

Lemma sessionCheck_skipped (env : Server.Env) (req : IncomingMessage)
    (otherwise : Prog Server.ServerEffect unit) :
  Server.urlIncludes req "sessionId=" = false ->
  Server.sessionCheck env req otherwise = otherwise.
Proof.
  unfold Server.urlIncludes, Server.sessionCheck. destruct (url req) as [u|]; [| reflexivity].
  intros ->. now rewrite andb_false_r.
Qed.

(** When the request names no open session, the session check goes on
    to the credential, after the lookup it may have made. *)
Lemma sessionCheck_falls_through (env : Server.Env) (req : IncomingMessage)
    (otherwise : Prog Server.ServerEffect unit)
    (call : unit -> Comp Server.ServerEffect) (st : St Server.ServerEffect) :
  ~ Gate.openSession env req ->
  run call (Server.sessionCheck env req otherwise) st
  = run call otherwise
      (mkSt (res st) (trace st ++ map EvDo (Gate.sessionProbe env req))).
Proof.
  intros Hclosed.
  assert (Hsame : run call otherwise st
                  = run call otherwise (mkSt (res st) (trace st ++ []))).
  { rewrite app_nil_r. now destruct st. }
  unfold Server.sessionCheck, Gate.sessionProbe.
  destruct (url req) as [u|] eqn:Hurl; [| exact Hsame].
  destruct (JsString.startsWith u "/messages") eqn:Hpath; [| exact Hsame].
  destruct (JsString.includes u "sessionId=") eqn:Hliteral; [| exact Hsame].
  cbn [andb].
  destruct (Url.searchParam _ u _ "sessionId") as [[sid|]|] eqn:Hparam; try exact Hsame.
  destruct (String.eqb sid "") eqn:Hsid; cbn [negb]; [exact Hsame |].
  destruct (Server.getTransport env sid) as [t|] eqn:Ht; [| reflexivity].
  destruct Hclosed. exists u, sid, t. apply String.eqb_neq in Hsid. auto 10.
Qed.

Lemma skipsAuth_false_wellKnown (req : IncomingMessage) :
  Server.skipsAuth req = false -> Server.urlIncludes req "/.well-known/" = false.
Proof.
  unfold Server.skipsAuth. intros H.
  apply orb_false_iff in H as [H _]. now apply orb_false_iff in H as [H _].
Qed.

(** What the two middlewares do on a request that reaches verification
    with the token [t] and fails there with [message]. *)
Lemma authMiddleware_rejects (env : Server.Env) (req : IncomingMessage)
    (t source message : string)
    (call : unit -> Comp Server.ServerEffect) (st : St Server.ServerEffect) :
  Server.skipsAuth req = false ->
  ~ Gate.openSession env req ->
  Server.extractToken env req = (JsString t, source) ->
  JsString.trimIsEmpty t = false ->
  Server.verify env t = inr message ->
  run call (Server.authMiddleware env req) st
  = run call
      (Do Server.ExtractToken
         (Do (Server.VerifyToken t)
            (WriteHead 401
               (End (Server.errorBody
                       (if JsString.includes message "expired"
                        then "Unauthorized - Token expired"
                        else "Token verification failed: " ++ message)) Return)
               Server.authFailure)))
      (mkSt (res st) (trace st ++ map EvDo (Gate.sessionProbe env req))).
Proof.
  intros Hskip Hclosed Htoken Hblank Hverify. unfold Server.authMiddleware.
  rewrite Hskip, sessionCheck_falls_through, Htoken by assumption. cbn [truthy negb].
  destruct (String.eqb t "") eqn:Ht.
  { apply String.eqb_eq in Ht. subst t. discriminate Hblank. }
  cbn [negb]. rewrite Hblank, Hverify. unfold Server.authRejected, Server.handleUnauthorized.
  rewrite (skipsAuth_false_wellKnown req Hskip).
  now destruct (JsString.includes message "expired").
Qed.

Lemma simpleAuthMiddleware_rejects (env : Server.Env) (req : IncomingMessage)
    (t source message : string)
    (call : unit -> Comp Server.ServerEffect) (st : St Server.ServerEffect) :
  Server.skipsAuth req = false ->
  ~ Gate.openSession env req ->
  Server.extractToken env req = (JsString t, source) ->
  JsString.trimIsEmpty t = false ->
  Server.verify env t = inr message ->
  run call (Server.simpleAuthMiddleware env true req) st
  = run call
      (Do Server.ExtractToken
         (Do (Server.VerifyToken t)
            (Server.simpleUnauthorized ("Invalid token: " ++ message))))
      (mkSt (res st) (trace st ++ map EvDo (Gate.sessionProbe env req))).
Proof.
  intros Hskip Hclosed Htoken Hblank Hverify. unfold Server.simpleAuthMiddleware.
  rewrite Hskip, sessionCheck_falls_through, Htoken by assumption. cbn [truthy negb].
  destruct (String.eqb t "") eqn:Ht.
  { apply String.eqb_eq in Ht. subst t. discriminate Hblank. }
  cbn [negb]. now rewrite Hblank, Hverify.
Qed.

Lemma includes_jwtExpired : JsString.includes TokenValidator.jwtExpired "expired" = true.
Proof. reflexivity. Qed.

(** C4, as amended.  Every request that reaches verification (it is not
    exempt and names no open session, whatever its URL otherwise holds)
    with a token that fails as expired is answered 401 by both
    middlewares: [authMiddleware] with the message "Unauthorized - Token
    expired", [simpleAuthMiddleware] (the one that protects the
    endpoints, with validation on) with "Invalid token: jwt expired".
    The answer differs from the 401 answer to a verification that fails
    with another message [other] provided [other] does not contain the
    word "expired" ([authMiddleware]) or is not the expiry message itself
    ([simpleAuthMiddleware]). *)
Theorem expired_token_rejection (env : Server.Env)
    (req req' : IncomingMessage) (t t' source source' other : string)
    (Hskip : Server.skipsAuth req = false)
    (Hclosed : ~ Gate.openSession env req)
    (Htoken : Server.extractToken env req = (JsString t, source))
    (Hblank : JsString.trimIsEmpty t = false)
    (Hexpired : Server.verify env t = inr TokenValidator.jwtExpired)
    (Hskip' : Server.skipsAuth req' = false)
    (Hclosed' : ~ Gate.openSession env req')
    (Htoken' : Server.extractToken env req' = (JsString t', source'))
    (Hblank' : JsString.trimIsEmpty t' = false)
    (Hother : Server.verify env t' = inr other) :
  Server.answerOf (Server.authMiddleware env req)
  = {| headersSent := true; statusCode := 401;
       sent := Server.errorBody "Unauthorized - Token expired"; writableEnded := true |}
  /\ Server.answerOf (Server.simpleAuthMiddleware env true req)
     = {| headersSent := true; statusCode := 401;
          sent := Server.unauthorizedBody "Invalid token: jwt expired";
          writableEnded := true |}
  /\ statusCode (Server.answerOf (Server.authMiddleware env req')) = 401%Z
  /\ statusCode (Server.answerOf (Server.simpleAuthMiddleware env true req')) = 401%Z
  /\ (JsString.includes other "expired" = false ->
      sent (Server.answerOf (Server.authMiddleware env req))
      <> sent (Server.answerOf (Server.authMiddleware env req')))
  /\ (other <> TokenValidator.jwtExpired ->
      sent (Server.answerOf (Server.simpleAuthMiddleware env true req))
      <> sent (Server.answerOf (Server.simpleAuthMiddleware env true req'))).
Proof.
  unfold Server.answerOf.
  rewrite (authMiddleware_rejects env req t source _ _ _ Hskip Hclosed Htoken Hblank Hexpired).
  rewrite (authMiddleware_rejects env req' t' source' _ _ _ Hskip' Hclosed' Htoken' Hblank'
             Hother).
  rewrite (simpleAuthMiddleware_rejects env req t source _ _ _ Hskip Hclosed Htoken Hblank
             Hexpired).
  rewrite (simpleAuthMiddleware_rejects env req' t' source' _ _ _ Hskip' Hclosed' Htoken'
             Hblank' Hother).
  rewrite includes_jwtExpired.
  repeat split.
  - intros Hword. rewrite Hword. cbn. intros H. discriminate H.
  - intros Hne. cbn. intros H. apply Hne. now injection H.
Qed.

Lemma expired_token_rejection_witness :
  let req := Scenario.request "POST" "/messages?sessionId=gone" (Scenario.bearer "old") in
  let req' := Scenario.request "GET" "/sse" (Scenario.bearer "forged") in
  Server.verify Scenario.env "old" = inr TokenValidator.jwtExpired
  /\ Server.verify Scenario.env "forged" = inr "invalid signature"
  /\ Server.answerOf (Server.simpleAuthMiddleware Scenario.env true req)
     = {| headersSent := true; statusCode := 401;
          sent := Server.unauthorizedBody "Invalid token: jwt expired";
          writableEnded := true |}
  /\ sent (Server.answerOf (Server.authMiddleware Scenario.env req))
     <> sent (Server.answerOf (Server.authMiddleware Scenario.env req'))
  /\ sent (Server.answerOf (Server.simpleAuthMiddleware Scenario.env true req))
     <> sent (Server.answerOf (Server.simpleAuthMiddleware Scenario.env true req')).
Proof.
  intros req req'.
  assert (Hclosed : ~ Gate.openSession Scenario.env req).
  { intros (u & sid & transport & Hurl & _ & _ & Hparam & _ & Ht).
    injection Hurl as <-. vm_compute in Hparam. injection Hparam as <-.
    vm_compute in Ht. discriminate Ht. }
  assert (Hclosed' : ~ Gate.openSession Scenario.env req').
  { intros (u & sid & transport & Hurl & Hpath & _). injection Hurl as <-.
    discriminate Hpath. }
  destruct (expired_token_rejection Scenario.env req req' "old" "forged"
              "Authorization header" "Authorization header" "invalid signature"
              eq_refl Hclosed eq_refl eq_refl eq_refl eq_refl Hclosed' eq_refl eq_refl eq_refl)
    as (_ & Hanswer & _ & _ & Hauth & Hsimple).
  split; [reflexivity | split; [reflexivity | split; [exact Hanswer | split]]].
  - apply Hauth. reflexivity.
  - apply Hsimple. discriminate.
Defined.

(** C4 as stated fails for [authMiddleware], the full middleware that
    auth.ts exports and index.ts imports beside the one it registers: it
    takes any failure whose message contains "expired" for an expired
    token, so a key set that cannot be fetched because of an expired TLS
    certificate (a key-resolution failure) is answered exactly as an
    expired token is.  [simpleAuthMiddleware] with validation, the one
    index.ts registers, keeps the two apart: it passes the library's
    message on behind a fixed prefix. *)
Lemma expired_certificate_reads_as_expired_token :
  let req := Scenario.request "GET" "/sse" (Scenario.bearer "old") in
  let req' := Scenario.request "GET" "/sse" (Scenario.bearer "tls") in
  Server.verify Scenario.env "old" = inr TokenValidator.jwtExpired
  /\ Server.verify Scenario.env "tls" = inr "certificate has expired"
  /\ Server.answerOf (Server.authMiddleware Scenario.env req)
     = Server.answerOf (Server.authMiddleware Scenario.env req')
  /\ sent (Server.answerOf (Server.authMiddleware Scenario.env req'))
     = Server.errorBody "Unauthorized - Token expired"
  /\ sent (Server.answerOf (Server.simpleAuthMiddleware Scenario.env true req))
     = Server.unauthorizedBody "Invalid token: jwt expired"
  /\ sent (Server.answerOf (Server.simpleAuthMiddleware Scenario.env true req'))
     = Server.unauthorizedBody "Invalid token: certificate has expired".
Proof. vm_compute. repeat split. Qed.

(* --------------------------------------------------------------------- *)
(** ** The credential scan *)

(** The prefix test of the code is the one of the design: the value is
    not empty and begins, in lower case, with [bearer ], exactly when its
    first seven characters are the word and the space in some lettering. *)
Lemma bearerToken_afterBearer (value : HeaderValue) :
  Server.bearerToken value
  = match Design.headerText value with
    | Some a => Design.afterBearer a
    | None => None
    end.
Proof.
  unfold Server.bearerToken, Design.headerText, Design.afterBearer.
  destruct (match value with HString v => Some v | HArray vs => head vs end) as [a|];
    [| reflexivity].
  assert (Hsame : negb (String.eqb a "")
                  && JsString.startsWith (JsString.toLowerCase a) "bearer "
                  = String.eqb (JsString.toLowerCase (String.substring 0 7 a)) "bearer ").
  { destruct a as [|c1 [|c2 [|c3 [|c4 [|c5 [|c6 [|c7 r]]]]]]];
      cbn [JsString.toLowerCase String.substring JsString.startsWith String.eqb negb andb];
      rewrite ?(Ascii.eqb_sym (JsString.lowerAscii _));
      repeat match goal with
             | |- context [Ascii.eqb ?x (JsString.lowerAscii ?c)] =>
                 destruct (Ascii.eqb x (JsString.lowerAscii c)); cbn [andb]
             end;
      try reflexivity.
    now destruct r. }
  now rewrite Hsame.
Qed.

Lemma scanHeaders_source hs acc :
  Server.scanHeaders hs acc
  = match Design.headerSource hs with
    | Some t => (JsString t, "Authorization header")
    | None => acc
    end.
Proof.
  induction hs as [|[key value] rest IH]; cbn [Server.scanHeaders Design.headerSource];
    [reflexivity |].
  destruct (String.eqb (JsString.toLowerCase key) "authorization"); [| exact IH].
  rewrite bearerToken_afterBearer.
  destruct (Design.headerText value) as [a|]; [| exact IH].
  destruct (Design.afterBearer a); [reflexivity | exact IH].
Qed.

Lemma scanCookies_source cookies acc :
  Server.scanCookies cookies acc
  = match Design.cookieNamed cookies with
    | Some v => (v, "Cookie")
    | None => acc
    end.
Proof.
  induction cookies as [|cookie rest IH];
    cbn [Server.scanCookies Design.cookieNamed]; [reflexivity |].
  destruct (JsString.split "=" (JsString.trim cookie)) as [|name more]; [exact IH |].
  destruct (String.eqb name "access_token"); [reflexivity | exact IH].
Qed.

Lemma scanHeaders_wins hs :
  Design.wins (JsString <$> Design.headerSource hs) "Authorization header"
       (Server.scanHeaders hs (JsNull, "none")).
Proof.
  unfold Design.wins. rewrite scanHeaders_source.
  destruct (Design.headerSource hs) as [t|]; cbn; [| reflexivity].
  destruct (String.eqb t ""); reflexivity.
Qed.

(** A text without a question mark has no query. *)
Lemma cut_absent (sep : ascii) (s : string) :
  JsString.includes s (String sep "") = false -> (JsString.cut sep s).2 = None.
Proof.
  induction s as [|c s IH]; [reflexivity |].
  cbn [JsString.includes JsString.startsWith JsString.cut]. rewrite andb_true_r.
  intros H. apply orb_false_iff in H as [Hc Hs].
  rewrite Ascii.eqb_sym, Hc. specialize (IH Hs).
  destruct (JsString.cut sep s) as [h t]. exact IH.
Qed.

Lemma cut_prefix_absent (sep other : ascii) (s : string) :
  JsString.includes s (String other "") = false ->
  JsString.includes (JsString.cut sep s).1 (String other "") = false.
Proof.
  induction s as [|c s IH]; [reflexivity |].
  cbn [JsString.includes JsString.startsWith JsString.cut]. rewrite andb_true_r.
  intros H. apply orb_false_iff in H as [Hc Hs]. specialize (IH Hs).
  destruct (Ascii.eqb c sep); [reflexivity |].
  destruct (JsString.cut sep s) as [h t]. cbn [fst] in *.
  cbn [JsString.includes JsString.startsWith]. now rewrite andb_true_r, Hc, IH.
Qed.

Lemma no_query_no_parameter (u name : string) :
  JsString.includes u "?" = false ->
  Url.getParam name (Url.parseQuery (Url.queryOf u)) = None.
Proof.
  intros Hu. unfold Url.queryOf.
  now rewrite (cut_absent "?" _ (cut_prefix_absent "#" "?" u Hu)).
Qed.

(** The host of the code is the one of the design. *)
Lemma hostOf_requestHost (req : IncomingMessage) :
  Server.hostOf req = Design.requestHost req.
Proof.
  unfold Server.hostOf, Design.requestHost.
  destruct (headerString "host" (headers req)) as [h|]; [| reflexivity].
  now destruct h.
Qed.

Lemma scanUrl_wins env req acc :
  truthy (fst acc) = false ->
  Design.wins (JsString <$> Design.urlSource env req) "URL parameter" (Server.scanUrl env req acc).
Proof.
  destruct acc as [token source]. cbn [fst]. intros Hempty.
  unfold Design.wins, Server.scanUrl, Design.urlSource, Server.urlIncludes.
  rewrite <- hostOf_requestHost.
  rewrite Hempty. cbn [negb andb].
  destruct (url req) as [u|]; [| exact Hempty]. cbn [default].
  destruct (JsString.includes u "?") eqn:Hquery.
  - destruct (Url.searchParam _ _ _ _) as [[t|]|]; cbn; [| reflexivity | exact Hempty].
    destruct (String.eqb t ""); reflexivity.
  - unfold Url.searchParam. rewrite (no_query_no_parameter u _ Hquery).
    destruct (Server.urlOk env u (Server.hostOf req)); exact Hempty.
Qed.

Lemma scanCookieHeader_wins req acc :
  truthy (fst acc) = false ->
  Design.wins (Design.cookieSource req) "Cookie" (Server.scanCookieHeader req acc).
Proof.
  intros Hempty. unfold Design.wins, Server.scanCookieHeader, Design.cookieSource.
  destruct (headerString "cookie" (headers req)) as [c|]; [| exact Hempty].
  rewrite Hempty. cbn [negb andb].
  destruct (String.eqb c ""); cbn [negb]; [exact Hempty |].
  rewrite scanCookies_source.
  destruct (Design.cookieNamed (JsString.split ";" c)) as [v|]; cbn; [| exact Hempty].
  destruct (truthy v) eqn:Hv; reflexivity.
Qed.

(** The condition on the body of the code is the one of the design. *)
Lemma isJsonPost_jsonPost (req : IncomingMessage) :
  Server.isJsonPost req = Design.jsonPost req.
Proof.
  unfold Server.isJsonPost, Design.jsonPost.
  destruct (method req) as [m|].
  - destruct (String.eqb m "POST") eqn:Hm.
    + apply String.eqb_eq in Hm. subst m. rewrite bool_decide_eq_true_2 by reflexivity.
      now destruct (headerString "content-type" (headers req)).
    + apply String.eqb_neq in Hm. rewrite bool_decide_eq_false_2 by congruence.
      now destruct (headerString "content-type" (headers req)).
  - rewrite bool_decide_eq_false_2 by discriminate. reflexivity.
Qed.

Lemma scanBody_wins req acc :
  truthy (fst acc) = false ->
  Design.wins (Design.bodySource req) "Request body" (Server.scanBody req acc).
Proof.
  intros Hempty. unfold Design.wins, Server.scanBody, Design.bodySource.
  rewrite Hempty, isJsonPost_jsonPost. cbn [negb andb].
  destruct (Design.jsonPost req); cbn [andb]; [| exact Hempty].
  destruct (truthy (body req)); cbn [andb Design.nonEmpty]; [| exact Hempty].
  destruct (truthy (getField (body req) "token")); [reflexivity | exact Hempty].
Qed.

Lemma scanUrl_kept env req v label :
  truthy v = true -> Server.scanUrl env req (v, label) = (v, label).
Proof. intros Hv. unfold Server.scanUrl. now rewrite Hv. Qed.

Lemma scanCookieHeader_kept req v label :
  truthy v = true -> Server.scanCookieHeader req (v, label) = (v, label).
Proof.
  intros Hv. unfold Server.scanCookieHeader. cbn [fst]. rewrite Hv.
  now destruct (headerString "cookie" (headers req)).
Qed.

Lemma scanBody_kept req v label :
  truthy v = true -> Server.scanBody req (v, label) = (v, label).
Proof. intros Hv. unfold Server.scanBody. cbn [fst]. now rewrite Hv. Qed.

Lemma nonEmpty_truthy source v : Design.nonEmpty source = Some v -> truthy v = true.
Proof.
  destruct source as [x|]; cbn; [| discriminate].
  destruct (truthy x) eqn:Hx; [| discriminate]. now intros [= <-].
Qed.

(** C3, as amended.  [extractToken] scans the Authorization header (name
    compared without regard to case, value beginning with [bearer ]
    without regard to case either), then the [access_token] query
    parameter, then the [access_token] cookie, then, for a POST with a
    JSON content type, the [token] of the parsed body.  The first source
    whose value is not empty gives the token and the source label, whatever
    the later sources hold; when no source has a value the token returned
    is empty. *)
Theorem extractToken_first_source_wins (env : Server.Env) (req : IncomingMessage) :
  match Design.firstSource env req with
  | Some found => Server.extractToken env req = found
  | None => truthy (fst (Server.extractToken env req)) = false
  end.
Proof.
  unfold Design.firstSource, Design.scan, Server.extractToken.
  pose proof (scanHeaders_wins (headers req)) as Hh. unfold Design.wins in Hh.
  destruct (Design.nonEmpty (JsString <$> Design.headerSource (headers req))) as [h|] eqn:Eh.
  { apply nonEmpty_truthy in Eh. rewrite Hh.
    now rewrite scanUrl_kept, scanCookieHeader_kept, scanBody_kept. }
  pose proof (scanUrl_wins env req _ Hh) as Hu. unfold Design.wins in Hu.
  destruct (Design.nonEmpty (JsString <$> Design.urlSource env req)) as [q|] eqn:Eq.
  { apply nonEmpty_truthy in Eq. rewrite Hu.
    now rewrite scanCookieHeader_kept, scanBody_kept. }
  pose proof (scanCookieHeader_wins req _ Hu) as Hc. unfold Design.wins in Hc.
  destruct (Design.nonEmpty (Design.cookieSource req)) as [c|] eqn:Ec.
  { apply nonEmpty_truthy in Ec. rewrite Hc. now rewrite scanBody_kept. }
  pose proof (scanBody_wins req _ Hc) as Hb. unfold Design.wins in Hb.
  now destruct (Design.nonEmpty (Design.bodySource req)).
Qed.

(** C3 as stated fails on the bearer prefix, which the code compares
    without regard to case: [bearer abc] does not start with [Bearer ],
    so by the claim the header yields nothing and the cookie decides; the
    code takes the token from the header. *)
Lemma lowercase_bearer_is_accepted :
  let req := Scenario.request "GET" "/sse"
               [("authorization", HString "bearer abc");
                ("cookie", HString "access_token=xyz")] in
  Server.extractToken Scenario.env req = (JsString "abc", "Authorization header")
  /\ Design.firstSourceAsStated Scenario.env req = Some (JsString "xyz", "Cookie").
Proof. vm_compute. split; reflexivity. Qed.

(* ===================================================================== *)
(** * The token validator *)
(* ===================================================================== *)

(** C5.  [verifyToken] offers [jwt.verify] the one algorithm RS256: with a
    library that honours its [algorithms] option, a token whose header
    names any other algorithm fails verification, whatever else holds of
    it.  A token that does not decode fails as an invalid token, and a
    token whose header has no key identifier fails with the missing key
    identifier error after the decoding alone, before any key is looked
    up. *)
Theorem verifyToken_algorithm_and_key_id
    (lib : TokenValidator.JwtLibrary) (Hlib : TokenValidator.honoursAlgorithms lib)
    (base : TokenValidator.JwtConfig) (token : string)
    (config : TokenValidator.PartialConfig) (inst : option string) :
  let v := TokenValidator.verifyToken lib base token config inst in
  (forall tok key options,
     In (TokenValidator.CallVerify tok key options) (TokenValidator.calls v) ->
     TokenValidator.algorithms options = ["RS256"])
  /\ (forall decoded,
        TokenValidator.jwt_decode lib token = Some decoded ->
        TokenValidator.algorithmOf decoded <> JsString "RS256" ->
        exists message, TokenValidator.result v = inr message)
  /\ (TokenValidator.jwt_decode lib token = None ->
      TokenValidator.result v = inr "Invalid token format")
  /\ (forall decoded,
        TokenValidator.jwt_decode lib token = Some decoded ->
        truthy (getField (TokenValidator.jwtHeader decoded) "kid") = false ->
        TokenValidator.result v = inr "No key ID (kid) found in token header"
        /\ TokenValidator.calls v = [TokenValidator.CallDecode token]
        /\ TokenValidator.instance v = inst).
Proof.
  intros v. subst v. split; [| split; [| split]].
  - intros tok key options. unfold TokenValidator.verifyToken.
    destruct (TokenValidator.jwt_decode lib token) as [decoded|];
      [destruct (truthy (getField (TokenValidator.jwtHeader decoded) "kid"));
       cbn [negb];
       [destruct (TokenValidator.getSigningKey lib _ _ inst) as [[signingKey | message] inst'] |] |];
      cbn [TokenValidator.calls]; intros H;
      repeat (destruct H as [H | H]; [try discriminate H |]); try contradiction.
    now injection H as _ _ <-.
  - intros decoded Hdecode Halg. unfold TokenValidator.verifyToken. rewrite Hdecode.
    destruct (truthy (getField (TokenValidator.jwtHeader decoded) "kid"));
      cbn [negb]; [| cbn; eauto].
    destruct (TokenValidator.getSigningKey lib _ _ inst) as [[signingKey | message] inst'];
      cbn [TokenValidator.result]; [| eauto].
    apply (Hlib token signingKey _ decoded Hdecode).
    intros a [<- | []]. exact Halg.
  - intros Hdecode. unfold TokenValidator.verifyToken. now rewrite Hdecode.
  - intros decoded Hdecode Hkid. unfold TokenValidator.verifyToken.
    rewrite Hdecode, Hkid. cbn. auto.
Qed.

Lemma toyLibrary_honoursAlgorithms : TokenValidator.honoursAlgorithms Scenario.toyLibrary.
Proof.
  intros token key options decoded Hdecode Hnone. cbn in Hdecode |- *.
  unfold Scenario.toyVerify. rewrite Hdecode.
  destruct (Scenario.allowed _ _) eqn:Hallowed; cbn [negb]; [| eauto].
  unfold Scenario.allowed in Hallowed.
  destruct (TokenValidator.algorithmOf decoded) as [| | | |a| |] eqn:Halg; try discriminate.
  apply existsb_exists in Hallowed as (x & Hin & Hx).
  apply String.eqb_eq in Hx. subst x. now destruct (Hnone a Hin).
Qed.

Lemma verifyToken_algorithm_and_key_id_witness :
  TokenValidator.honoursAlgorithms Scenario.toyLibrary
  /\ (exists message,
        TokenValidator.result
          (TokenValidator.verifyToken Scenario.toyLibrary TokenValidator.defaultConfig
             "hs" TokenValidator.noOverride None) = inr message)
  /\ TokenValidator.calls
       (TokenValidator.verifyToken Scenario.toyLibrary TokenValidator.defaultConfig
          "nokid" TokenValidator.noOverride None)
     = [TokenValidator.CallDecode "nokid"].
Proof.
  split; [exact toyLibrary_honoursAlgorithms |]. split.
  - destruct (verifyToken_algorithm_and_key_id Scenario.toyLibrary
                toyLibrary_honoursAlgorithms TokenValidator.defaultConfig "hs"
                TokenValidator.noOverride None) as (_ & Halg & _).
    apply (Halg _ eq_refl). discriminate.
  - destruct (verifyToken_algorithm_and_key_id Scenario.toyLibrary
                toyLibrary_honoursAlgorithms TokenValidator.defaultConfig "nokid"
                TokenValidator.noOverride None) as (_ & _ & _ & Hkid).
    now destruct (Hkid _ eq_refl eq_refl) as (_ & Hcalls & _).
Defined.

(** The library of the scenarios accepts an RS256 token and refuses the
    same claims under HS256. *)
Example verifyToken_examples :
  TokenValidator.result
    (TokenValidator.verifyToken Scenario.toyLibrary TokenValidator.defaultConfig
       "valid" TokenValidator.noOverride None) = inl Scenario.somePayload
  /\ TokenValidator.result
       (TokenValidator.verifyToken Scenario.toyLibrary TokenValidator.defaultConfig
          "hs" TokenValidator.noOverride None) = inr "invalid algorithm".
Proof. split; reflexivity. Qed.

(* ===================================================================== *)
(** * The client's token decoder *)
(* ===================================================================== *)






(** An input without a dot does get the invalid-format record. *)
Example decodeToken_garbage :
  Client.decodeToken Scenario.toyCodec "garbage" = Client.invalidToken.
Proof. reflexivity. Qed.

(* ===================================================================== *)
(** * The callback listener *)
(* ===================================================================== *)

(** The promise settles once: no request changes a settled promise. *)
Lemma settled_once (l : Client.Listener) (u : option string) (r : string + string) :
  Client.settled l = Some r -> Client.settled (Client.onRequest l u) = Some r.
Proof.
  intros Hr. unfold Client.onRequest.
  destruct (Client.listening l && negb (Client.crashed l)); [| exact Hr].
  unfold Client.requestListener.
  destruct u as [u|]; [| exact Hr].
  destruct (JsString.startsWith u "/callback"); [| exact Hr].
  destruct (Client.queryTruthy _).
  - cbn. now rewrite Hr.
  - destruct (Client.queryField "code" _) as [[c | items]|]; cbn.
    + destruct (String.eqb c ""); cbn; now rewrite Hr.
    + exact Hr.
    + now rewrite Hr.
Qed.

Lemma settled_for_good (requests : list (option string)) (l : Client.Listener)
    (r : string + string) :
  Client.settled l = Some r ->
  Client.settled (fold_left Client.onRequest requests l) = Some r.
Proof.
  revert l. induction requests as [|u requests IH]; intros l Hr; [exact Hr |].
  cbn [fold_left]. apply IH. now apply settled_once.
Qed.

(** A closed listener serves nothing more. *)
Lemma closed_serves_nothing (requests : list (option string)) (l : Client.Listener) :
  Client.listening l = false -> fold_left Client.onRequest requests l = l.
Proof.
  intros Hclosed. induction requests as [|u requests IH]; [reflexivity |].
  cbn [fold_left]. unfold Client.onRequest at 2. now rewrite Hclosed.
Qed.

(** The empty pieces of a query count against the 1000 pieces that
    [querystring.parse] reads: behind 1000 of them the code is not seen,
    and the callback is answered 400. *)
Example empty_pieces_count :
  Client.queryField "code" (Cases.afterEmptyPieces 999 "code=abc")
  = Some (Client.QString "abc")
  /\ Client.queryField "code" (Cases.afterEmptyPieces 1000 "code=abc") = None
  /\ Client.serve [Some ("/callback?" ++ Cases.afterEmptyPieces 1000 "code=abc")]
     = {| Client.listening := true; Client.crashed := false;
          Client.settled := Some (inr "No authorization code received");
          Client.answers :=
            [(400%Z, Client.ErrorPage "missing_code" "No authorization code received")] |}.
Proof. vm_compute. repeat split. Qed.

(** C7: what the code does on a callback that carries an error, and on
    one that carries no code.  The promise is rejected, once, but the
    server is left listening: [server.close()] is only called on the path
    that resolves.  A second callback is then served like the first (and a
    later callback with a code is answered with the success page, its
    [resolve] having no effect), where the claim has the listener closed
    after the first terminal event. *)
Theorem failed_callback_leaves_listener_open :
  let denied := Client.serve [Some "/callback?error=access_denied"] in
  let missing := Client.serve [Some "/callback?state=xyz"] in
  let succeeded := Client.serve [Some "/callback?code=abc"] in
  let retried := Client.serve [Some "/callback?error=access_denied";
                               Some "/callback?error=access_denied";
                               Some "/callback?code=abc"] in
  Client.settled denied = Some (inr "Authorization error: access_denied")
  /\ Client.listening denied = true
  /\ Client.settled missing = Some (inr "No authorization code received")
  /\ Client.listening missing = true
  /\ Client.settled succeeded = Some (inl "abc")
  /\ Client.listening succeeded = false
  /\ Client.settled retried = Some (inr "Authorization error: access_denied")
  /\ Client.answers retried
     = [(400%Z, Client.ErrorPage "access_denied" "");
        (400%Z, Client.ErrorPage "access_denied" "");
        (200%Z, Client.SuccessPage "abc")].
Proof. vm_compute. repeat split. Qed.

(* ===================================================================== *)
(** * The token exchange *)
(* ===================================================================== *)

Lemma append_cancel (p a b : string) : p ++ a = p ++ b -> a = b.
Proof. induction p as [|c p IH]; cbn; [trivial | intros [= H]; auto]. Qed.

Lemma spaceFree_cons (c : ascii) (s : string) :
  c <> " "%char -> Client.spaceFree s -> Client.spaceFree (String c s).
Proof. intros Hc Hs x [<- | Hx]; [exact Hc | now apply Hs]. Qed.

Lemma string_of_uint_spaceFree (d : uint) : Client.spaceFree (NilEmpty.string_of_uint d).
Proof.
  induction d; cbn [NilEmpty.string_of_uint];
    [intros c [] | apply spaceFree_cons; [discriminate | assumption] ..].
Qed.

Lemma decimal_spaceFree (n : Z) : Client.spaceFree (Client.decimal n).
Proof.
  unfold Client.decimal, NilZero.string_of_int.
  destruct (Z.to_int n) as [d | d]; [| apply spaceFree_cons; [discriminate |]];
    (destruct d; [apply spaceFree_cons; [discriminate | intros c []]
                 | apply string_of_uint_spaceFree ..]).
Qed.

Lemma cut_at_space (a b x y : string) :
  Client.spaceFree a -> Client.spaceFree b ->
  a ++ String " " x = b ++ String " " y -> a = b /\ x = y.
Proof.
  revert b. induction a as [|c a IH]; intros [|c' b] Ha Hb; cbn.
  - now intros [= ->].
  - intros [= Hc _]. destruct (Hb c'); [now left | now symmetry].
  - intros [= Hc _]. destruct (Ha c); [now left | exact Hc].
  - intros [= -> Hrest]. destruct (IH b) as [-> ->]; [| | exact Hrest | auto].
    + intros z Hz. apply Ha. now right.
    + intros z Hz. apply Hb. now right.
Qed.

Lemma to_int_proper (n : Z) : Z.to_int n <> Pos Nil /\ Z.to_int n <> Neg Nil.
Proof.
  destruct n as [|p|p]; cbn; split; try discriminate;
    intros [= H]; now apply (Unsigned.to_uint_nonnil p).
Qed.

Lemma decimal_inj (n n' : Z) : Client.decimal n = Client.decimal n' -> n = n'.
Proof.
  unfold Client.decimal. intros H.
  apply (f_equal NilZero.int_of_string) in H.
  destruct (to_int_proper n) as [Hp Hn]. destruct (to_int_proper n') as [Hp' Hn'].
  rewrite !NilZero.isi in H by assumption.
  injection H as H. apply (f_equal Z.of_int) in H. now rewrite !DecimalZ.of_to in H.
Qed.

(** The message of a failed exchange tells the status and the body apart. *)
Lemma tokenExchangeFailed_inj (st st' : Z) (b b' : string) :
  Client.tokenExchangeFailed st b = Client.tokenExchangeFailed st' b' ->
  st = st' /\ b = b'.
Proof.
  unfold Client.tokenExchangeFailed. intros H. apply append_cancel in H.
  change (Client.decimal st ++ String " " ("- " ++ b)
          = Client.decimal st' ++ String " " ("- " ++ b')) in H.
  apply cut_at_space in H as [Hst Hb]; try apply decimal_spaceFree.
  split; [now apply decimal_inj | now apply (append_cancel "- ")].
Qed.

Lemma property_string (data : JsValue) (name t : string) :
  getField data name = JsString t -> Client.property data name = Some (JsString t).
Proof. destruct data; cbn; try discriminate; now intros ->. Qed.

(** A flow hands an access token to its caller only out of a token
    response that was [ok]. *)
Lemma flow_token_from_ok_response (pf : Client.Platform)
    (requests : list (option string)) (v : JsValue) :
  Client.startOAuthFlow pf requests = Client.AccessToken v ->
  exists code endpoint r data t,
    Client.fetch pf (Client.tokenRequest pf code endpoint) = inl r
    /\ Client.ok r = true
    /\ Client.json r = inl data
    /\ v = getField data "access_token"
    /\ v = JsString t.
Proof.
  unfold Client.startOAuthFlow.
  destruct (Client.fetchResourceMetadata pf) as [resourceMetadata | e]; [| discriminate].
  destruct (Client.property resourceMetadata _) as [servers|]; [| discriminate].
  destruct (Client.firstOf servers) as [authServerUrl|]; [| discriminate].
  destruct (Client.fetchAuthServerMetadata pf authServerUrl) as [serverMetadata | e];
    [| discriminate].
  destruct (Client.property serverMetadata "authorization_endpoint") as [authz|];
    [| discriminate].
  destruct (Client.property serverMetadata "token_endpoint") as [endpoint|];
    [| discriminate].
  destruct (Client.openAuthorizationWindow pf authz requests) as [[code | e]|];
    try discriminate.
  destruct (Client.exchangeCodeForToken pf code endpoint) as [tokenData | e] eqn:Hx;
    [| discriminate].
  intros [= <-]. unfold Client.exchangeCodeForToken in Hx.
  destruct (Client.fetch pf _) as [r | e] eqn:Hfetch; [| discriminate].
  destruct (Client.ok r) eqn:Hok; cbn [negb] in Hx; [| discriminate].
  destruct (Client.json r) as [data | e] eqn:Hjson; [| discriminate].
  destruct (Client.property data "access_token") as [[| | | |t| |]|] eqn:Hprop;
    try discriminate.
  injection Hx as <-. exists code, endpoint, r, data, t.
  repeat split; try assumption.
  destruct data; cbn in Hprop; try discriminate; now injection Hprop.
Qed.

(** A flow that makes the token exchange ends as the exchange does. *)
Lemma flow_after_exchange (pf : Client.Platform) (requests : list (option string))
    (code : string) (tokenEndpoint : JsValue) :
  Flow.exchanges pf requests code tokenEndpoint ->
  Client.startOAuthFlow pf requests
  = match Client.exchangeCodeForToken pf code tokenEndpoint with
    | inr e => Client.Failed e
    | inl tokenData => Client.AccessToken (getField tokenData "access_token")
    end.
Proof.
  intros (resource & servers & server & metadata & authz
          & Hresource & Hservers & Hserver & Hmetadata & Hauthz & Hendpoint & Hcode).
  unfold Client.startOAuthFlow.
  now rewrite Hresource, Hservers, Hserver, Hmetadata, Hauthz, Hendpoint, Hcode.
Qed.

Lemma not_2xx (r : Client.FetchResponse) :
  ~ (200 <= Client.status r <= 299)%Z -> Client.ok r = false.
Proof.
  intros H. unfold Client.ok.
  destruct (Z.leb_spec 200 (Client.status r)), (Z.leb_spec (Client.status r) 299);
    try reflexivity; lia.
Qed.

Lemma is_2xx (r : Client.FetchResponse) :
  (200 <= Client.status r <= 299)%Z -> Client.ok r = true.
Proof.
  intros H. unfold Client.ok.
  destruct (Z.leb_spec 200 (Client.status r)), (Z.leb_spec (Client.status r) 299);
    try reflexivity; lia.
Qed.

(** C8.  For the response [r] that the token endpoint gives to the token
    request of a flow:
    - when its status is outside 200..299, [exchangeCodeForToken] fails
      with the error "Token exchange failed: <status> - <body>", and
      every flow of [startOAuthFlow] that made this exchange fails with
      that very error, so its caller gets no token;
    - the status and the body can be read back from the error;
    - whatever the network does, a flow hands an access token to its
      caller only out of a token response with a status in 200..299,
      and the token is the string [access_token] of its JSON;
    - when its status is in 200..299 and its JSON has a string
      [access_token], the exchange returns the parsed object and every
      flow that made this exchange returns that access token. *)
Theorem token_exchange (pf : Client.Platform) (code : string) (tokenEndpoint : JsValue)
    (r : Client.FetchResponse)
    (Hfetch : Client.fetch pf (Client.tokenRequest pf code tokenEndpoint) = inl r) :
  (~ (200 <= Client.status r <= 299)%Z ->
     Client.exchangeCodeForToken pf code tokenEndpoint
     = inr (Client.tokenExchangeFailed (Client.status r) (Client.text r))
     /\ forall requests,
          Flow.exchanges pf requests code tokenEndpoint ->
          Client.startOAuthFlow pf requests
          = Client.Failed (Client.tokenExchangeFailed (Client.status r) (Client.text r)))
  /\ (forall st st' b b',
        Client.tokenExchangeFailed st b = Client.tokenExchangeFailed st' b' ->
        st = st' /\ b = b')
  /\ (forall requests v,
        Client.startOAuthFlow pf requests = Client.AccessToken v ->
        exists code' endpoint' r' data t,
          Client.fetch pf (Client.tokenRequest pf code' endpoint') = inl r'
          /\ (200 <= Client.status r' <= 299)%Z
          /\ Client.json r' = inl data
          /\ v = getField data "access_token"
          /\ v = JsString t)
  /\ (forall data t,
        (200 <= Client.status r <= 299)%Z -> Client.json r = inl data ->
        getField data "access_token" = JsString t ->
        Client.exchangeCodeForToken pf code tokenEndpoint = inl data
        /\ forall requests,
             Flow.exchanges pf requests code tokenEndpoint ->
             Client.startOAuthFlow pf requests = Client.AccessToken (JsString t)).
Proof.
  split; [| split; [| split]].
  - intros Hstatus.
    assert (Hx : Client.exchangeCodeForToken pf code tokenEndpoint
                 = inr (Client.tokenExchangeFailed (Client.status r) (Client.text r))).
    { unfold Client.exchangeCodeForToken. now rewrite Hfetch, (not_2xx r Hstatus). }
    split; [exact Hx |].
    intros requests Hflow.
    now rewrite (flow_after_exchange pf requests code tokenEndpoint Hflow), Hx.
  - apply tokenExchangeFailed_inj.
  - intros requests v Hflow.
    destruct (flow_token_from_ok_response pf requests v Hflow)
      as (code' & endpoint' & r' & data & t & Hfetch' & Hok & Hjson & Hv & Ht).
    exists code', endpoint', r', data, t.
    repeat split; try assumption;
      unfold Client.ok in Hok; apply andb_prop in Hok as [Hlow Hhigh]; lia.
  - intros data t Hstatus Hjson Htoken.
    assert (Hx : Client.exchangeCodeForToken pf code tokenEndpoint = inl data).
    { unfold Client.exchangeCodeForToken.
      rewrite Hfetch, (is_2xx r Hstatus), Hjson. cbn [negb].
      now rewrite (property_string data "access_token" t Htoken). }
    split; [exact Hx |].
    intros requests Hflow.
    now rewrite (flow_after_exchange pf requests code tokenEndpoint Hflow), Hx, Htoken.
Qed.

Lemma token_exchange_witness :
  let pf := Scenario.platform Scenario.badRequest in
  Client.fetch pf (Client.tokenRequest pf "abc" (JsString "http://localhost:5556/dex/token"))
  = inl Scenario.badRequest
  /\ Client.status Scenario.badRequest = 400%Z
  /\ Client.exchangeCodeForToken pf "abc" (JsString "http://localhost:5556/dex/token")
     = inr "Token exchange failed: 400 - invalid_grant"
  /\ Client.startOAuthFlow pf [Some "/callback?code=abc"]
     = Client.Failed "Token exchange failed: 400 - invalid_grant".
Proof.
  intros pf.
  assert (Hstatus : ~ (200 <= Client.status Scenario.badRequest <= 299)%Z)
    by (cbn; lia).
  destruct (token_exchange pf "abc" (JsString "http://localhost:5556/dex/token")
              Scenario.badRequest eq_refl) as [Hfail _].
  destruct (Hfail Hstatus) as [Hexchange Hflow].
  split; [reflexivity | split; [reflexivity | split; [exact Hexchange |]]].
  apply Hflow. unfold Flow.exchanges.
  do 5 eexists. repeat split; vm_compute; reflexivity.
Defined.

(** The two ends of a flow over the scenario's network: a 400 at the token
    endpoint fails the flow with the status and the body; a grant returns
    the access token. *)
Example flow_examples :
  Client.startOAuthFlow (Scenario.platform Scenario.badRequest) [Some "/callback?code=abc"]
  = Client.Failed "Token exchange failed: 400 - invalid_grant"
  /\ Client.startOAuthFlow (Scenario.platform Scenario.granted) [Some "/callback?code=abc"]
     = Client.AccessToken (JsString "eyJ.eyJ.sig")
  /\ Client.startOAuthFlow (Scenario.platform Scenario.granted)
       [Some "/callback?error=access_denied&error_description=User%20declined"]
     = Client.Failed "Authorization error: access_denied"
  /\ Client.startOAuthFlow (Scenario.platform Scenario.granted) [Some "/favicon.ico"]
     = Client.Pending.
Proof. vm_compute. repeat split. Qed.

(* ===================================================================== *)
(** * The router of index.ts *)
(* ===================================================================== *)

#[local] Ltac by_cases_on_program :=
  repeat first
    [ progress (intros)
    | apply Router.cam_return | apply Router.cam_throw
    | apply Router.cam_writeHead | apply Router.cam_end
    | apply Router.cam_observe | apply Router.cam_do
    | apply Router.cam_call
    | match goal with
      | |- Router.callsAtMost _ (if ?b then _ else _) => destruct b
      | |- Router.callsAtMost _ (match ?x with _ => _ end) => destruct x
      | |- Router.callsAtMost _ (let '(_, _) := ?x in _) => destruct x
      end ].

Lemma handleUnauthorized_callsAtMost (req : IncomingMessage) (message : string) (n : nat) :
  Router.callsAtMost n (Server.handleUnauthorized req message).
Proof. unfold Server.handleUnauthorized, Server.authFailure, respond. by_cases_on_program. Qed.

Lemma sessionCheck_callsAtMost (env : Server.Env) (req : IncomingMessage)
    (otherwise : Prog Server.ServerEffect unit) :
  Router.callsAtMost 1 otherwise ->
  Router.callsAtMost 1 (Server.sessionCheck env req otherwise).
Proof.
  intros Hotherwise. unfold Server.sessionCheck, returnNext.
  by_cases_on_program; exact Hotherwise.
Qed.

(** Neither middleware calls its continuation twice. *)
Lemma authMiddleware_callsAtMost (env : Server.Env) (req : IncomingMessage) :
  Router.callsAtMost 1 (Server.authMiddleware env req).
Proof.
  unfold Server.authMiddleware.
  destruct (Server.skipsAuth req); [unfold returnNext; by_cases_on_program |].
  apply sessionCheck_callsAtMost.
  unfold Server.authRejected, Server.detachedNext, Server.authFailure, respond.
  by_cases_on_program; apply handleUnauthorized_callsAtMost.
Qed.

Lemma simpleAuthMiddleware_callsAtMost (env : Server.Env) (validateToken : bool)
    (req : IncomingMessage) :
  Router.callsAtMost 1 (Server.simpleAuthMiddleware env validateToken req).
Proof.
  unfold Server.simpleAuthMiddleware.
  destruct (Server.skipsAuth req); [unfold returnNext; by_cases_on_program |].
  apply sessionCheck_callsAtMost.
  unfold Server.simpleUnauthorized, Server.detachedNext, Server.simpleAuthFailure, respond.
  by_cases_on_program.
Qed.

(** X24.  With the one middleware that index.ts registers, every request,
    matched or not and whatever it carries, has a route handler invoked
    at most once, and no handler invoked on a finished response. *)
Lemma appRouter_handler_at_most_once (env : Server.Env)
    (metadata stream : Router.RouteHandler Server.ServerEffect) (req : IncomingMessage) :
  let st := (Router.handleRequest (Server.appRouter env metadata stream) req
               (mkSt freshResponse [])).2 in
  Router.handlerInvocations (trace st) <= 1 /\ Router.noLate (trace st).
Proof.
  intros st. subst st. unfold Router.handleRequest.
  destruct (url req) as [u|]; [| split; [cbn; lia | constructor]].
  destruct (method req) as [m|]; [| split; [cbn; lia | constructor]].
  destruct (String.eqb u "" || String.eqb m ""); [split; [cbn; lia | constructor] |].
  set (r := Server.appRouter env metadata stream).
  assert (Hlinear : Forall (fun mw => Router.callsAtMost 1 (mw req)) (Router.middleware r)).
  { constructor; [apply simpleAuthMiddleware_callsAtMost | constructor]. }
  assert (Hne : Router.middleware r <> []) by discriminate.
  assert (Hall : forall rs i,
            let st := (Router.matchRoutes r rs i req m u (mkSt freshResponse [])).2 in
            Router.handlerInvocations (trace st) <= 1 /\ Router.noLate (trace st)).
  { induction rs as [|route rs IH]; intros i; cbn [Router.matchRoutes].
    - split; [cbn; lia | constructor].
    - destruct (Router.methodMatches route m && Router.isMatch (Router.path route) u);
        [| apply IH].
      split.
      + exact (dispatch_count r i route req u (mkSt freshResponse []) Hlinear).
      + apply dispatch_noLate; [now left | constructor]. }
  apply Hall.
Qed.

(** The first scenario of the design document on the router of index.ts:
    [/sse] without a credential is answered 401 before any handler runs;
    with a valid bearer token the stream handler runs; a message posted
    with the identifier of the open session and no Authorization header is
    let through by the middleware and delivered by the session's transport; the
    discovery document is served without any credential being looked
    for. *)
Example end_to_end :
  let run request := Router.handleRequest Scenario.app request Scenario.fresh in
  trace (run (Scenario.request "GET" "/sse" [])).2
  = [EvMiddleware 0 false; EvDo Server.ExtractToken; EvWriteHead 401;
     EvEnd (Server.unauthorizedBody "No valid token provided")]
  /\ trace (run (Scenario.request "GET" "/sse" (Scenario.bearer "valid"))).2
     = [EvMiddleware 0 false; EvDo Server.ExtractToken; EvDo (Server.VerifyToken "valid");
        EvHandler 1 false; EvWriteHead 200; EvEnd (Text "stream")]
  /\ trace (run (Scenario.request "POST" "/messages?sessionId=s1" [])).2
     = [EvMiddleware 0 false; EvDo (Server.GetTransport "s1"); EvHandler 2 false;
        EvDo Server.SetCorsHeaders; EvDo (Server.GetTransport "s1");
        EvWriteHead 202; EvEnd (Text "Accepted")]
  /\ trace (run (Scenario.request "POST" "/messages?sessionId=gone" [])).2
     = [EvMiddleware 0 false; EvDo (Server.GetTransport "gone"); EvDo Server.ExtractToken;
        EvWriteHead 401; EvEnd (Server.unauthorizedBody "No valid token provided")]
  /\ trace (run (Scenario.request "GET" "/.well-known/oauth-protected-resource" [])).2
     = [EvMiddleware 0 false; EvHandler 0 false; EvWriteHead 200; EvEnd (Text "metadata")]
  /\ (run (Scenario.request "GET" "/sse?access_token=valid" [])).1 = Router.Resolved false.
Proof. vm_compute. repeat split. Qed.

(* ===================================================================== *)
(** * More of the router *)
(* ===================================================================== *)

Section RouterMore.

Context {E : Type}.

Implicit Types (r : Router.Router E) (st : St E) (req : IncomingMessage)
  (route : Router.Route E).

(** The router is used by the route loop for its middleware only. *)
Lemma dispatch_same_middleware r r' i route req u st :
  Router.middleware r = Router.middleware r' ->
  Router.dispatch r i route req u st = Router.dispatch r' i route req u st.
Proof.
  intros H. unfold Router.dispatch, Router.executeMiddlewareChain. now rewrite H.
Qed.

Lemma matchRoutes_same_middleware r r' rs i req m u st :
  Router.middleware r = Router.middleware r' ->
  Router.matchRoutes r rs i req m u st = Router.matchRoutes r' rs i req m u st.
Proof.
  intros H. revert i. induction rs as [|route rs IH]; intros i; cbn [Router.matchRoutes];
    [reflexivity |].
  rewrite IH. now rewrite (dispatch_same_middleware r r' i route req u st H).
Qed.

Lemma matchRoutes_app_matched r rs extra i req m u st route :
  In route rs ->
  Router.methodMatches route m && Router.isMatch (Router.path route) u = true ->
  Router.matchRoutes r (rs ++ extra) i req m u st = Router.matchRoutes r rs i req m u st.
Proof.
  revert i. induction rs as [|x rs IH]; intros i Hin Hmatch; [destruct Hin |].
  cbn [app Router.matchRoutes].
  destruct (Router.methodMatches x m && Router.isMatch (Router.path x) u) eqn:Hx;
    [reflexivity |].
  destruct Hin as [-> | Hin]; [congruence | now apply IH].
Qed.

(** X1.  A request that no route matches, or that has no URL or no
    method, is left alone: [handleRequest] resolves to [false], no
    middleware and no handler is invoked, and nothing is written. *)
Theorem handleRequest_unmatched r req st
    (Hnone : forall m u route,
       method req = Some m -> url req = Some u -> In route (Router.routes r) ->
       Router.methodMatches route m && Router.isMatch (Router.path route) u = false) :
  Router.handleRequest r req st = (Router.Resolved false, st).
Proof.
  unfold Router.handleRequest.
  destruct (url req) as [u|]; [| reflexivity].
  destruct (method req) as [m|]; [| reflexivity].
  destruct (String.eqb u "" || String.eqb m ""); [reflexivity |].
  apply matchRoutes_none. intros route Hin. now apply (Hnone m u).
Qed.

(** X2.  Registration order is precedence.  A route added with [get],
    [post] or [all] after the others never takes a request that an
    earlier route matches: the request is handled exactly as before.  It
    takes the requests that it matches and no earlier route does. *)
Theorem later_route_has_lower_precedence r req st (m u : string)
    (p : Router.PathPattern) (h : Router.RouteHandler E)
    (Hmethod : method req = Some m) (Hurl : url req = Some u) :
  (forall route,
     In route (Router.routes r) ->
     Router.methodMatches route m && Router.isMatch (Router.path route) u = true ->
     Router.handleRequest (Router.get p h r) req st = Router.handleRequest r req st
     /\ Router.handleRequest (Router.post p h r) req st = Router.handleRequest r req st
     /\ Router.handleRequest (Router.all p h r) req st = Router.handleRequest r req st)
  /\ ((forall route, In route (Router.routes r) ->
         Router.methodMatches route m && Router.isMatch (Router.path route) u = false) ->
      m <> "" -> u <> "" -> Router.isMatch p u = true ->
      Router.handleRequest (Router.all p h r) req st
      = Router.dispatch r (length (Router.routes r)) (Router.mkRoute "ALL" p h) req u st).
Proof.
  split.
  - intros route Hin Hmatch. unfold Router.handleRequest. rewrite Hurl, Hmethod.
    destruct (String.eqb u "" || String.eqb m ""); [repeat split |].
    repeat split; cbn [Router.routes Router.get Router.post Router.all];
      rewrite (matchRoutes_app_matched _ _ _ _ _ _ _ _ route Hin Hmatch);
      now apply matchRoutes_same_middleware.
  - intros Hnone Hm Hu Hp. unfold Router.handleRequest. rewrite Hurl, Hmethod.
    apply String.eqb_neq in Hm, Hu. rewrite Hm, Hu. cbn [orb Router.routes Router.all].
    rewrite (matchRoutes_first _ req m u st (Router.routes r) [] (Router.mkRoute "ALL" p h) 0);
      [now apply dispatch_same_middleware | exact Hnone |].
    unfold Router.methodMatches. cbn. exact Hp.
Qed.

(** Middlewares that only [return next()] are run in registration order
    and leave the rest to the final handler. *)
Lemma chainFrom_passing (mws : list (Router.MiddlewareHandler E)) index req
    (fh : Comp E) st :
  Forall (fun mw => mw req = returnNext) mws ->
  writableEnded (res st) = false ->
  Router.chainFrom mws index req fh st
  = fh (mkSt (res st)
          (trace st ++ map (fun k => EvMiddleware k false) (seq index (length mws)))).
Proof.
  revert index st. induction mws as [|mw mws IH]; intros index st Hall Hopen.
  - cbn. rewrite app_nil_r. now destruct st.
  - inversion Hall as [|? ? Hmw Hrest]; subst. cbn [Router.chainFrom].
    rewrite Hmw, run_returnNext. cbn [emit res]. rewrite Hopen.
    rewrite IH by assumption. unfold emit. cbn [res trace length seq map].
    now rewrite <- app_assoc.
Qed.

End RouterMore.

Section RouterFailures.

Context {E : Type}.

Implicit Types (r : Router.Router E) (st : St E) (req : IncomingMessage)
  (route : Router.Route E).

(** X3.  What becomes of a handler's exception depends on whether a
    middleware is registered.  Behind middlewares that only pass on, which
    run in registration order before the handler, the router answers with
    the generic 500 (unless the handler finished the response; when it sent
    the headers without finishing, writing the 500 fails and
    [handleRequest] rejects).  With no middleware registered the handler is
    awaited outside any [try]: [handleRequest] rejects with the handler's
    error and nothing is written. *)
Theorem handler_failure r req st (m u : string)
    (before after : list (Router.Route E)) route (e : string) (st1 : St E)
    (Hmethod : method req = Some m) (Hurl : url req = Some u)
    (Hm : m <> "") (Hu : u <> "")
    (Hroutes : Router.routes r = (before ++ route :: after)%list)
    (Hbefore : forall x, In x before ->
       Router.methodMatches x m && Router.isMatch (Router.path x) u = false)
    (Hroute : Router.methodMatches route m && Router.isMatch (Router.path route) u = true)
    (Hpassing : Forall (fun mw => mw req = returnNext) (Router.middleware r))
    (Hopen : writableEnded (res st) = false)
    (Hfail : Router.invokeHandler (length before) route req u
               (mkSt (res st)
                  (trace st ++ map (fun k => EvMiddleware k false)
                                 (seq 0 (length (Router.middleware r)))))
             = (Thrown e, st1)) :
  Router.handleRequest r req st
  = match Router.middleware r with
    | [] => (Router.Rejected e, st1)
    | _ :: _ =>
        if writableEnded (res st1) then (Router.Resolved true, st1)
        else if headersSent (res st1)
             then (Router.Rejected "ERR_HTTP_HEADERS_SENT", st1)
             else (Router.Resolved true,
                   mkSt Router.serverError
                     (trace st1 ++ [EvWriteHead 500;
                                    EvEnd (Text "Internal Server Error")])%list)
    end.
Proof.
  unfold Router.handleRequest. rewrite Hurl, Hmethod.
  apply String.eqb_neq in Hm, Hu. rewrite Hm, Hu. cbn [orb]. rewrite Hroutes.
  rewrite (matchRoutes_first r req m u st before after route 0 Hbefore Hroute).
  cbn [Nat.add]. unfold Router.dispatch, Router.executeMiddlewareChain.
  destruct (Router.middleware r) as [|mw mws] eqn:Hmws.
  - cbn in Hfail. rewrite app_nil_r in Hfail. destruct st as [rs ts]. cbn in Hfail.
    now rewrite Hfail.
  - cbn [drop]. rewrite (chainFrom_passing (mw :: mws) 0 req _ st Hpassing Hopen), Hfail.
    destruct (writableEnded (res st1)) eqn:Hended; [reflexivity |].
    unfold respond. cbn [run]. unfold writeHead.
    destruct (headersSent (res st1)); [reflexivity |].
    cbn [run res trace writableEnded]. rewrite Hended. unfold endResponse.
    cbn [writableEnded statusCode]. unfold Router.serverError.
    now rewrite <- app_assoc.
Qed.

Lemma matchRoutes_rejected r rs i req m u st e (st2 : St E) :
  Router.matchRoutes r rs i req m u st = (Router.Rejected e, st2) ->
  exists j route, Router.dispatch r j route req u st = (Router.Rejected e, st2).
Proof.
  revert i. induction rs as [|x rs IH]; intros i; cbn [Router.matchRoutes];
    [discriminate |].
  destruct (Router.methodMatches x m && Router.isMatch (Router.path x) u); eauto.
Qed.

(** X4.  With a middleware registered, [handleRequest] rejects in one
    situation only: the chain failed after the response headers were sent
    and before the response was finished, so that writing the 500 throws.
    Every other failure of a middleware or handler ends in a resolved
    promise. *)
Theorem handleRequest_rejects_only_mid_response r req st (e : string) (st2 : St E)
    (Hmiddleware : Router.middleware r <> [])
    (Hrejected : Router.handleRequest r req st = (Router.Rejected e, st2)) :
  e = "ERR_HTTP_HEADERS_SENT"
  /\ headersSent (res st2) = true
  /\ writableEnded (res st2) = false.
Proof.
  unfold Router.handleRequest in Hrejected.
  destruct (url req) as [u|]; [| discriminate].
  destruct (method req) as [m|]; [| discriminate].
  destruct (String.eqb u "" || String.eqb m ""); [discriminate |].
  apply matchRoutes_rejected in Hrejected as (j & route & Hd).
  unfold Router.dispatch in Hd.
  destruct (Router.middleware r) as [|mw mws]; [congruence |].
  destruct (Router.executeMiddlewareChain _ _ _ _ _) as [[|e0] st1]; [discriminate |].
  destruct (writableEnded (res st1)) eqn:Hended; [discriminate |].
  unfold respond in Hd. cbn [run] in Hd. unfold writeHead in Hd.
  destruct (headersSent (res st1)) eqn:Hhead.
  - cbn in Hd. injection Hd as <- <-. auto.
  - cbn in Hd. rewrite Hended in Hd. discriminate.
Qed.

End RouterFailures.

Lemma handleRequest_unmatched_witness :
  Router.handleRequest Scenario.plainRouter Cases.getOther Scenario.start
  = (Router.Resolved false, Scenario.start).
Proof.
  apply (handleRequest_unmatched Scenario.plainRouter Cases.getOther Scenario.start).
  intros m u route [= <-] [= <-] [<- | []]. reflexivity.
Defined.

Lemma later_route_has_lower_precedence_witness :
  Router.handleRequest
    (Router.get (Router.PathString "/sse*") Cases.failing Scenario.plainRouter)
    Scenario.getSse Scenario.start
  = Router.handleRequest Scenario.plainRouter Scenario.getSse Scenario.start.
Proof.
  destruct (later_route_has_lower_precedence Scenario.plainRouter Scenario.getSse
              Scenario.start "GET" "/sse" (Router.PathString "/sse*") Cases.failing
              eq_refl eq_refl) as [Hkept _].
  destruct (Hkept Scenario.sseRoute) as [Hget _]; [now left | reflexivity | exact Hget].
Defined.

Lemma handler_failure_witness :
  Router.handleRequest Cases.guardedRouter Scenario.getSse Scenario.start
  = (Router.Resolved true,
     mkSt Router.serverError
       [EvMiddleware 0 false; EvMiddleware 1 false; EvHandler 0 false;
        EvWriteHead 500; EvEnd (Text "Internal Server Error")])
  /\ Router.handleRequest Cases.bareRouter Scenario.getSse Scenario.start
     = (Router.Rejected "boom", mkSt freshResponse [EvHandler 0 false]).
Proof.
  assert (Hm : "GET" <> "") by discriminate.
  assert (Hu : "/sse" <> "") by discriminate.
  split.
  - apply (handler_failure Cases.guardedRouter Scenario.getSse Scenario.start "GET" "/sse"
             [] [] Cases.failingRoute "boom"
             (mkSt freshResponse [EvMiddleware 0 false; EvMiddleware 1 false;
                                  EvHandler 0 false])
             eq_refl eq_refl Hm Hu eq_refl (fun x (H : In x []) => match H with end) eq_refl).
    + repeat constructor.
    + reflexivity.
    + reflexivity.
  - apply (handler_failure Cases.bareRouter Scenario.getSse Scenario.start "GET" "/sse"
             [] [] Cases.failingRoute "boom" (mkSt freshResponse [EvHandler 0 false])
             eq_refl eq_refl Hm Hu eq_refl (fun x (H : In x []) => match H with end) eq_refl).
    + constructor.
    + reflexivity.
    + reflexivity.
Defined.

Lemma handleRequest_rejects_only_mid_response_witness :
  Router.middleware Cases.midStreamRouter <> []
  /\ Router.handleRequest Cases.midStreamRouter Scenario.getSse Scenario.start
     = (Router.Rejected "ERR_HTTP_HEADERS_SENT",
        mkSt {| headersSent := true; statusCode := 200; sent := Text "";
                writableEnded := false |}
             [EvMiddleware 0 false; EvHandler 0 false; EvWriteHead 200])
  /\ "ERR_HTTP_HEADERS_SENT" = "ERR_HTTP_HEADERS_SENT".
Proof.
  assert (Hne : Router.middleware Cases.midStreamRouter <> []) by discriminate.
  assert (Hrun : Router.handleRequest Cases.midStreamRouter Scenario.getSse Scenario.start
                 = (Router.Rejected "ERR_HTTP_HEADERS_SENT",
                    mkSt {| headersSent := true; statusCode := 200; sent := Text "";
                            writableEnded := false |}
                         [EvMiddleware 0 false; EvHandler 0 false; EvWriteHead 200]))
    by reflexivity.
  split; [exact Hne | split; [exact Hrun |]].
  exact (proj1 (handleRequest_rejects_only_mid_response _ _ _ _ _ Hne Hrun)).
Defined.

(* ===================================================================== *)
(** * Who gets past the authentication middleware *)
(* ===================================================================== *)

Section RouterDispatch.

Context {E : Type}.

Implicit Types (r : Router.Router E) (st : St E) (req : IncomingMessage)
  (route : Router.Route E).

Lemma matchRoutes_dispatched r rs i req m u st :
  Router.matchRoutes r rs i req m u st = (Router.Resolved false, st)
  \/ exists j route,
       In route rs
       /\ Router.matchRoutes r rs i req m u st = Router.dispatch r j route req u st.
Proof.
  revert i. induction rs as [|x rs IH]; intros i; cbn [Router.matchRoutes]; [now left |].
  destruct (Router.methodMatches x m && Router.isMatch (Router.path x) u).
  - right. exists i, x. split; [now left | reflexivity].
  - destruct (IH (S i)) as [Hnone | (j & route & Hin & Hd)]; [now left |].
    right. exists j, route. split; [now right | exact Hd].
Qed.

(** A request is left alone, or dispatched to one of the routes. *)
Lemma handleRequest_dispatched r req st :
  Router.handleRequest r req st = (Router.Resolved false, st)
  \/ exists u j route,
       url req = Some u
       /\ In route (Router.routes r)
       /\ Router.handleRequest r req st = Router.dispatch r j route req u st.
Proof.
  unfold Router.handleRequest.
  destruct (url req) as [u|]; [| now left].
  destruct (method req) as [m|]; [| now left].
  destruct (String.eqb u "" || String.eqb m ""); [now left |].
  destruct (matchRoutes_dispatched r (Router.routes r) 0 req m u st)
    as [Hnone | (j & route & Hin & Hd)]; [now left |].
  right. exists u, j, route. auto.
Qed.

Lemma dispatch_not_unmatched r i route req u st :
  (Router.dispatch r i route req u st).1 <> Router.Resolved false.
Proof.
  unfold Router.dispatch. destruct (Router.middleware r).
  - destruct (Router.invokeHandler i route req u st) as [[|e] st1]; discriminate.
  - destruct (Router.executeMiddlewareChain _ _ _ _ _) as [[|e] st1]; [discriminate |].
    destruct (writableEnded (res st1)); [discriminate |].
    destruct (run noCall _ st1) as [[|e'] st2]; discriminate.
Qed.

(** Running a program loses no invocation. *)
Lemma run_mono {C} (call : C -> Comp E) (p : Prog E C) :
  (forall c st, Router.handlerInvocations (trace st)
                <= Router.handlerInvocations (trace (call c st).2)) ->
  forall st, Router.handlerInvocations (trace st)
             <= Router.handlerInvocations (trace (run call p st).2).
Proof.
  intros Hcall.
  induction p as [| e | s k IHk kf IHkf | d k IHk | k IHk | e k IHk | c k IHk];
    intros st; cbn [run]; try (cbn; lia).
  - destruct (writeHead s (res st)); [| apply IHkf].
    etransitivity; [| apply IHk]. cbn. rewrite handlerInvocations_snoc. cbn. lia.
  - destruct (writableEnded (res st)); [apply IHk |].
    etransitivity; [| apply IHk]. cbn. rewrite handlerInvocations_snoc. cbn. lia.
  - apply IHk.
  - etransitivity; [| apply IHk]. cbn. rewrite handlerInvocations_snoc. cbn. lia.
  - specialize (Hcall c st). destruct (call c st) as [o st']. cbn in Hcall.
    etransitivity; [exact Hcall | apply IHk].
Qed.

(** Behind a first middleware that does not call its continuation no
    route handler runs. *)
Lemma dispatch_closed r (mw : Router.MiddlewareHandler E) rest i route req u st :
  Router.middleware r = mw :: rest ->
  Router.callsAtMost 0 (mw req) ->
  Router.handlerInvocations (trace (Router.dispatch r i route req u st).2)
  <= Router.handlerInvocations (trace st).
Proof.
  intros Hmw Hclosed. unfold Router.dispatch, Router.executeMiddlewareChain.
  rewrite Hmw. cbn [drop].
  pose proof (chainFrom_no_call mw rest 0 req (Router.invokeHandler i route req u) st Hclosed)
    as Hchain.
  destruct (Router.chainFrom _ _ _ _ _) as [[|e] st1]; [exact Hchain |].
  cbn in Hchain. destruct (writableEnded (res st1)); [exact Hchain |].
  pose proof (run_noCall_count (respond 500 (Text "Internal Server Error") Return) st1) as H.
  destruct (run noCall _ st1) as [[|e'] st2]; cbn in *; lia.
Qed.

Lemma handleRequest_closed r (mw : Router.MiddlewareHandler E) rest req st :
  Router.middleware r = mw :: rest ->
  Router.callsAtMost 0 (mw req) ->
  Router.handlerInvocations (trace (Router.handleRequest r req st).2)
  <= Router.handlerInvocations (trace st).
Proof.
  intros Hmw Hclosed.
  destruct (handleRequest_dispatched r req st) as [-> | (u & j & route & _ & _ & ->)];
    [cbn; lia |].
  now apply dispatch_closed with (mw := mw) (rest := rest).
Qed.

(** What the chain of a router with one middleware leaves, when that
    middleware settles the request. *)
Lemma run_decides (call : unit -> Comp E) (p : Prog E unit) :
  Gate.decides p ->
  (forall c st, Router.handlerInvocations (trace st)
                <= Router.handlerInvocations (trace (call c st).2)) ->
  (forall st, writableEnded (res st) = false ->
              Router.handlerInvocations (trace st) + 1
              <= Router.handlerInvocations (trace (call tt st).2)) ->
  forall st, headersSent (res st) = false -> writableEnded (res st) = false ->
    let st' := (run call p st).2 in
    Router.handlerInvocations (trace st) + 1 <= Router.handlerInvocations (trace st')
    \/ (Router.handlerInvocations (trace st') = Router.handlerInvocations (trace st)
        /\ writableEnded (res st') = true
        /\ (statusCode (res st') = 401 \/ statusCode (res st') = 500)%Z).
Proof.
  intros Hp Hmono Hcall. induction Hp as [k | e k _ IH | status data kfail Hstatus];
    intros st Hunsent Hopen; cbn [run].
  - left. specialize (Hcall st Hopen). destruct (call tt st) as [o st1]. cbn in Hcall.
    etransitivity; [exact Hcall | now apply run_mono].
  - destruct (IH (emit (EvDo e) st) Hunsent Hopen) as [Hle | (Heq & Hended & Hcode)].
    + left. cbn in Hle. rewrite handlerInvocations_snoc in Hle. cbn in Hle. cbn. lia.
    + right. cbn in Heq. rewrite handlerInvocations_snoc in Heq. cbn in Heq.
      split; [cbn; lia | split; assumption].
  - right. unfold writeHead. rewrite Hunsent. cbn [run res trace writableEnded].
    rewrite Hopen. cbn. rewrite !handlerInvocations_snoc. cbn.
    split; [lia | split; [reflexivity | exact Hstatus]].
Qed.

End RouterDispatch.

Section GateAdmission.

Variable env : Server.Env.

Implicit Types (req : IncomingMessage) (st : St Server.ServerEffect) (kind : Gate.Kind).

Lemma sessionCheck_closed req (otherwise : Prog Server.ServerEffect unit) :
  Router.callsAtMost 0 otherwise ->
  Router.callsAtMost 0 (Server.sessionCheck env req otherwise) \/ Gate.openSession env req.
Proof.
  intros Hclosed. unfold Server.sessionCheck.
  destruct (url req) as [u|] eqn:Hurl; [| now left].
  destruct (JsString.startsWith u "/messages") eqn:Hpath; [| now left].
  destruct (JsString.includes u "sessionId=") eqn:Hliteral; [| now left].
  cbn [andb].
  destruct (Url.searchParam _ u _ "sessionId") as [[sid|]|] eqn:Hparam; try now left.
  destruct (String.eqb sid "") eqn:Hsid; cbn [negb]; [now left |].
  destruct (Server.getTransport env sid) as [t|] eqn:Ht.
  - right. exists u, sid, t. apply String.eqb_neq in Hsid. auto 10.
  - left. now constructor.
Qed.

Lemma sessionCheck_passes req (otherwise : Prog Server.ServerEffect unit) :
  Gate.passes otherwise -> Gate.passes (Server.sessionCheck env req otherwise).
Proof.
  intros H. unfold Server.sessionCheck.
  destruct (url req) as [u|]; [| exact H].
  destruct (JsString.startsWith u "/messages" && JsString.includes u "sessionId=");
    [| exact H].
  destruct (Url.searchParam _ u _ "sessionId") as [[sid|]|]; try exact H.
  destruct (negb (String.eqb sid "")); [| exact H].
  constructor. destruct (Server.getTransport env sid); [constructor | exact H].
Qed.

Lemma sessionCheck_decides req (otherwise : Prog Server.ServerEffect unit) :
  Gate.decides otherwise -> Gate.decides (Server.sessionCheck env req otherwise).
Proof.
  intros H. unfold Server.sessionCheck.
  destruct (url req) as [u|]; [| exact H].
  destruct (JsString.startsWith u "/messages" && JsString.includes u "sessionId=");
    [| exact H].
  destruct (Url.searchParam _ u _ "sessionId") as [[sid|]|]; try exact H.
  destruct (negb (String.eqb sid "")); [| exact H].
  constructor. destruct (Server.getTransport env sid); [constructor | exact H].
Qed.

Lemma authRejected_closed req (message : string) :
  Router.callsAtMost 0 (Server.authRejected req message).
Proof.
  unfold Server.authRejected.
  destruct (JsString.includes message "expired"); apply handleUnauthorized_callsAtMost.
Qed.

Lemma simpleUnauthorized_closed (message : string) :
  Router.callsAtMost 0 (Server.simpleUnauthorized message).
Proof.
  unfold Server.simpleUnauthorized, Server.simpleAuthFailure, respond.
  by_cases_on_program.
Qed.

(** A middleware leaves its continuation alone unless the request is
    exempt, names an open session, or carries a token it accepts. *)
Lemma gate_closed_or_accepted kind req :
  Router.callsAtMost 0 (Gate.middlewareOf env kind req)
  \/ Server.skipsAuth req = true \/ Gate.openSession env req
  \/ Gate.tokenAccepted env kind req.
Proof.
  assert (Htail : forall tail,
            Router.callsAtMost 0 tail \/ Gate.tokenAccepted env kind req ->
            Router.callsAtMost 0 (Server.sessionCheck env req tail)
            \/ Server.skipsAuth req = true \/ Gate.openSession env req
            \/ Gate.tokenAccepted env kind req).
  { intros tail [Hc | Ha]; [| auto].
    destruct (sessionCheck_closed req _ Hc); auto. }
  destruct kind as [|[|]]; cbn [Gate.middlewareOf];
    unfold Server.authMiddleware, Server.simpleAuthMiddleware;
    (destruct (Server.skipsAuth req); [now right; left |]); apply Htail;
    destruct (Server.extractToken env req) as [token source] eqn:Hx;
    destruct token as [| | b | n | t | items | fields]; cbn [truthy negb];
    try solve [left; constructor;
               unfold Server.authFailure, Server.simpleAuthFailure, respond;
               by_cases_on_program;
               first [apply handleUnauthorized_callsAtMost
                     | apply simpleUnauthorized_closed]];
    (destruct (String.eqb t ""); cbn [negb];
     [left; constructor;
      first [apply handleUnauthorized_callsAtMost | apply simpleUnauthorized_closed] |]);
    (destruct (JsString.trimIsEmpty t) eqn:Hblank;
     [left; constructor;
      first [apply handleUnauthorized_callsAtMost | apply simpleUnauthorized_closed] |]).
  - destruct (Server.verify env t) as [payload | message] eqn:Hverify;
      [| left; do 2 constructor; apply authRejected_closed].
    destruct (Server.isoDateThrows (TokenValidator.exp payload)) eqn:Hdate;
      [left; do 2 constructor; apply authRejected_closed |].
    right. exists t, source. split; [exact Hx | split; [exact Hblank |]].
    right. exists payload. split; [exact Hverify |]. unfold Gate.loggable. now rewrite Hdate.
  - destruct (Server.verify env t) as [payload | message] eqn:Hverify;
      [| left; do 2 constructor; apply simpleUnauthorized_closed].
    match goal with
    | |- Router.callsAtMost 0 (Do _ (Do _ (if ?dates then _ else _))) \/ _ =>
        destruct dates eqn:Hdates
    end; [left; do 2 constructor; apply simpleUnauthorized_closed |].
    right. exists t, source. split; [exact Hx | split; [exact Hblank |]].
    right. exists payload. split; [exact Hverify |]. unfold Gate.loggable. now rewrite Hdates.
  - right. exists t, source. auto.
Qed.

(** On such a request the middleware goes on to its continuation. *)
Lemma gate_passes kind req :
  Server.skipsAuth req = true \/ Gate.openSession env req
  \/ Gate.tokenAccepted env kind req ->
  Gate.passes (Gate.middlewareOf env kind req).
Proof.
  intros Hadmitted.
  assert (Hgate : Gate.middlewareOf env kind req
                  = if Server.skipsAuth req then returnNext
                    else Gate.middlewareOf env kind req).
  { destruct kind; cbn [Gate.middlewareOf];
      unfold Server.authMiddleware, Server.simpleAuthMiddleware;
      now destruct (Server.skipsAuth req). }
  rewrite Hgate. destruct (Server.skipsAuth req) eqn:Hskip; [constructor |].
  destruct Hadmitted as [Hs | [(u & sid & t & Hurl & Hpath & Hlit & Hparam & Hsid & Ht)
                              | (t & source & Hx & Hblank & Hok)]];
    [discriminate Hs | |].
  - destruct kind; cbn [Gate.middlewareOf];
      unfold Server.authMiddleware, Server.simpleAuthMiddleware; rewrite Hskip;
      rewrite (sessionCheck_found env req u sid t _ Hurl Hpath Hlit Hparam Hsid Ht);
      repeat constructor.
  - assert (Ht : String.eqb t "" = false).
    { destruct (String.eqb t "") eqn:Ht; [| reflexivity].
      apply String.eqb_eq in Ht. subst t. discriminate Hblank. }
    destruct kind as [|[|]]; cbn [Gate.middlewareOf];
      unfold Server.authMiddleware, Server.simpleAuthMiddleware; rewrite Hskip;
      apply sessionCheck_passes; constructor; rewrite Hx; cbn [truthy negb];
      rewrite Ht; cbn [negb]; rewrite Hblank.
    + destruct Hok as [Hk | (payload & Hverify & Hlog)]; [discriminate Hk |].
      rewrite Hverify. unfold Gate.loggable in Hlog. apply negb_true_iff in Hlog.
      rewrite Hlog.
      repeat constructor.
    + destruct Hok as [Hk | (payload & Hverify & Hlog)]; [discriminate Hk |].
      rewrite Hverify. unfold Gate.loggable in Hlog. apply negb_true_iff in Hlog.
      rewrite Hlog.
      repeat constructor.
    + repeat constructor.
Qed.

Lemma handleUnauthorized_decides req (message : string) :
  Server.urlIncludes req "/.well-known/" = false ->
  Gate.decides (Server.handleUnauthorized req message).
Proof.
  intros Hwk. unfold Server.handleUnauthorized. rewrite Hwk. constructor. now left.
Qed.

(** A middleware always settles the request. *)
Lemma middleware_decides kind req : Gate.decides (Gate.middlewareOf env kind req).
Proof.
  assert (Hleaves : Server.skipsAuth req = false ->
            (forall message, Gate.decides (Server.handleUnauthorized req message))
            /\ (forall message, Gate.decides (Server.authRejected req message))
            /\ (forall message, Gate.decides (Server.simpleUnauthorized message))
            /\ Gate.decides Server.authFailure
            /\ Gate.decides Server.simpleAuthFailure
            /\ Gate.decides Server.detachedNext).
  { intros Hskip. pose proof (skipsAuth_false_wellKnown req Hskip) as Hwk.
    repeat split; intros;
      try (unfold Server.authRejected; destruct (JsString.includes _ "expired"));
      try (apply handleUnauthorized_decides; exact Hwk);
      constructor; auto. }
  destruct kind as [|validateToken]; cbn [Gate.middlewareOf];
    unfold Server.authMiddleware, Server.simpleAuthMiddleware;
    (destruct (Server.skipsAuth req); [constructor |]);
    destruct (Hleaves eq_refl) as (Hu & Hr & Hs & Haf & Hsf & Hn);
    apply sessionCheck_decides; constructor;
    destruct (Server.extractToken env req) as [token source];
    (destruct (negb (truthy token)); [first [apply Hu | apply Hs] |]);
    destruct token; try assumption;
    (destruct (JsString.trimIsEmpty _); [first [apply Hu | apply Hs] |]).
  - constructor. destruct (Server.verify env _); [| apply Hr].
    destruct (Server.isoDateThrows _); [apply Hr | exact Hn].
  - destruct validateToken; constructor; [| exact Hn].
    destruct (Server.verify env _); [| apply Hs].
    match goal with |- Gate.decides (if ?b then _ else _) => destruct b end;
      [apply Hs | exact Hn].
Qed.

End GateAdmission.

Section RouterSingle.

Context {E : Type}.

Implicit Types (r : Router.Router E) (st : St E) (req : IncomingMessage)
  (route : Router.Route E).

Lemma run_passes (call : unit -> Comp E) (p : Prog E unit) :
  Gate.passes p ->
  (forall c st, Router.handlerInvocations (trace st)
                <= Router.handlerInvocations (trace (call c st).2)) ->
  (forall st, writableEnded (res st) = false ->
              Router.handlerInvocations (trace st) + 1
              <= Router.handlerInvocations (trace (call tt st).2)) ->
  forall st, writableEnded (res st) = false ->
    Router.handlerInvocations (trace st) + 1
    <= Router.handlerInvocations (trace (run call p st).2).
Proof.
  intros Hp Hmono Hcall. induction Hp as [k | e k _ IH]; intros st Hopen; cbn [run].
  - specialize (Hcall st Hopen). destruct (call tt st) as [o st1]. cbn in Hcall.
    etransitivity; [exact Hcall | now apply run_mono].
  - specialize (IH (emit (EvDo e) st) Hopen). cbn in IH.
    rewrite handlerInvocations_snoc in IH. cbn in IH. cbn. lia.
Qed.

(** The continuation a single middleware is given: the route handler,
    while the response is open. *)
Lemma next_invokes i route req u :
  let next := fun (_ : unit) (st : St E) =>
                if writableEnded (res st) then (Normal, st)
                else Router.invokeHandler i route req u st in
  (forall c st, Router.handlerInvocations (trace st)
                <= Router.handlerInvocations (trace (next c st).2))
  /\ (forall st, writableEnded (res st) = false ->
                 Router.handlerInvocations (trace st) + 1
                 <= Router.handlerInvocations (trace (next tt st).2)).
Proof.
  intros next. subst next. split.
  - intros _ st. destruct (writableEnded (res st)); [cbn; lia |].
    rewrite invokeHandler_count. lia.
  - intros st ->. rewrite invokeHandler_count. lia.
Qed.

(** What the router adds to the run of its only middleware: nothing when
    the response is finished, and no invocation. *)
Lemma dispatch_single r (mw : Router.MiddlewareHandler E) i route req u st :
  Router.middleware r = [mw] ->
  let chain :=
    run (fun _ st' => if writableEnded (res st') then (Normal, st')
                      else Router.invokeHandler i route req u st')
        (mw req) (emit (EvMiddleware 0 (writableEnded (res st))) st) in
  Router.handlerInvocations (trace (Router.dispatch r i route req u st).2)
  = Router.handlerInvocations (trace chain.2)
  /\ (writableEnded (res chain.2) = true -> (Router.dispatch r i route req u st).2 = chain.2).
Proof.
  intros Honly chain. subst chain. unfold Router.dispatch, Router.executeMiddlewareChain.
  rewrite Honly. cbn [drop Router.chainFrom].
  destruct (run _ (mw req) _) as [[|e] st1]; [now split |].
  cbn [snd]. destruct (writableEnded (res st1)) eqn:Hended; [now split |].
  pose proof (run_noCall_count (respond 500 (Text "Internal Server Error") Return) st1) as H.
  destruct (run noCall _ st1) as [[|e'] st2]; cbn in *; split; first [exact H | discriminate].
Qed.

End RouterSingle.

Lemma gate_callsAtMost (env : Server.Env) (kind : Gate.Kind) (req : IncomingMessage) :
  Router.callsAtMost 1 (Gate.middlewareOf env kind req).
Proof.
  destruct kind; [apply authMiddleware_callsAtMost | apply simpleAuthMiddleware_callsAtMost].
Qed.

(** X5.  No route handler runs for a request the authentication middleware
    did not let through.  In a router whose first middleware is one of
    auth.ts, a route handler is invoked only if the request is exempt
    (discovery path, OPTIONS, /ping), or names an open session on a
    /messages path, or carries a token that is not blank and, when the
    middleware validates, that [verifyToken] resolved to a payload whose
    dates the middleware could log. *)
Theorem handler_runs_only_for_admitted_requests
    (env : Server.Env) (kind : Gate.Kind) (r : Router.Router Server.ServerEffect)
    (rest : list (Router.MiddlewareHandler Server.ServerEffect))
    (req : IncomingMessage) (st : St Server.ServerEffect)
    (Hfirst : Router.middleware r = Gate.middlewareOf env kind :: rest)
    (Hinvoked : Router.handlerInvocations (trace st)
                < Router.handlerInvocations (trace (Router.handleRequest r req st).2)) :
  Server.skipsAuth req = true \/ Gate.openSession env req
  \/ Gate.tokenAccepted env kind req.
Proof.
  destruct (gate_closed_or_accepted env kind req) as [Hclosed | Hadmitted];
    [| exact Hadmitted].
  pose proof (handleRequest_closed r _ rest req st Hfirst Hclosed). lia.
Qed.

Lemma handler_runs_only_for_admitted_requests_witness :
  let req := Scenario.request "GET" "/sse" (Scenario.bearer "valid") in
  Server.skipsAuth req = true \/ Gate.openSession Scenario.env req
  \/ Gate.tokenAccepted Scenario.env (Gate.Simple true) req.
Proof.
  intros req.
  apply (handler_runs_only_for_admitted_requests Scenario.env (Gate.Simple true)
           Scenario.app [] req Scenario.fresh).
  - reflexivity.
  - vm_compute. lia.
Defined.

(** X6.  A request the middleware lets through does reach its route: in a
    router whose only middleware is one of auth.ts, a request that some
    route matches and that is exempt, names an open session, or carries a
    token the middleware accepts has its route handler invoked, once. *)
Theorem admitted_requests_reach_the_handler
    (env : Server.Env) (kind : Gate.Kind) (r : Router.Router Server.ServerEffect)
    (req : IncomingMessage) (st : St Server.ServerEffect)
    (Honly : Router.middleware r = [Gate.middlewareOf env kind])
    (Hopen : writableEnded (res st) = false)
    (Hhandled : (Router.handleRequest r req st).1 <> Router.Resolved false)
    (Hadmitted : Server.skipsAuth req = true \/ Gate.openSession env req
                 \/ Gate.tokenAccepted env kind req) :
  Router.handlerInvocations (trace (Router.handleRequest r req st).2)
  = Router.handlerInvocations (trace st) + 1.
Proof.
  destruct (handleRequest_dispatched r req st) as [Hnone | (u & j & route & _ & _ & Hd)].
  { rewrite Hnone in Hhandled. now destruct Hhandled. }
  rewrite Hd.
  assert (Hupper : Router.handlerInvocations (trace (Router.dispatch r j route req u st).2)
                   <= Router.handlerInvocations (trace st) + 1).
  { apply dispatch_count. rewrite Honly. constructor; [apply gate_callsAtMost | constructor]. }
  destruct (dispatch_single r _ j route req u st Honly) as [Hcount _].
  destruct (next_invokes (E := Server.ServerEffect) j route req u) as [Hmono Hnext].
  pose proof (run_passes _ _ (gate_passes env kind req Hadmitted) Hmono Hnext
                (emit (EvMiddleware 0 (writableEnded (res st))) st) Hopen) as Hlower.
  cbn [emit trace] in Hlower. rewrite handlerInvocations_snoc in Hlower. cbn in Hlower.
  rewrite Hcount. rewrite Hcount in Hupper. lia.
Qed.

Lemma admitted_requests_reach_the_handler_witness :
  let req := Scenario.request "POST" "/messages?sessionId=s1" [] in
  Router.handlerInvocations (trace (Router.handleRequest Scenario.app req Scenario.fresh).2)
  = Router.handlerInvocations (trace Scenario.fresh) + 1.
Proof.
  intros req.
  apply (admitted_requests_reach_the_handler Scenario.env (Gate.Simple true)
           Scenario.app req Scenario.fresh).
  - reflexivity.
  - reflexivity.
  - vm_compute. discriminate.
  - right. left. exists "/messages?sessionId=s1", "s1", Scenario.accepting.
    repeat split; first [reflexivity | discriminate | vm_compute; reflexivity].
Defined.

(** X7.  The middlewares of auth.ts leave no request undecided: in a
    router whose only middleware is one of them, a request that some
    route matches and that arrives on an unsent response either has its
    route handler invoked, once, or is answered by the middleware, the
    response being finished with status 401 or 500 and no handler
    invoked. *)
Theorem gate_decides
    (env : Server.Env) (kind : Gate.Kind) (r : Router.Router Server.ServerEffect)
    (req : IncomingMessage) (st : St Server.ServerEffect)
    (Honly : Router.middleware r = [Gate.middlewareOf env kind])
    (Hunsent : headersSent (res st) = false)
    (Hopen : writableEnded (res st) = false)
    (Hhandled : (Router.handleRequest r req st).1 <> Router.Resolved false) :
  let st' := (Router.handleRequest r req st).2 in
  Router.handlerInvocations (trace st') = Router.handlerInvocations (trace st) + 1
  \/ (Router.handlerInvocations (trace st') = Router.handlerInvocations (trace st)
      /\ writableEnded (res st') = true
      /\ (statusCode (res st') = 401 \/ statusCode (res st') = 500)%Z).
Proof.
  intros st'. subst st'.
  destruct (handleRequest_dispatched r req st) as [Hnone | (u & j & route & _ & _ & Hd)].
  { rewrite Hnone in Hhandled. now destruct Hhandled. }
  rewrite Hd.
  assert (Hupper : Router.handlerInvocations (trace (Router.dispatch r j route req u st).2)
                   <= Router.handlerInvocations (trace st) + 1).
  { apply dispatch_count. rewrite Honly. constructor; [apply gate_callsAtMost | constructor]. }
  destruct (dispatch_single r _ j route req u st Honly) as [Hcount Hsame].
  destruct (next_invokes (E := Server.ServerEffect) j route req u) as [Hmono Hnext].
  pose proof (run_decides _ _ (middleware_decides env kind req) Hmono Hnext
                (emit (EvMiddleware 0 (writableEnded (res st))) st) Hunsent Hopen)
    as Hdecided.
  cbn zeta in Hdecided. cbn [emit trace] in Hdecided.
  rewrite handlerInvocations_snoc in Hdecided. cbn [Router.isHandlerEvent] in Hdecided.
  destruct Hdecided as [Hlower | (Heq & Hended & Hcode)].
  - left. rewrite Hcount. rewrite Hcount in Hupper. lia.
  - right. rewrite (Hsame Hended). split; [lia | split; assumption].
Qed.

Lemma gate_decides_witness :
  let st' := (Router.handleRequest Scenario.app (Scenario.request "GET" "/sse" [])
                Scenario.fresh).2 in
  Router.handlerInvocations (trace st')
  = Router.handlerInvocations (trace Scenario.fresh) + 1
  \/ (Router.handlerInvocations (trace st') = Router.handlerInvocations (trace Scenario.fresh)
      /\ writableEnded (res st') = true
      /\ (statusCode (res st') = 401 \/ statusCode (res st') = 500)%Z).
Proof.
  apply (gate_decides Scenario.env (Gate.Simple true) Scenario.app
           (Scenario.request "GET" "/sse" []) Scenario.fresh).
  - reflexivity.
  - reflexivity.
  - reflexivity.
  - vm_compute. discriminate.
Defined.

(* --------------------------------------------------------------------- *)
(** ** A handler that fails behind the middleware *)

Lemma handleRequest_first_match {E : Type} (r : Router.Router E) (req : IncomingMessage)
    (st : St E) (m u : string) (before after : list (Router.Route E))
    (route : Router.Route E) :
  method req = Some m -> url req = Some u -> m <> "" -> u <> "" ->
  Router.routes r = (before ++ route :: after)%list ->
  (forall x, In x before ->
     Router.methodMatches x m && Router.isMatch (Router.path x) u = false) ->
  Router.methodMatches route m && Router.isMatch (Router.path route) u = true ->
  Router.handleRequest r req st = Router.dispatch r (length before) route req u st.
Proof.
  intros Hmethod Hurl Hm Hu Hroutes Hbefore Hroute.
  unfold Router.handleRequest. rewrite Hurl, Hmethod.
  apply String.eqb_neq in Hm, Hu. rewrite Hm, Hu. cbn [orb]. rewrite Hroutes.
  now rewrite (matchRoutes_first r req m u st before after route 0 Hbefore Hroute).
Qed.

Lemma gate_exempt (env : Server.Env) (kind : Gate.Kind) (req : IncomingMessage) :
  Server.skipsAuth req = true -> Gate.middlewareOf env kind req = returnNext.
Proof.
  intros Hskip. destruct kind; cbn [Gate.middlewareOf];
    unfold Server.authMiddleware, Server.simpleAuthMiddleware; now rewrite Hskip.
Qed.

(** What a middleware does on a request that it admits for its token:
    the lookup of the session check, if any, the extraction, the check of
    the token, and [next()] with its promise dropped. *)
Lemma gate_token_program (env : Server.Env) (kind : Gate.Kind) (req : IncomingMessage)
    (t source : string)
    (call : unit -> Comp Server.ServerEffect) (st : St Server.ServerEffect) :
  Server.skipsAuth req = false ->
  ~ Gate.openSession env req ->
  Server.extractToken env req = (JsString t, source) ->
  JsString.trimIsEmpty t = false ->
  (kind = Gate.Simple false
   \/ exists payload, Server.verify env t = inl payload /\ Gate.loggable kind payload = true) ->
  run call (Gate.middlewareOf env kind req) st
  = run call (Do Server.ExtractToken (Do (Gate.tokenCheck kind t) Server.detachedNext))
      (mkSt (res st) (trace st ++ map EvDo (Gate.sessionProbe env req))).
Proof.
  intros Hskip Hclosed Hx Hblank Hok.
  assert (Ht : String.eqb t "" = false).
  { destruct (String.eqb t "") eqn:Ht; [| reflexivity].
    apply String.eqb_eq in Ht. subst t. discriminate Hblank. }
  destruct kind as [|[|]]; cbn [Gate.middlewareOf Gate.tokenCheck];
    unfold Server.authMiddleware, Server.simpleAuthMiddleware;
    rewrite Hskip, sessionCheck_falls_through, Hx by assumption; cbn [truthy negb];
    rewrite Ht; cbn [negb]; rewrite Hblank; [| | reflexivity];
    (destruct Hok as [Hk | (payload & Hverify & Hlog)]; [discriminate Hk |]);
    rewrite Hverify; unfold Gate.loggable in Hlog; apply negb_true_iff in Hlog;
    now rewrite Hlog.
Qed.

(** What the router makes of a chain that threw and left [st1]. *)
Lemma dispatch_after_throw {E : Type} (st1 : St E) :
  (if writableEnded (res st1) then (Router.Resolved true, st1)
   else
     match run noCall (respond 500 (Text "Internal Server Error") Return) st1 with
     | (Normal, st2) => (Router.Resolved true, st2)
     | (Thrown e', st2) => (Router.Rejected e', st2)
     end)
  = (if writableEnded (res st1) then (Router.Resolved true, st1)
     else if headersSent (res st1)
          then (Router.Rejected "ERR_HTTP_HEADERS_SENT", st1)
          else (Router.Resolved true,
                mkSt Router.serverError
                  (trace st1 ++ [EvWriteHead 500; EvEnd (Text "Internal Server Error")]))).
Proof.
  destruct (writableEnded (res st1)) eqn:Hended; [reflexivity |].
  unfold respond. cbn [run]. unfold writeHead.
  destruct (headersSent (res st1)); [reflexivity |].
  cbn [run res trace writableEnded]. rewrite Hended. unfold endResponse.
  cbn [writableEnded statusCode]. unfold Router.serverError.
  now rewrite <- app_assoc.
Qed.

(** X8.  What becomes of a route handler's exception behind a middleware
    of auth.ts depends on how the request got in.  For an exempt request
    and for one that names an open session the middleware is
    [return next()]: the rejection reaches the router, which answers with
    the generic 500 (or leaves the response, when the handler had
    finished it, or rejects, when the handler had sent the headers
    only).  For a request admitted for its token, whatever its URL, the
    middleware calls [next()] and drops its promise: the rejection is
    nobody's, [handleRequest] resolves, and the response stays as the
    handler left it, with no 500 written. *)
Theorem gate_drops_handler_failure
    (env : Server.Env) (kind : Gate.Kind) (r : Router.Router Server.ServerEffect)
    (req : IncomingMessage) (st : St Server.ServerEffect) (m u : string)
    (before after : list (Router.Route Server.ServerEffect))
    (route : Router.Route Server.ServerEffect)
    (Honly : Router.middleware r = [Gate.middlewareOf env kind])
    (Hmethod : method req = Some m) (Hurl : url req = Some u)
    (Hm : m <> "") (Hu : u <> "")
    (Hroutes : Router.routes r = (before ++ route :: after)%list)
    (Hbefore : forall x, In x before ->
       Router.methodMatches x m && Router.isMatch (Router.path x) u = false)
    (Hroute : Router.methodMatches route m && Router.isMatch (Router.path route) u = true)
    (Hopen : writableEnded (res st) = false) :
  let answered (st1 : St Server.ServerEffect) :=
    if writableEnded (res st1) then (Router.Resolved true, st1)
    else if headersSent (res st1)
         then (Router.Rejected "ERR_HTTP_HEADERS_SENT", st1)
         else (Router.Resolved true,
               mkSt Router.serverError
                 (trace st1 ++ [EvWriteHead 500; EvEnd (Text "Internal Server Error")])) in
  (Server.skipsAuth req = true ->
   forall e st1,
     Router.invokeHandler (length before) route req u
       (mkSt (res st) (trace st ++ [EvMiddleware 0 false])) = (Thrown e, st1) ->
     Router.handleRequest r req st = answered st1)
  /\ (Server.skipsAuth req = false ->
      forall sid t e st1,
        JsString.startsWith u "/messages" = true ->
        JsString.includes u "sessionId=" = true ->
        Url.searchParam (Server.urlOk env) u (Server.hostOf req) "sessionId"
        = Some (Some sid) ->
        sid <> "" ->
        Server.getTransport env sid = Some t ->
        Router.invokeHandler (length before) route req u
          (mkSt (res st)
             (trace st ++ [EvMiddleware 0 false; EvDo (Server.GetTransport sid)]))
        = (Thrown e, st1) ->
        Router.handleRequest r req st = answered st1)
  /\ (Server.skipsAuth req = false ->
      ~ Gate.openSession env req ->
      forall t source e st1,
        Server.extractToken env req = (JsString t, source) ->
        JsString.trimIsEmpty t = false ->
        (kind = Gate.Simple false
         \/ exists payload,
              Server.verify env t = inl payload /\ Gate.loggable kind payload = true) ->
        Router.invokeHandler (length before) route req u
          (mkSt (res st)
             (trace st ++ [EvMiddleware 0 false]
                ++ map EvDo (Gate.sessionProbe env req)
                ++ [EvDo Server.ExtractToken; EvDo (Gate.tokenCheck kind t)]))
        = (Thrown e, st1) ->
        Router.handleRequest r req st
        = (Router.Resolved true, emit (EvDo (Server.UnhandledRejection e)) st1)).
Proof.
  intros answered. subst answered.
  rewrite (handleRequest_first_match r req st m u before after route
             Hmethod Hurl Hm Hu Hroutes Hbefore Hroute).
  unfold Router.dispatch, Router.executeMiddlewareChain. rewrite Honly.
  cbn [drop Router.chainFrom]. rewrite Hopen. split; [| split].
  - intros Hskip e st1 Hfail.
    rewrite (gate_exempt env kind req Hskip), run_returnNext.
    unfold emit. cbn [res trace]. rewrite Hopen, Hfail.
    apply dispatch_after_throw.
  - intros Hskip sid t e st1 Hpath Hliteral Hparam Hsid Ht Hfail.
    assert (Hprogram : Gate.middlewareOf env kind req
                       = Do (Server.GetTransport sid) returnNext).
    { destruct kind; cbn [Gate.middlewareOf];
        unfold Server.authMiddleware, Server.simpleAuthMiddleware; rewrite Hskip;
        apply (sessionCheck_found env req u sid t _ Hurl Hpath Hliteral Hparam Hsid Ht). }
    rewrite Hprogram. cbn [run]. rewrite run_returnNext.
    unfold emit. cbn [res trace]. rewrite Hopen.
    rewrite <- !app_assoc. cbn [app]. rewrite Hfail.
    apply dispatch_after_throw.
  - intros Hskip Hclosed t source e st1 Hx Hblank Hok Hfail.
    rewrite (gate_token_program env kind req t source _ _ Hskip Hclosed Hx Hblank Hok).
    unfold Server.detachedNext. cbn [run]. unfold emit. cbn [res trace]. rewrite Hopen.
    rewrite <- !app_assoc. cbn [app] in *. rewrite Hfail. reflexivity.
Qed.

Lemma gate_drops_handler_failure_witness :
  Router.handleRequest Cases.failingApp
    (Scenario.request "GET" "/sse" (Scenario.bearer "valid")) Scenario.fresh
  = (Router.Resolved true,
     mkSt freshResponse
       [EvMiddleware 0 false; EvDo Server.ExtractToken; EvDo (Server.VerifyToken "valid");
        EvHandler 1 false; EvDo (Server.UnhandledRejection "boom")]).
Proof.
  assert (Hm : "GET" <> "") by discriminate.
  assert (Hu : "/sse" <> "") by discriminate.
  assert (Hclosed : ~ Gate.openSession Scenario.env
                      (Scenario.request "GET" "/sse" (Scenario.bearer "valid"))).
  { intros (u & sid & transport & Hurl & Hpath & _). injection Hurl as <-.
    discriminate Hpath. }
  destruct (gate_drops_handler_failure Scenario.env (Gate.Simple true)
              Cases.failingApp (Scenario.request "GET" "/sse" (Scenario.bearer "valid"))
              Scenario.fresh "GET" "/sse" [Cases.metadataRoute]
              [Router.mkRoute "POST" (Router.PathString "/messages*")
                 (Server.sseMessagesHandler Scenario.env)]
              Cases.streamRoute eq_refl eq_refl eq_refl Hm Hu eq_refl)
    as (_ & _ & Hdropped).
  - intros x [<- | []]. reflexivity.
  - reflexivity.
  - reflexivity.
  - apply (Hdropped eq_refl Hclosed "valid" "Authorization header" "boom"
             (mkSt freshResponse
                [EvMiddleware 0 false; EvDo Server.ExtractToken;
                 EvDo (Server.VerifyToken "valid"); EvHandler 1 false])).
    + reflexivity.
    + reflexivity.
    + right. exists Scenario.somePayload. split; reflexivity.
    + reflexivity.
Defined.

(* --------------------------------------------------------------------- *)
(** ** Tokens that are found and do not get in *)

Lemma scanHeaders_textual hs acc :
  Gate.textual acc.1 = true -> Gate.textual (Server.scanHeaders hs acc).1 = true.
Proof.
  intros Hacc. induction hs as [|[key value] hs IH]; cbn [Server.scanHeaders]; [exact Hacc |].
  destruct (String.eqb _ "authorization"); [| exact IH].
  destruct (Server.bearerToken value); [reflexivity | exact IH].
Qed.

Lemma scanUrl_textual env req acc :
  Gate.textual acc.1 = true -> Gate.textual (Server.scanUrl env req acc).1 = true.
Proof.
  intros Hacc. unfold Server.scanUrl. destruct acc as [token source].
  destruct (negb (truthy token) && Server.urlIncludes req "?"); [| exact Hacc].
  destruct (Url.searchParam _ _ _ _) as [[t|]|]; first [reflexivity | exact Hacc].
Qed.

Lemma scanCookies_textual cookies acc :
  Gate.textual acc.1 = true -> Gate.textual (Server.scanCookies cookies acc).1 = true.
Proof.
  intros Hacc. induction cookies as [|cookie cookies IH]; cbn [Server.scanCookies];
    [exact Hacc |].
  destruct (JsString.split "=" (JsString.trim cookie)) as [|name more]; [exact IH |].
  destruct (String.eqb name "access_token"); [| exact IH].
  now destruct more.
Qed.

Lemma scanCookieHeader_textual req acc :
  Gate.textual acc.1 = true -> Gate.textual (Server.scanCookieHeader req acc).1 = true.
Proof.
  intros Hacc. unfold Server.scanCookieHeader.
  destruct (headerString "cookie" (headers req)) as [c|]; [| exact Hacc].
  destruct (negb (truthy acc.1) && negb (String.eqb c "")); [| exact Hacc].
  now apply scanCookies_textual.
Qed.

(** Only the request body gives [extractToken] a token that is neither a
    string nor nullish. *)
Lemma extractToken_origin env req v source :
  Server.extractToken env req = (v, source) ->
  Gate.textual v = false ->
  source = "Request body" /\ v = getField (body req) "token"
  /\ Server.isJsonPost req = true.
Proof.
  unfold Server.extractToken, Server.scanBody.
  pose proof (scanCookieHeader_textual req _
                (scanUrl_textual env req _
                   (scanHeaders_textual (headers req) (JsNull, "none") eq_refl))) as Hacc.
  destruct (Server.scanCookieHeader req _) as [token label]. cbn [fst] in Hacc |- *.
  destruct (negb (truthy token) && Server.isJsonPost req) eqn:Hpost.
  - destruct (truthy (body req) && truthy (getField (body req) "token")).
    + intros [= <- <-] _. apply andb_true_iff in Hpost as [_ Hpost]. auto.
    + intros [= <- <-] Hv. congruence.
  - intros [= <- <-] Hv. congruence.
Qed.

(** X9.  A token that is there and is not a string is a server error, not
    a rejection.  Such a token can only come from the request body (a
    POST with a JSON content type whose body has a truthy [token] that is
    not a string); [token.trim()] then throws, and on every request that
    is not exempt and names no open session either middleware answers
    with its 500, where a missing or blank token is answered 401.  The
    continuation is not called. *)
Theorem nonstring_token_is_a_server_error
    (env : Server.Env) (kind : Gate.Kind) (req : IncomingMessage)
    (v : JsValue) (source : string)
    (Hskip : Server.skipsAuth req = false)
    (Hclosed : ~ Gate.openSession env req)
    (Hx : Server.extractToken env req = (v, source))
    (Htruthy : truthy v = true)
    (Hnostring : Gate.textual v = false) :
  source = "Request body"
  /\ v = getField (body req) "token"
  /\ Server.isJsonPost req = true
  /\ Server.answerOf (Gate.middlewareOf env kind req)
     = Gate.answered 500 (Gate.failureBody kind)
  /\ Router.callsAtMost 0 (Gate.middlewareOf env kind req).
Proof.
  destruct (extractToken_origin env req v source Hx Hnostring) as (Hsource & Hv & Hpost).
  split; [exact Hsource | split; [exact Hv | split; [exact Hpost |]]].
  split.
  - unfold Server.answerOf.
    assert (Hprogram : forall call st,
              run call (Gate.middlewareOf env kind req) st
              = run call (Do Server.ExtractToken
                            (respond 500 (Gate.failureBody kind) Return))
                  (mkSt (res st) (trace st ++ map EvDo (Gate.sessionProbe env req)))).
    { intros call st.
      destruct kind; cbn [Gate.middlewareOf Gate.failureBody];
        unfold Server.authMiddleware, Server.simpleAuthMiddleware;
        rewrite Hskip, sessionCheck_falls_through, Hx, Htruthy by assumption; cbn [negb];
        destruct v; try discriminate Hnostring; reflexivity. }
    rewrite Hprogram. reflexivity.
  - destruct (gate_closed_or_accepted env kind req)
      as [Hnone | [Hs | [Ho | (t & source' & Hx' & _)]]].
    + exact Hnone.
    + congruence.
    + now destruct Hclosed.
    + rewrite Hx in Hx'. injection Hx' as -> _. discriminate Hnostring.
Qed.

Lemma nonstring_token_is_a_server_error_witness :
  let req := {| method := Some "POST"; url := Some "/messages?sessionId=gone";
                headers := [("content-type", HString "application/json")];
                body := JsObject [("token", JsNumber 123)] |} in
  Server.answerOf (Server.simpleAuthMiddleware Scenario.env true req)
  = Gate.answered 500 (Server.errorBody "Internal Server Error").
Proof.
  intros req.
  assert (Hclosed : ~ Gate.openSession Scenario.env req).
  { intros (u & sid & transport & Hurl & _ & _ & Hparam & _ & Ht).
    injection Hurl as <-. vm_compute in Hparam. injection Hparam as <-.
    vm_compute in Ht. discriminate Ht. }
  destruct (nonstring_token_is_a_server_error Scenario.env (Gate.Simple true)
              req (JsNumber 123) "Request body"
              eq_refl Hclosed eq_refl eq_refl eq_refl) as (_ & _ & _ & Hanswer & _).
  exact Hanswer.
Defined.

(** X10.  A token that [verifyToken] accepts is still rejected by a
    validating middleware when its payload has no usable expiry: the
    middleware formats [exp] for its log inside the [try] of the
    verification, [toISOString] throws "Invalid time value", and every
    request that reaches the verification with such a token (it is not
    exempt and names no open session) is answered 401 as if the
    verification had failed.  The continuation is not called. *)
Theorem token_without_expiry_is_rejected
    (env : Server.Env) (kind : Gate.Kind) (req : IncomingMessage)
    (t source : string) (payload : TokenValidator.JwtPayload)
    (Hkind : kind <> Gate.Simple false)
    (Hskip : Server.skipsAuth req = false)
    (Hclosed : ~ Gate.openSession env req)
    (Hx : Server.extractToken env req = (JsString t, source))
    (Hblank : JsString.trimIsEmpty t = false)
    (Hverify : Server.verify env t = inl payload)
    (Hexp : Server.isoDateThrows (TokenValidator.exp payload) = true) :
  Server.answerOf (Gate.middlewareOf env kind req)
  = Gate.answered 401 (Gate.rejectionBody kind "Invalid time value")
  /\ Router.callsAtMost 0 (Gate.middlewareOf env kind req).
Proof.
  assert (Ht : String.eqb t "" = false).
  { destruct (String.eqb t "") eqn:Ht; [| reflexivity].
    apply String.eqb_eq in Ht. subst t. discriminate Hblank. }
  split.
  - unfold Server.answerOf.
    assert (Hprogram : forall call st,
              run call (Gate.middlewareOf env kind req) st
              = run call
                  (Do Server.ExtractToken
                     (Do (Server.VerifyToken t)
                        (WriteHead 401
                           (End (Gate.rejectionBody kind "Invalid time value") Return)
                           (respond 500 (Gate.failureBody kind) Return))))
                  (mkSt (res st) (trace st ++ map EvDo (Gate.sessionProbe env req)))).
    { intros call st.
      destruct kind as [|[|]]; [| | now destruct Hkind];
        cbn [Gate.middlewareOf Gate.failureBody Gate.rejectionBody];
        unfold Server.authMiddleware, Server.simpleAuthMiddleware;
        rewrite Hskip, sessionCheck_falls_through, Hx by assumption; cbn [truthy negb];
        rewrite Ht; cbn [negb]; rewrite Hblank, Hverify, Hexp; [| reflexivity].
      unfold Server.authRejected, Server.handleUnauthorized.
      now rewrite (skipsAuth_false_wellKnown req Hskip). }
    rewrite Hprogram. reflexivity.
  - destruct (gate_closed_or_accepted env kind req)
      as [Hnone | [Hs | [Ho | (t' & source' & Hx' & _ & Hok)]]].
    + exact Hnone.
    + congruence.
    + now destruct Hclosed.
    + rewrite Hx in Hx'. injection Hx' as <- _.
      destruct Hok as [Hk | (payload' & Hverify' & Hlog)]; [now destruct Hkind |].
      rewrite Hverify in Hverify'. injection Hverify' as <-.
      destruct kind as [|validateToken]; unfold Gate.loggable in Hlog;
        rewrite Hexp in Hlog; discriminate Hlog.
Qed.

Lemma token_without_expiry_is_rejected_witness :
  Server.answerOf
    (Server.simpleAuthMiddleware Cases.undatedEnv true
       (Scenario.request "POST" "/messages?sessionId=gone" (Scenario.bearer "valid")))
  = Gate.answered 401 (Server.unauthorizedBody "Invalid token: Invalid time value").
Proof.
  assert (Hkind : Gate.Simple true <> Gate.Simple false) by discriminate.
  assert (Hclosed : ~ Gate.openSession Cases.undatedEnv
                      (Scenario.request "POST" "/messages?sessionId=gone"
                         (Scenario.bearer "valid"))).
  { intros (u & sid & transport & Hurl & _ & _ & Hparam & _ & Ht).
    injection Hurl as <-. vm_compute in Hparam. injection Hparam as <-.
    vm_compute in Ht. discriminate Ht. }
  destruct (token_without_expiry_is_rejected Cases.undatedEnv (Gate.Simple true)
              (Scenario.request "POST" "/messages?sessionId=gone" (Scenario.bearer "valid"))
              "valid" "Authorization header" Cases.undated
              Hkind eq_refl Hclosed eq_refl eq_refl eq_refl eq_refl) as [Hanswer _].
  exact Hanswer.
Defined.

(* ===================================================================== *)
(** * The routes of index.ts *)
(* ===================================================================== *)

(** [try { await p } catch ...] runs [p] and goes on with the way it
    ended. *)
Lemma run_andThen {E C : Type} (call : C -> Comp E) (p : Prog E C)
    (k : Outcome -> Prog E C) (st : St E) :
  run call (andThen p k) st
  = let '(o, st') := run call p st in run call (k o) st'.
Proof.
  revert st. induction p as [| e | s a IHa b IHb | d a IHa | f IHf | e a IHa | c f IHf];
    intros st; cbn [andThen run]; try reflexivity.
  - destruct (writeHead s (res st)); [apply IHa | apply IHb].
  - destruct (writableEnded (res st)); apply IHa.
  - apply IHf.
  - apply IHa.
  - destruct (call c st) as [o st1]. apply IHf.
Qed.

(** A message for a registered session goes to the session's transport;
    the handler answers for a transport that fails. *)
Lemma messages_delivery (env : Server.Env) (req : IncomingMessage) (u sid : string)
    (t : Server.Transport) (st : St Server.ServerEffect) :
  JsString.startsWith u "/messages" = true ->
  Url.searchParam (Server.urlOk env) u (Server.hostOf req) "sessionId" = Some (Some sid) ->
  sid <> "" ->
  Server.getTransport env sid = Some t ->
  headersSent (res st) = false ->
  run noCall (Server.sseMessagesHandler env req u) st
  = let '(o, st1) :=
      run noCall (Server.handlePostMessage t req)
        (mkSt (res st)
           (trace st ++ [EvDo Server.SetCorsHeaders; EvDo (Server.GetTransport sid)])) in
    match o with
    | Normal => (Normal, st1)
    | Thrown _ =>
        if writableEnded (res st1) then (Normal, st1)
        else if headersSent (res st1) then (Thrown "ERR_HTTP_HEADERS_SENT", st1)
        else (Normal,
              mkSt (Gate.answered 500 (Server.errorBody "Internal server error"))
                (trace st1 ++ [EvWriteHead 500;
                               EvEnd (Server.errorBody "Internal server error")]))
    end.
Proof.
  intros Hpath Hparam Hsid Ht Hhead.
  unfold Server.sseMessagesHandler. rewrite (messages_not_absolute u Hpath).
  unfold Url.searchParam in Hparam.
  destruct (Server.urlOk env u (Server.hostOf req)); [| discriminate].
  injection Hparam as Hparam. cbn [run]. rewrite Hhead, Hparam.
  apply String.eqb_neq in Hsid. rewrite Hsid. cbn [run]. rewrite Ht.
  rewrite run_andThen. unfold emit. cbn [res trace]. rewrite <- app_assoc. cbn [app].
  destruct (run noCall (Server.handlePostMessage t req) _) as [[|e] st1]; [reflexivity |].
  cbn [run]. destruct (writableEnded (res st1)) eqn:Hended; [reflexivity |].
  unfold respond. cbn [run]. unfold writeHead.
  destruct (headersSent (res st1)); [reflexivity |].
  cbn [run res trace writableEnded]. rewrite Hended. unfold endResponse.
  cbn [writableEnded statusCode]. unfold Gate.answered. now rewrite <- app_assoc.
Qed.

(** X11.  On the router of index.ts a POST that names an open session is
    delivered to that session's transport, with no credential looked
    for: the middleware looks the session up and passes on, the messages
    handler looks the same session up and hands the request to its
    [handlePostMessage].  What the transport writes is the answer.  When
    the transport throws, the answer is the handler's 500, unless the
    transport finished the response; when it threw between sending the
    headers and finishing, [handleRequest] rejects. *)
Theorem session_request_is_delivered
    (env : Server.Env)
    (metadata stream : Router.RouteHandler Server.ServerEffect)
    (req : IncomingMessage) (u sid : string) (t : Server.Transport)
    (st : St Server.ServerEffect)
    (Hmethod : method req = Some "POST")
    (Hurl : url req = Some u)
    (Hskip : Server.skipsAuth req = false)
    (Hpath : JsString.startsWith u "/messages" = true)
    (Hliteral : JsString.includes u "sessionId=" = true)
    (Hparam : Url.searchParam (Server.urlOk env) u (Server.hostOf req) "sessionId"
              = Some (Some sid))
    (Hsid : sid <> "")
    (Ht : Server.getTransport env sid = Some t)
    (Hunsent : headersSent (res st) = false)
    (Hopen : writableEnded (res st) = false) :
  Router.handleRequest (Server.appRouter env metadata stream) req st
  = let '(o, st1) :=
      run noCall (Server.handlePostMessage t req)
        (mkSt (res st)
           (trace st ++ [EvMiddleware 0 false; EvDo (Server.GetTransport sid);
                         EvHandler 2 false; EvDo Server.SetCorsHeaders;
                         EvDo (Server.GetTransport sid)])) in
    match o with
    | Normal => (Router.Resolved true, st1)
    | Thrown _ =>
        if writableEnded (res st1) then (Router.Resolved true, st1)
        else if headersSent (res st1)
             then (Router.Rejected "ERR_HTTP_HEADERS_SENT", st1)
             else (Router.Resolved true,
                   mkSt (Gate.answered 500 (Server.errorBody "Internal server error"))
                     (trace st1 ++ [EvWriteHead 500;
                                    EvEnd (Server.errorBody "Internal server error")]))
    end.
Proof.
  assert (Hm : "POST" <> "") by discriminate.
  assert (Hu : u <> "") by (intros ->; discriminate Hpath).
  rewrite (handleRequest_first_match (Server.appRouter env metadata stream) req st "POST" u
             [Router.mkRoute "GET" (Router.PathString "/.well-known/oauth-protected-resource")
                metadata;
              Router.mkRoute "GET" (Router.PathString "/sse") stream]
             []
             (Router.mkRoute "POST" (Router.PathString "/messages*")
                (Server.sseMessagesHandler env))
             Hmethod Hurl Hm Hu eq_refl).
  2: { intros x [<- | [<- | []]]; reflexivity. }
  2: { cbn [Router.path].
       rewrite (isMatch_wildcard "/messages" u
                : Router.isMatch (Router.PathString "/messages*") u = _), Hpath.
       reflexivity. }
  unfold Router.dispatch, Router.executeMiddlewareChain.
  cbn [Server.appRouter Router.post Router.get Router.use Router.empty Router.middleware
       app drop Router.chainFrom length].
  unfold Server.simpleAuthMiddleware. rewrite Hskip.
  rewrite (sessionCheck_found env req u sid t _ Hurl Hpath Hliteral Hparam Hsid Ht).
  unfold Router.invokeHandler. cbn [run Router.handler]. rewrite run_returnNext.
  unfold emit. cbn [res trace]. rewrite Hopen.
  rewrite <- !app_assoc. cbn [app].
  rewrite (messages_delivery env req u sid t
             (mkSt (res st)
                (trace st ++ [EvMiddleware 0 false; EvDo (Server.GetTransport sid);
                              EvHandler 2 false]))
             Hpath Hparam Hsid Ht Hunsent).
  cbn [res trace]. rewrite <- !app_assoc. cbn [app].
  destruct (run noCall (Server.handlePostMessage t req) _) as [[|e] st1]; [reflexivity |].
  destruct (writableEnded (res st1)) eqn:Hended; [reflexivity |].
  destruct (headersSent (res st1)) eqn:Hhead.
  - cbn [run]. rewrite Hended. unfold respond. cbn [run]. unfold writeHead.
    now rewrite Hhead.
  - reflexivity.
Qed.

Lemma session_request_is_delivered_witness :
  Router.handleRequest Scenario.app (Scenario.request "POST" "/messages?sessionId=s1" [])
    Scenario.fresh
  = (Router.Resolved true,
     mkSt (Gate.answered 202 (Text "Accepted"))
       [EvMiddleware 0 false; EvDo (Server.GetTransport "s1"); EvHandler 2 false;
        EvDo Server.SetCorsHeaders; EvDo (Server.GetTransport "s1");
        EvWriteHead 202; EvEnd (Text "Accepted")]).
Proof.
  assert (Hsid : "s1" <> "") by discriminate.
  assert (Ht : Server.getTransport Scenario.env "s1" = Some Scenario.accepting)
    by (vm_compute; reflexivity).
  exact (session_request_is_delivered Scenario.env _ _
           (Scenario.request "POST" "/messages?sessionId=s1" [])
           "/messages?sessionId=s1" "s1" Scenario.accepting Scenario.fresh
           eq_refl eq_refl eq_refl eq_refl eq_refl eq_refl Hsid Ht eq_refl eq_refl).
Defined.

(** X12.  The messages handler rejects for two reasons only: the URL of
    the request is refused by the URL constructor, before anything is
    written, or the response headers were already sent, either when the
    handler started or by a transport that then threw without finishing
    the response.  Every other failure of a transport is answered. *)
Theorem messages_handler_rejections
    (env : Server.Env) (req : IncomingMessage) (u e : string)
    (st st' : St Server.ServerEffect)
    (Hrejected : run noCall (Server.sseMessagesHandler env req u) st = (Thrown e, st')) :
  (e = "Invalid URL" /\ st' = st
   /\ (if JsString.startsWith u "http" then Server.absoluteUrlOk env u
       else Server.urlOk env u (Server.hostOf req)) = false)
  \/ (e = "ERR_HTTP_HEADERS_SENT" /\ headersSent (res st') = true).
Proof.
  unfold Server.sseMessagesHandler in Hrejected.
  assert (Hanswer : forall status data (s0 s1 : St Server.ServerEffect) e0,
            headersSent (res s0) = false ->
            run noCall (respond status data Return) s0 <> (Thrown e0, s1)).
  { intros status data s0 s1 e0 Hh. unfold respond. cbn [run]. unfold writeHead.
    rewrite Hh. cbn [run res trace writableEnded].
    destruct (writableEnded (res s0)); discriminate. }
  destruct (if JsString.startsWith u "http" then Server.absoluteUrlOk env u
            else Server.urlOk env u (Server.hostOf req)) eqn:Hok.
  - right.
    assert (Hparsed : (if JsString.startsWith u "http"
                       then (if Server.absoluteUrlOk env u
                             then Some (Url.parseQuery (Url.queryOf u)) else None)
                       else (if Server.urlOk env u (Server.hostOf req)
                             then Some (Url.parseQuery (Url.queryOf u)) else None))
                      = Some (Url.parseQuery (Url.queryOf u))).
    { destruct (JsString.startsWith u "http"); now rewrite Hok. }
    rewrite Hparsed in Hrejected. cbn [run] in Hrejected.
    destruct (headersSent (res st)) eqn:Hhead.
    { cbn [run] in Hrejected. injection Hrejected as <- <-. auto. }
    cbn [run] in Hrejected.
    destruct (Url.getParam "sessionId" _) as [sid|];
      [| now apply Hanswer in Hrejected].
    destruct (String.eqb sid ""); [now apply Hanswer in Hrejected |].
    cbn [run] in Hrejected.
    destruct (Server.getTransport env sid) as [t|]; [| now apply Hanswer in Hrejected].
    rewrite run_andThen in Hrejected.
    destruct (run noCall (Server.handlePostMessage t req) _) as [[|e1] st1];
      [discriminate |].
    cbn [run] in Hrejected. destruct (writableEnded (res st1)); [discriminate |].
    destruct (headersSent (res st1)) eqn:Hhead1; [| now apply Hanswer in Hrejected].
    unfold respond in Hrejected. cbn [run] in Hrejected. unfold writeHead in Hrejected.
    rewrite Hhead1 in Hrejected. cbn [run] in Hrejected.
    injection Hrejected as <- <-. auto.
  - left.
    assert (Hparsed : (if JsString.startsWith u "http"
                       then (if Server.absoluteUrlOk env u
                             then Some (Url.parseQuery (Url.queryOf u)) else None)
                       else (if Server.urlOk env u (Server.hostOf req)
                             then Some (Url.parseQuery (Url.queryOf u)) else None))
                      = None).
    { destruct (JsString.startsWith u "http"); now rewrite Hok. }
    rewrite Hparsed in Hrejected. cbn [run] in Hrejected.
    injection Hrejected as <- <-. auto.
Qed.

Lemma messages_handler_rejections_witness :
  let req := Scenario.request "POST" "/messages?sessionId=s1" [("host", HString "bad host")] in
  ("Invalid URL" = "Invalid URL" /\ Scenario.fresh = Scenario.fresh
   /\ (if JsString.startsWith "/messages?sessionId=s1" "http"
       then Server.absoluteUrlOk Scenario.env "/messages?sessionId=s1"
       else Server.urlOk Scenario.env "/messages?sessionId=s1" (Server.hostOf req)) = false)
  \/ ("Invalid URL" = "ERR_HTTP_HEADERS_SENT" /\ headersSent (res Scenario.fresh) = true).
Proof.
  intros req.
  apply (messages_handler_rejections Scenario.env req "/messages?sessionId=s1"
           "Invalid URL" Scenario.fresh Scenario.fresh).
  reflexivity.
Defined.

(** X13.  The discovery document is public.  On the router of index.ts
    with the handler of protected-resource.ts, a GET of
    [/.well-known/oauth-protected-resource] on an unsent response is
    answered 200 with the metadata that names the authorization server,
    whatever headers, cookies or body the request has and whatever the
    session registry and the token validator hold: no credential is
    looked for. *)
Theorem discovery_is_public
    (env : Server.Env) (stream : Router.RouteHandler Server.ServerEffect)
    (req : IncomingMessage) (st : St Server.ServerEffect)
    (Hmethod : method req = Some "GET")
    (Hurl : url req = Some "/.well-known/oauth-protected-resource")
    (Hunsent : headersSent (res st) = false)
    (Hopen : writableEnded (res st) = false) :
  Router.handleRequest (Server.appRouter env Routes.protectedResourceHandler stream) req st
  = (Router.Resolved true,
     mkSt (Gate.answered 200 (Json Routes.metadata))
       (trace st ++ [EvMiddleware 0 false; EvHandler 0 false; EvWriteHead 200;
                     EvEnd (Json Routes.metadata)]))
  /\ getField Routes.metadata "authorization_servers"
     = JsArray [JsString "http://localhost:5558"].
Proof.
  split; [| reflexivity].
  assert (Hskip : Server.skipsAuth req = true).
  { unfold Server.skipsAuth, Server.urlIncludes. now rewrite Hurl. }
  assert (Hm : "GET" <> "") by discriminate.
  assert (Hu : "/.well-known/oauth-protected-resource" <> "") by discriminate.
  rewrite (handleRequest_first_match
             (Server.appRouter env Routes.protectedResourceHandler stream) req st
             "GET" "/.well-known/oauth-protected-resource" []
             [Router.mkRoute "GET" (Router.PathString "/sse") stream;
              Router.mkRoute "POST" (Router.PathString "/messages*")
                (Server.sseMessagesHandler env)]
             (Router.mkRoute "GET"
                (Router.PathString "/.well-known/oauth-protected-resource")
                Routes.protectedResourceHandler)
             Hmethod Hurl Hm Hu eq_refl (fun x (H : In x []) => match H with end) eq_refl).
  unfold Router.dispatch, Router.executeMiddlewareChain.
  cbn [Server.appRouter Router.post Router.get Router.use Router.empty Router.middleware
       app drop Router.chainFrom length].
  unfold Server.simpleAuthMiddleware. rewrite Hskip, run_returnNext.
  unfold emit. cbn [res trace]. rewrite Hopen.
  unfold Router.invokeHandler, Routes.protectedResourceHandler.
  cbn [Router.handler run]. unfold emit. cbn [res trace]. rewrite Hunsent.
  cbn [run]. unfold writeHead. cbn [res]. rewrite Hunsent.
  cbn [run res trace writableEnded]. rewrite Hopen. unfold endResponse.
  cbn [writableEnded statusCode]. unfold Gate.answered.
  now rewrite <- !app_assoc.
Qed.

Lemma discovery_is_public_witness :
  Router.handleRequest
    (Server.appRouter Scenario.env Routes.protectedResourceHandler Cases.failingStream)
    (Scenario.request "GET" "/.well-known/oauth-protected-resource"
       (Scenario.bearer "forged")) Scenario.fresh
  = (Router.Resolved true,
     mkSt (Gate.answered 200 (Json Routes.metadata))
       [EvMiddleware 0 false; EvHandler 0 false; EvWriteHead 200;
        EvEnd (Json Routes.metadata)]).
Proof.
  exact (proj1 (discovery_is_public Scenario.env Cases.failingStream
                  (Scenario.request "GET" "/.well-known/oauth-protected-resource"
                     (Scenario.bearer "forged")) Scenario.fresh
                  eq_refl eq_refl eq_refl eq_refl)).
Defined.

(* ===================================================================== *)
(** * More of the token validator *)
(* ===================================================================== *)

Lemma mergeConfig_noOverride (base : TokenValidator.JwtConfig) :
  TokenValidator.mergeConfig base TokenValidator.noOverride = base.
Proof. now destruct base. Qed.

(** A verification resolves only with what [jwt.verify] returned for a
    key that the JWKS client found. *)
Lemma verifyToken_inversion
    (lib : TokenValidator.JwtLibrary) (base : TokenValidator.JwtConfig) (token : string)
    (config : TokenValidator.PartialConfig) (inst : option string)
    (payload : TokenValidator.JwtPayload) :
  TokenValidator.result (TokenValidator.verifyToken lib base token config inst)
  = inl payload ->
  let cfg := TokenValidator.mergeConfig base config in
  exists decoded key,
    TokenValidator.jwt_decode lib token = Some decoded
    /\ TokenValidator.jwks_getSigningKey lib
         (TokenValidator.getJwksClient (TokenValidator.jwksUri cfg) inst).1
         (getField (TokenValidator.jwtHeader decoded) "kid")
       = TokenValidator.KeyFound key
    /\ TokenValidator.jwt_verify lib token key
         {| TokenValidator.optIssuer := TokenValidator.issuer cfg;
            TokenValidator.optAudience := TokenValidator.audience cfg;
            TokenValidator.algorithms := ["RS256"] |}
       = inl payload.
Proof.
  intros Hresolved cfg. subst cfg. unfold TokenValidator.verifyToken in Hresolved.
  destruct (TokenValidator.jwt_decode lib token) as [decoded|]; [| discriminate].
  destruct (truthy (getField (TokenValidator.jwtHeader decoded) "kid"));
    cbn [negb] in Hresolved; [| discriminate].
  unfold TokenValidator.getSigningKey in Hresolved.
  destruct (TokenValidator.getJwksClient _ inst) as [client inst'].
  cbn [fst] in *.
  destruct (TokenValidator.jwks_getSigningKey lib client _) as [m | | key] eqn:Hkey;
    try discriminate.
  exists decoded, key. auto.
Qed.

(** X14.  [verifyToken] resolves only with what [jwt.verify] returned.  A
    payload comes out of a verification only when the token decoded, its
    header had a key identifier, the JWKS client found a key for that
    identifier, and [jwt.verify] accepted the token with that key, the
    issuer and the audience of the merged configuration, and RS256 as
    the only algorithm; the three library calls were made in that order
    and no other. *)
Theorem verifyToken_resolves_only_verified
    (lib : TokenValidator.JwtLibrary) (base : TokenValidator.JwtConfig) (token : string)
    (config : TokenValidator.PartialConfig) (inst : option string)
    (payload : TokenValidator.JwtPayload)
    (Hresolved : TokenValidator.result
                   (TokenValidator.verifyToken lib base token config inst) = inl payload) :
  let cfg := TokenValidator.mergeConfig base config in
  let client := (TokenValidator.getJwksClient (TokenValidator.jwksUri cfg) inst).1 in
  let options := {| TokenValidator.optIssuer := TokenValidator.issuer cfg;
                    TokenValidator.optAudience := TokenValidator.audience cfg;
                    TokenValidator.algorithms := ["RS256"] |} in
  exists decoded key,
    TokenValidator.jwt_decode lib token = Some decoded
    /\ truthy (getField (TokenValidator.jwtHeader decoded) "kid") = true
    /\ TokenValidator.jwks_getSigningKey lib client
         (getField (TokenValidator.jwtHeader decoded) "kid")
       = TokenValidator.KeyFound key
    /\ TokenValidator.jwt_verify lib token key options = inl payload
    /\ TokenValidator.calls (TokenValidator.verifyToken lib base token config inst)
       = [TokenValidator.CallDecode token;
          TokenValidator.CallGetSigningKey client
            (getField (TokenValidator.jwtHeader decoded) "kid");
          TokenValidator.CallVerify token key options]
    /\ TokenValidator.instance (TokenValidator.verifyToken lib base token config inst)
       = Some client.
Proof.
  intros cfg client options. subst cfg client options.
  unfold TokenValidator.verifyToken in *.
  destruct (TokenValidator.jwt_decode lib token) as [decoded|]; [| discriminate].
  destruct (truthy (getField (TokenValidator.jwtHeader decoded) "kid")) eqn:Hkid;
    cbn [negb] in *; [| discriminate].
  unfold TokenValidator.getSigningKey in *.
  destruct (TokenValidator.getJwksClient _ inst) as [client inst'] eqn:Hclient.
  cbn [fst] in *.
  assert (Hinst : inst' = Some client).
  { unfold TokenValidator.getJwksClient in Hclient.
    destruct inst; injection Hclient as <- <-; reflexivity. }
  destruct (TokenValidator.jwks_getSigningKey lib client _) as [m | | key] eqn:Hkey;
    try discriminate.
  exists decoded, key. cbn [TokenValidator.result TokenValidator.calls
                          TokenValidator.instance] in *.
  auto 10.
Qed.

Lemma verifyToken_resolves_only_verified_witness :
  exists decoded key,
    TokenValidator.jwt_decode Scenario.toyLibrary "valid" = Some decoded
    /\ truthy (getField (TokenValidator.jwtHeader decoded) "kid") = true
    /\ TokenValidator.jwks_getSigningKey Scenario.toyLibrary "http://localhost:5556/dex/keys"
         (getField (TokenValidator.jwtHeader decoded) "kid")
       = TokenValidator.KeyFound key
    /\ TokenValidator.jwt_verify Scenario.toyLibrary "valid" key
         {| TokenValidator.optIssuer := "http://localhost:5556/dex";
            TokenValidator.optAudience := "mcp-client";
            TokenValidator.algorithms := ["RS256"] |}
       = inl Scenario.somePayload.
Proof.
  destruct (verifyToken_resolves_only_verified Scenario.toyLibrary
              TokenValidator.defaultConfig "valid" TokenValidator.noOverride None
              Scenario.somePayload eq_refl)
    as (decoded & key & Hdecode & Hkid & Hkey & Hverify & _).
  exists decoded, key. auto.
Defined.

(** X15.  The JWKS client is created once.  A verification that finds no
    client creates one for the [jwksUri] of its merged configuration when
    it comes to look a key up, and leaves none when it fails before.  A
    verification that finds a client keeps it and looks keys up there,
    so from then on the [jwksUri] of a configuration is without effect:
    two verifications of a token that agree on issuer and audience make
    the same calls and settle alike, whatever key set each names. *)
Theorem jwks_client_is_created_once
    (lib : TokenValidator.JwtLibrary) (base : TokenValidator.JwtConfig) (token : string)
    (config : TokenValidator.PartialConfig) :
  (let v := TokenValidator.verifyToken lib base token config None in
   let uri := TokenValidator.jwksUri (TokenValidator.mergeConfig base config) in
   (TokenValidator.instance v = None \/ TokenValidator.instance v = Some uri)
   /\ (forall client kid,
         In (TokenValidator.CallGetSigningKey client kid) (TokenValidator.calls v) ->
         client = uri /\ TokenValidator.instance v = Some uri))
  /\ (forall existing,
        let v := TokenValidator.verifyToken lib base token config (Some existing) in
        TokenValidator.instance v = Some existing
        /\ (forall client kid,
              In (TokenValidator.CallGetSigningKey client kid) (TokenValidator.calls v) ->
              client = existing))
  /\ (forall existing base' config',
        TokenValidator.issuer (TokenValidator.mergeConfig base' config')
        = TokenValidator.issuer (TokenValidator.mergeConfig base config) ->
        TokenValidator.audience (TokenValidator.mergeConfig base' config')
        = TokenValidator.audience (TokenValidator.mergeConfig base config) ->
        TokenValidator.verifyToken lib base' token config' (Some existing)
        = TokenValidator.verifyToken lib base token config (Some existing)).
Proof.
  split; [| split].
  - cbn zeta. unfold TokenValidator.verifyToken, TokenValidator.getSigningKey.
    cbn [TokenValidator.getJwksClient fst].
    destruct (TokenValidator.jwt_decode lib token) as [decoded|];
      [| split; [now left | intros client kid [H | []]; discriminate H]].
    destruct (truthy (getField (TokenValidator.jwtHeader decoded) "kid")); cbn [negb];
      [| split; [now left | intros client kid [H | []]; discriminate H]].
    destruct (TokenValidator.jwks_getSigningKey lib _ _);
      cbn [TokenValidator.calls TokenValidator.instance];
      (split; [now right |]);
      intros client kid H;
      repeat (destruct H as [H | H]; [try discriminate H |]); try contradiction;
      injection H as <- _; auto.
  - intros existing. cbn zeta.
    unfold TokenValidator.verifyToken, TokenValidator.getSigningKey.
    cbn [TokenValidator.getJwksClient fst].
    destruct (TokenValidator.jwt_decode lib token) as [decoded|];
      [| split; [reflexivity | intros client kid [H | []]; discriminate H]].
    destruct (truthy (getField (TokenValidator.jwtHeader decoded) "kid")); cbn [negb];
      [| split; [reflexivity | intros client kid [H | []]; discriminate H]].
    destruct (TokenValidator.jwks_getSigningKey lib _ _);
      cbn [TokenValidator.calls TokenValidator.instance];
      (split; [reflexivity |]);
      intros client kid H;
      repeat (destruct H as [H | H]; [try discriminate H |]); try contradiction;
      now injection H as <- _.
  - intros existing base' config' Hissuer Haudience.
    unfold TokenValidator.verifyToken, TokenValidator.getSigningKey.
    cbn [TokenValidator.getJwksClient fst]. now rewrite Hissuer, Haudience.
Qed.

(** X16.  A token that a validating middleware accepts was verified by
    [jwt.verify].  The middlewares call [verifyToken] without overrides,
    so behind [authMiddleware], or [simpleAuthMiddleware] with
    validation, an accepted token is one that [jwt.verify] accepted with
    RS256 as the only algorithm, the issuer and the audience of the
    server's configuration, and a key that the JWKS client returned for
    the key identifier in the token's own header. *)
Theorem accepted_token_was_verified
    (env : Server.Env) (kind : Gate.Kind) (req : IncomingMessage)
    (Hkind : kind <> Gate.Simple false)
    (Haccepted : Gate.tokenAccepted env kind req) :
  exists t source decoded key payload,
    Server.extractToken env req = (JsString t, source)
    /\ TokenValidator.jwt_decode (Server.lib env) t = Some decoded
    /\ TokenValidator.jwks_getSigningKey (Server.lib env)
         (TokenValidator.getJwksClient (TokenValidator.jwksUri (Server.config env))
            (Server.jwksInstance env)).1
         (getField (TokenValidator.jwtHeader decoded) "kid")
       = TokenValidator.KeyFound key
    /\ TokenValidator.jwt_verify (Server.lib env) t key
         {| TokenValidator.optIssuer := TokenValidator.issuer (Server.config env);
            TokenValidator.optAudience := TokenValidator.audience (Server.config env);
            TokenValidator.algorithms := ["RS256"] |}
       = inl payload.
Proof.
  destruct Haccepted as (t & source & Hx & _ & [Hk | (payload & Hverify & _)]);
    [now destruct Hkind |].
  unfold Server.verify in Hverify.
  destruct (verifyToken_inversion _ _ _ _ _ _ Hverify)
    as (decoded & key & Hdecode & Hkey & Hjwt).
  rewrite mergeConfig_noOverride in Hkey, Hjwt.
  exists t, source, decoded, key, payload. auto.
Qed.

Lemma accepted_token_was_verified_witness :
  exists t source decoded key payload,
    Server.extractToken Scenario.env
      (Scenario.request "GET" "/sse" (Scenario.bearer "valid")) = (JsString t, source)
    /\ TokenValidator.jwt_decode Scenario.toyLibrary t = Some decoded
    /\ TokenValidator.jwks_getSigningKey Scenario.toyLibrary
         "http://localhost:5556/dex/keys"
         (getField (TokenValidator.jwtHeader decoded) "kid")
       = TokenValidator.KeyFound key
    /\ TokenValidator.jwt_verify Scenario.toyLibrary t key
         {| TokenValidator.optIssuer := "http://localhost:5556/dex";
            TokenValidator.optAudience := "mcp-client";
            TokenValidator.algorithms := ["RS256"] |}
       = inl payload.
Proof.
  assert (Hkind : Gate.Simple true <> Gate.Simple false) by discriminate.
  apply (accepted_token_was_verified Scenario.env (Gate.Simple true)
           (Scenario.request "GET" "/sse" (Scenario.bearer "valid")) Hkind).
  exists "valid", "Authorization header". split; [reflexivity | split; [reflexivity |]].
  right. exists Scenario.somePayload. split; reflexivity.
Defined.

(* ===================================================================== *)
(** * More of the client's token codec *)
(* ===================================================================== *)

Lemma utf16Length_app (a b : string) :
  Client.utf16Length (a ++ b) = Client.utf16Length a + Client.utf16Length b.
Proof.
  induction a as [|c a IH]; [reflexivity |].
  change (String c a ++ b) with (String c (a ++ b)).
  cbn [Client.utf16Length]. rewrite IH. lia.
Qed.

Lemma utf16Length_repeatEquals (n : nat) : Client.utf16Length (Client.repeatEquals n) = n.
Proof.
  induction n as [|n IH]; [reflexivity |].
  cbn [Client.repeatEquals Client.utf16Length]. rewrite IH. reflexivity.
Qed.

Lemma utf16Length_urlSafeToStandard (s : string) :
  Client.utf16Length (Client.urlSafeToStandard s) = Client.utf16Length s.
Proof.
  induction s as [|c s IH]; [reflexivity |].
  cbn [Client.urlSafeToStandard Client.utf16Length]. rewrite IH.
  destruct (Ascii.eqb c "-") eqn:Hdash; [apply Ascii.eqb_eq in Hdash; now subst c |].
  destruct (Ascii.eqb c "_") eqn:Hunder; [apply Ascii.eqb_eq in Hunder; now subst c |].
  reflexivity.
Qed.

Lemma urlSafeToStandard_app (a b : string) :
  Client.urlSafeToStandard (a ++ b)
  = Client.urlSafeToStandard a ++ Client.urlSafeToStandard b.
Proof.
  induction a as [|c a IH]; [reflexivity |].
  change (String c a ++ b) with (String c (a ++ b)).
  cbn [Client.urlSafeToStandard]. now rewrite IH.
Qed.

Lemma urlSafeToStandard_repeatEquals (n : nat) :
  Client.urlSafeToStandard (Client.repeatEquals n) = Client.repeatEquals n.
Proof.
  induction n as [|n IH]; [reflexivity |].
  cbn [Client.repeatEquals Client.urlSafeToStandard]. now rewrite IH.
Qed.

Lemma urlSafeToStandard_clean (s : string) (c : ascii) :
  In c (list_ascii_of_string (Client.urlSafeToStandard s)) ->
  c <> "-"%char /\ c <> "_"%char.
Proof.
  induction s as [|d s IH]; [intros [] |].
  cbn [Client.urlSafeToStandard list_ascii_of_string]. intros [<- | Hin]; [| now apply IH].
  destruct (Ascii.eqb d "-") eqn:Hdash; [split; discriminate |].
  destruct (Ascii.eqb d "_") eqn:Hunder; [split; discriminate |].
  apply Ascii.eqb_neq in Hdash, Hunder. now split.
Qed.

Lemma urlSafeToStandard_idempotent (s : string) :
  Client.urlSafeToStandard (Client.urlSafeToStandard s) = Client.urlSafeToStandard s.
Proof.
  induction s as [|c s IH]; [reflexivity |].
  cbn [Client.urlSafeToStandard]. rewrite IH. f_equal.
  destruct (Ascii.eqb c "-") eqn:Hdash; [reflexivity |].
  destruct (Ascii.eqb c "_") eqn:Hunder; [reflexivity |].
  now rewrite Hdash, Hunder.
Qed.

Lemma padded_length (n : nat) :
  (n + (if (n mod 4 =? 0)%nat then 0 else 4 - n mod 4)) mod 4 = 0.
Proof.
  pose proof (Nat.div_mod_eq n 4) as Hn.
  pose proof (Nat.mod_upper_bound n 4 ltac:(lia)) as Hlt.
  destruct (n mod 4 =? 0)%nat eqn:Hzero.
  - apply Nat.eqb_eq in Hzero. now rewrite Nat.add_0_r.
  - apply Nat.eqb_neq in Hzero.
    replace (n + (4 - n mod 4)) with ((n / 4 + 1) * 4) by lia.
    apply Nat.Div0.mod_mul.
Qed.

(** X17.  What [decodeBase64Part] gives the base64 decoder.  For every
    segment the decoded text is the segment with [-] and [_] replaced by
    [+] and [/] and at most three [=] added; its length is a multiple of
    four and it has no [-] and no [_] left.  Preparing a prepared text
    changes nothing, so a segment and its prepared form decode alike. *)
Theorem standardForm_is_padded_base64 (s : string) :
  (exists padding,
     padding <= 3
     /\ Client.standardForm s = Client.urlSafeToStandard s ++ Client.repeatEquals padding)
  /\ Client.utf16Length (Client.standardForm s) mod 4 = 0
  /\ (forall c, In c (list_ascii_of_string (Client.standardForm s)) ->
                c <> "-"%char /\ c <> "_"%char)
  /\ Client.standardForm (Client.standardForm s) = Client.standardForm s
  /\ (forall codec,
        Client.decodeBase64Part codec (Some (Client.standardForm s))
        = Client.decodeBase64Part codec (Some s)).
Proof.
  assert (Hlength : Client.utf16Length (Client.standardForm s) mod 4 = 0).
  { unfold Client.standardForm.
    rewrite utf16Length_urlSafeToStandard, utf16Length_app, utf16Length_repeatEquals.
    apply padded_length. }
  assert (Hidem : Client.standardForm (Client.standardForm s) = Client.standardForm s).
  { unfold Client.standardForm at 1. rewrite Hlength. cbn [Nat.eqb Client.repeatEquals].
    replace (Client.standardForm s ++ "") with (Client.standardForm s)
      by (clear; induction (Client.standardForm s) as [|c t IH];
          [reflexivity | change (String c t ++ "") with (String c (t ++ "")); now rewrite <- IH]).
    unfold Client.standardForm. apply urlSafeToStandard_idempotent. }
  split; [| split; [exact Hlength | split; [| split; [exact Hidem |]]]].
  - exists (if (Client.utf16Length s mod 4 =? 0)%nat then 0
            else 4 - Client.utf16Length s mod 4).
    split.
    + pose proof (Nat.mod_upper_bound (Client.utf16Length s) 4 ltac:(lia)).
      destruct (Client.utf16Length s mod 4 =? 0)%nat eqn:Hzero; [lia |].
      apply Nat.eqb_neq in Hzero. lia.
    + unfold Client.standardForm.
      now rewrite urlSafeToStandard_app, urlSafeToStandard_repeatEquals.
  - intros c. unfold Client.standardForm. apply urlSafeToStandard_clean.
  - intros codec.
    change (Client.decodeBase64Part codec (Some (Client.standardForm s)))
      with (match Client.JSON_parse codec
                    (Client.base64ToUtf8 codec
                       (Client.standardForm (Client.standardForm s))) with
            | Some v => Some v
            | None => Some (Client.errorObject "Could not parse JSON")
            end).
    now rewrite Hidem.
Qed.

(* ===================================================================== *)
(** * More of the callback listener *)
(* ===================================================================== *)

Lemma firstSuccess_snoc (answers : list (Z * Client.Page)) (status : Z)
    (page : Client.Page) :
  Flow.firstSuccess (answers ++ [(status, page)])
  = match Flow.firstSuccess answers with
    | Some c => Some c
    | None => match page with Client.SuccessPage c => Some c | _ => None end
    end.
Proof.
  induction answers as [|[s0 p0] answers IH]; cbn [app Flow.firstSuccess].
  - now destruct page.
  - destruct p0; [reflexivity | exact IH | exact IH].
Qed.

Lemma firstSuccess_none (answers : list (Z * Client.Page)) :
  Flow.firstSuccess answers = None ->
  forall status c, ~ In (status, Client.SuccessPage c) answers.
Proof.
  induction answers as [|[s0 p0] answers IH]; intros Hnone status c Hin; [destruct Hin |].
  cbn [Flow.firstSuccess] in Hnone.
  destruct Hin as [Hin | Hin].
  - injection Hin as _ ->. discriminate Hnone.
  - destruct p0; [discriminate Hnone | |]; now apply (IH Hnone status c).
Qed.

Lemma settled_once_arrival (l : Client.Listener) (a : Flow.Arrival)
    (r : string + string) :
  Client.settled l = Some r -> Client.settled (Flow.onArrival l a) = Some r.
Proof.
  intros Hr. unfold Flow.onArrival.
  destruct ((Client.listening l || Flow.keptAlive a) && negb (Client.crashed l));
    [| exact Hr].
  unfold Client.requestListener.
  destruct (Flow.arrivalUrl a) as [u|]; [| exact Hr].
  destruct (JsString.startsWith u "/callback"); [| exact Hr].
  destruct (Client.queryTruthy _).
  - cbn. now rewrite Hr.
  - destruct (Client.queryField "code" _) as [[c | items]|]; cbn.
    + destruct (String.eqb c ""); cbn; now rewrite Hr.
    + exact Hr.
    + now rewrite Hr.
Qed.

Lemma onArrival_sound (l : Client.Listener) (a : Flow.Arrival) :
  Flow.sound l -> Flow.sound (Flow.onArrival l a).
Proof.
  intros (Hopen & Hresolved & Hpending). unfold Flow.onArrival.
  destruct ((Client.listening l || Flow.keptAlive a) && negb (Client.crashed l)) eqn:Hserved;
    [| exact (conj Hopen (conj Hresolved Hpending))].
  assert (Hnotfound : Flow.sound (Client.answer 404 Client.NotFoundPage l)).
  { split; [| split]; cbn; rewrite firstSuccess_snoc.
    - intros Hl. destruct (Hopen Hl) as (Hc & Hnot & Hnone). now rewrite Hnone.
    - intros c Hc. destruct (Hresolved c Hc) as (Hne & Hl & Hfirst). now rewrite Hfirst.
    - intros Hs. now rewrite (Hpending Hs). }
  assert (Hrejected : forall e error description,
            Flow.sound (Client.settleWith (inr e)
                          (Client.answer 400 (Client.ErrorPage error description) l))).
  { intros e error description. split; [| split]; cbn; rewrite firstSuccess_snoc.
    - intros Hl. destruct (Hopen Hl) as (Hc & Hnot & Hnone). rewrite Hnone.
      split; [exact Hc | split; [| reflexivity]].
      intros c. destruct (Client.settled l) as [[c0|e0]|] eqn:Hs; cbn; try discriminate.
      now destruct (Hnot c0).
    - intros c Hc. destruct (Client.settled l) as [[c0|e0]|] eqn:Hs; cbn in Hc;
        try discriminate.
      injection Hc as <-. destruct (Hresolved c0 eq_refl) as (Hne & Hl & Hfirst).
      now rewrite Hfirst.
    - destruct (Client.settled l) as [[c0|e0]|]; discriminate. }
  unfold Client.requestListener.
  destruct (Flow.arrivalUrl a) as [u|]; [| exact Hnotfound].
  destruct (JsString.startsWith u "/callback"); [| exact Hnotfound].
  destruct (Client.queryTruthy _); [apply Hrejected |].
  destruct (Client.queryField "code" _) as [[c | items]|]; [| | apply Hrejected].
  - destruct (String.eqb c "") eqn:Hc; [apply Hrejected |].
    apply String.eqb_neq in Hc. split; [| split]; cbn; rewrite ?firstSuccess_snoc.
    + discriminate.
    + intros c0 Hc0. destruct (Client.settled l) as [[c1|e1]|] eqn:Hs; cbn in Hc0.
      * injection Hc0 as <-. destruct (Hresolved c1 eq_refl) as (Hne & _ & Hfirst).
        now rewrite Hfirst.
      * discriminate.
      * injection Hc0 as <-. now rewrite (Hpending eq_refl).
    + destruct (Client.settled l) as [[c1|e1]|]; discriminate.
  - split; [| split]; cbn.
    + discriminate.
    + intros c Hc. destruct (Hresolved c Hc) as (Hne & _ & Hfirst). auto.
    + exact Hpending.
Qed.

Lemma serveAll_sound (arrivals : list Flow.Arrival) : Flow.sound (Flow.serveAll arrivals).
Proof.
  unfold Flow.serveAll.
  assert (Hstart : Flow.sound Client.listenerStarted).
  { split; [| split]; cbn; [intros _; repeat split; discriminate | discriminate | reflexivity]. }
  revert Hstart. generalize Client.listenerStarted.
  induction arrivals as [|a arrivals IH]; intros l Hl; [exact Hl |].
  cbn [fold_left]. apply IH. now apply onArrival_sound.
Qed.

Lemma onArrival_newConnection (l : Client.Listener) (u : option string) :
  Flow.onArrival l (Flow.newConnection u) = Client.onRequest l u.
Proof.
  unfold Flow.onArrival, Client.onRequest. cbn [Flow.keptAlive Flow.arrivalUrl Flow.newConnection].
  now rewrite orb_false_r.
Qed.

Lemma serveAll_newConnections (requests : list (option string)) (l : Client.Listener) :
  fold_left Flow.onArrival (map Flow.newConnection requests) l
  = fold_left Client.onRequest requests l.
Proof.
  revert l. induction requests as [|u requests IH]; intros l; [reflexivity |].
  cbn [map fold_left]. now rewrite onArrival_newConnection, IH.
Qed.

(** X18.  What the callback listener guarantees on every sequence of
    requests, those on a connection kept alive across [server.close()]
    included.
    - When the promise of [openAuthorizationWindow] is resolved, the code
      is not empty, the server is closed, and the first success page
      sent was the one for that code.
    - While the server still listens, no exception has escaped, the
      promise is not resolved and no success page has been sent.
    - A settled promise stays as it is, whatever arrives.
    - A closed server stays closed, and a request on a new connection
      changes nothing then.
    - When every request comes on a new connection, the listener ends as
      [serve] has it.
    - A second callback on the connection of the first is still
      answered, with a success page of its own: the success page is not
      sent at most once, and the page for the resolved code need not be
      the last answer. *)
Theorem listener_guarantees (arrivals : list Flow.Arrival) :
  let l := Flow.serveAll arrivals in
  (forall c, Client.settled l = Some (inl c) ->
     c <> "" /\ Client.listening l = false
     /\ Flow.firstSuccess (Client.answers l) = Some c)
  /\ (Client.listening l = true ->
      Client.crashed l = false
      /\ (forall c, Client.settled l <> Some (inl c))
      /\ (forall status c, ~ In (status, Client.SuccessPage c) (Client.answers l)))
  /\ (forall more r,
        Client.settled l = Some r ->
        Client.settled (Flow.serveAll (arrivals ++ more)) = Some r)
  /\ (forall more,
        Client.listening l = false ->
        Client.listening (Flow.serveAll (arrivals ++ more)) = false
        /\ (Forall (fun a => Flow.keptAlive a = false) more ->
            Flow.serveAll (arrivals ++ more) = l))
  /\ (forall requests,
        Flow.serveAll (map Flow.newConnection requests) = Client.serve requests)
  /\ (let again := Flow.serveAll [Flow.newConnection (Some "/callback?code=abc");
                                  Flow.sameConnection (Some "/callback?code=def")] in
      Client.settled again = Some (inl "abc")
      /\ Client.answers again
         = [(200%Z, Client.SuccessPage "abc"); (200%Z, Client.SuccessPage "def")]).
Proof.
  intros l. subst l. destruct (serveAll_sound arrivals) as (Hopen & Hresolved & _).
  split; [exact Hresolved | split; [| split; [| split; [| split]]]].
  - intros Hl. destruct (Hopen Hl) as (Hc & Hnot & Hnone).
    split; [exact Hc | split; [exact Hnot |]]. now apply firstSuccess_none.
  - intros more r. unfold Flow.serveAll. rewrite fold_left_app.
    generalize (fold_left Flow.onArrival arrivals Client.listenerStarted).
    induction more as [|a more IH]; intros l Hr; [exact Hr |].
    cbn [fold_left]. apply IH. now apply settled_once_arrival.
  - intros more. unfold Flow.serveAll. rewrite fold_left_app.
    generalize (fold_left Flow.onArrival arrivals Client.listenerStarted).
    induction more as [|a more IH]; intros l Hl; [now split |].
    cbn [fold_left].
    assert (Hstays : Client.listening (Flow.onArrival l a) = false).
    { unfold Flow.onArrival.
      destruct ((Client.listening l || Flow.keptAlive a) && negb (Client.crashed l));
        [| exact Hl].
      unfold Client.requestListener.
      destruct (Flow.arrivalUrl a) as [u|]; [| exact Hl].
      destruct (JsString.startsWith u "/callback"); [| exact Hl].
      destruct (Client.queryTruthy _); [exact Hl |].
      destruct (Client.queryField "code" _) as [[c | items]|]; [| reflexivity | exact Hl].
      destruct (String.eqb c ""); [exact Hl | reflexivity]. }
    destruct (IH _ Hstays) as [Hclosed _]. split; [exact Hclosed |].
    intros Hnew. inversion Hnew as [|a' more' Ha Hmore]; subst.
    assert (Hskip : Flow.onArrival l a = l).
    { unfold Flow.onArrival. now rewrite Hl, Ha. }
    rewrite Hskip. destruct (IH l Hl) as [_ Hsame]. now apply Hsame.
  - intros requests. apply serveAll_newConnections.
  - vm_compute. split; reflexivity.
Qed.

Lemma onRequest_core (l l' : Client.Listener) (u : option string) :
  Client.listening l = Client.listening l' ->
  Client.crashed l = Client.crashed l' ->
  Client.settled l = Client.settled l' ->
  Client.listening (Client.onRequest l u) = Client.listening (Client.onRequest l' u)
  /\ Client.crashed (Client.onRequest l u) = Client.crashed (Client.onRequest l' u)
  /\ Client.settled (Client.onRequest l u) = Client.settled (Client.onRequest l' u).
Proof.
  intros Hl Hc Hs. unfold Client.onRequest. rewrite Hl, Hc.
  destruct (Client.listening l' && negb (Client.crashed l')); [| auto].
  unfold Client.requestListener.
  destruct u as [u|]; [| cbn; auto].
  destruct (JsString.startsWith u "/callback"); [| cbn; auto].
  destruct (Client.queryTruthy _); [cbn; rewrite Hs; auto |].
  destruct (Client.queryField "code" _) as [[c | items]|]; cbn; rewrite ?Hs; auto.
  destruct (String.eqb c ""); cbn; rewrite Hs; auto.
Qed.

Lemma onRequest_stray (l : Client.Listener) (u : option string) :
  Flow.isCallback u = false ->
  Client.listening (Client.onRequest l u) = Client.listening l
  /\ Client.crashed (Client.onRequest l u) = Client.crashed l
  /\ Client.settled (Client.onRequest l u) = Client.settled l.
Proof.
  intros Hu. unfold Client.onRequest.
  destruct (Client.listening l && negb (Client.crashed l)); [| auto].
  unfold Client.requestListener. destruct u as [u|]; [| cbn; auto].
  unfold Flow.isCallback in Hu. rewrite Hu. cbn. auto.
Qed.

Lemma serve_core (requests : list (option string)) (l l' : Client.Listener) :
  Client.listening l = Client.listening l' ->
  Client.crashed l = Client.crashed l' ->
  Client.settled l = Client.settled l' ->
  let after := fold_left Client.onRequest requests l in
  let after' := fold_left Client.onRequest (List.filter Flow.isCallback requests) l' in
  Client.listening after = Client.listening after'
  /\ Client.crashed after = Client.crashed after'
  /\ Client.settled after = Client.settled after'.
Proof.
  revert l l'. induction requests as [|u requests IH]; intros l l' Hl Hc Hs; [cbn; auto |].
  cbn [fold_left List.filter]. destruct (Flow.isCallback u) eqn:Hu.
  - cbn [fold_left]. destruct (onRequest_core l l' u Hl Hc Hs) as (Hl1 & Hc1 & Hs1).
    now apply IH.
  - destruct (onRequest_stray l u Hu) as (Hl1 & Hc1 & Hs1).
    apply IH; congruence.
Qed.

(** X19.  Only callbacks count, and only until the promise settles.  The
    requests that are not for [/callback] are answered 404 and change
    neither the promise nor the server: a flow over a sequence of
    requests ends as the flow over its callbacks alone.  Once the
    promise has settled, whatever arrives later leaves the outcome of
    the flow as it is. *)
Theorem only_callbacks_count (pf : Client.Platform) (requests : list (option string)) :
  let callbacks := List.filter Flow.isCallback requests in
  Client.settled (Client.serve requests) = Client.settled (Client.serve callbacks)
  /\ Client.listening (Client.serve requests) = Client.listening (Client.serve callbacks)
  /\ Client.startOAuthFlow pf requests = Client.startOAuthFlow pf callbacks
  /\ (forall more,
        Client.settled (Client.serve requests) <> None ->
        Client.startOAuthFlow pf (requests ++ more) = Client.startOAuthFlow pf requests).
Proof.
  intros callbacks. subst callbacks.
  destruct (serve_core requests Client.listenerStarted Client.listenerStarted
              eq_refl eq_refl eq_refl) as (Hl & _ & Hs).
  fold (Client.serve requests) in Hl, Hs.
  fold (Client.serve (List.filter Flow.isCallback requests)) in Hl, Hs.
  split; [exact Hs | split; [exact Hl | split]].
  - unfold Client.startOAuthFlow, Client.openAuthorizationWindow. now rewrite Hs.
  - intros more Hsettled.
    assert (Hsame : Client.settled (Client.serve (requests ++ more))
                    = Client.settled (Client.serve requests)).
    { unfold Client.serve. rewrite fold_left_app.
      destruct (Client.settled (fold_left Client.onRequest requests Client.listenerStarted))
        as [r|] eqn:Hr; [| now destruct Hsettled].
      now apply settled_for_good. }
    unfold Client.startOAuthFlow, Client.openAuthorizationWindow. now rewrite Hsame.
Qed.

(* ===================================================================== *)
(** * The patched fetch *)
(* ===================================================================== *)

Lemma assign_field (name value : string) (fields : list (string * string)) :
  Patch.field name (Patch.assign name value fields) = Some value.
Proof.
  induction fields as [|[k v] fields IH]; cbn [Patch.assign Patch.field].
  - now rewrite String.eqb_refl.
  - destruct (String.eqb k name) eqn:Hk; cbn [Patch.field]; now rewrite Hk.
Qed.

Lemma assign_other (name value other : string) (fields : list (string * string)) :
  other <> name ->
  Patch.field other (Patch.assign name value fields) = Patch.field other fields.
Proof.
  intros Hother. induction fields as [|[k v] fields IH]; cbn [Patch.assign Patch.field].
  - apply not_eq_sym, String.eqb_neq in Hother. now rewrite Hother.
  - destruct (String.eqb k name) eqn:Hk; cbn [Patch.field].
    + apply String.eqb_eq in Hk. subst k.
      apply not_eq_sym, String.eqb_neq in Hother. now rewrite Hother.
    + now rewrite IH.
Qed.

Lemma assign_assign (name value value' : string) (fields : list (string * string)) :
  Patch.assign name value (Patch.assign name value' fields) = Patch.assign name value fields.
Proof.
  induction fields as [|[k v] fields IH]; cbn [Patch.assign].
  - now rewrite String.eqb_refl.
  - destruct (String.eqb k name) eqn:Hk; cbn [Patch.assign]; rewrite Hk; [reflexivity |].
    now rewrite IH.
Qed.

Lemma authorize_authorize (token token' : string) (h : Patch.HeadersInit) :
  Patch.authorize token (Patch.authorize token' h) = Patch.authorize token h.
Proof. destruct h; cbn [Patch.authorize]; now rewrite assign_assign. Qed.

Lemma newInit_newInit (token token' : string) (init : option Patch.RequestInit) :
  Patch.newInit token (Some (Patch.newInit token' init)) = Patch.newInit token init.
Proof.
  unfold Patch.newInit, Patch.headersOf. cbn [Patch.initHeaders Patch.others default id].
  now rewrite authorize_authorize.
Qed.

(** X20.  Which requests get the token.  The patched [fetch] passes the
    request on with an [Authorization: Bearer <token>] header in place of
    any [Authorization] property there was, and every other header as it
    is, when the caller gave no headers or a plain object.  When the
    caller gave a [Headers] instance or an array of pairs, the assignment
    makes a property and no header: the request goes out as the caller
    wrote it, without the token.  In both cases the assignment is made on
    the caller's own headers object. *)
Theorem token_is_attached_to_plain_headers_only
    (token : string) (init : option Patch.RequestInit) :
  let passed := Patch.authorize token (Patch.headersOf init) in
  Patch.initHeaders (Patch.newInit token init) = Some passed
  /\ match Patch.headersOf init with
     | Patch.PlainObject fields =>
         Patch.field "Authorization" (Patch.sentHeaders passed) = Some ("Bearer " ++ token)
         /\ (forall name, name <> "Authorization" ->
               Patch.field name (Patch.sentHeaders passed) = Patch.field name fields)
     | h => Patch.sentHeaders passed = Patch.sentHeaders h
     end
  /\ (forall h, (exists i, init = Some i /\ Patch.initHeaders i = Some h) ->
        Patch.callerHeadersAfter token init = Some passed
        /\ (forall fields, h = Patch.PlainObject fields ->
              Patch.callerHeadersAfter token init <> Some h
              \/ Patch.field "Authorization" fields = Some ("Bearer " ++ token))).
Proof.
  cbn zeta. split; [reflexivity | split].
  - destruct (Patch.headersOf init) as [fields | entries own | pairs own];
      cbn [Patch.authorize Patch.sentHeaders]; [| reflexivity | reflexivity].
    split; [apply assign_field | intros name Hname; now apply assign_other].
  - intros h (i & -> & Hh). cbn [Patch.callerHeadersAfter Patch.headersOf].
    rewrite Hh. cbn [default]. split; [reflexivity |].
    intros fields ->. cbn [Patch.authorize].
    destruct (Patch.field "Authorization" fields) as [v|] eqn:Hfield.
    + destruct (String.eqb v ("Bearer " ++ token)) eqn:Hv.
      * right. apply String.eqb_eq in Hv. now subst v.
      * left. intros [= Heq]. apply (f_equal (Patch.field "Authorization")) in Heq.
        rewrite assign_field, Hfield in Heq. injection Heq as Heq.
        rewrite <- Heq, String.eqb_refl in Hv. discriminate.
    + left. intros [= Heq]. apply (f_equal (Patch.field "Authorization")) in Heq.
      rewrite assign_field, Hfield in Heq. discriminate.
Qed.

(** X21.  The first patch wins.  [createAuthenticatedTransport] patches
    [global.fetch] and drops the cleanup, so a second transport patches
    the patched function.  The outer patch writes its token first and
    the inner one then overwrites it: after any number of further
    transports every request still goes out as under the first token
    alone.  The cleanup of a later patch puts the earlier patch back,
    not the original [fetch]. *)
Theorem first_patch_wins {A : Type} (first : string) (later : list string)
    (originalFetch : Patch.Fetch A) (input : JsValue) (init : option Patch.RequestInit) :
  fold_left (fun globalFetch token => Patch.createAuthenticatedTransport token globalFetch)
    (first :: later) originalFetch input init
  = Patch.patched first originalFetch input init
  /\ (forall token,
        (Patch.patchFetchWithToken token (Patch.patched first originalFetch)).2
        = Patch.patched first originalFetch).
Proof.
  split; [| reflexivity].
  cbn [fold_left]. unfold Patch.createAuthenticatedTransport at 2.
  cbn [Patch.patchFetchWithToken fst].
  revert input init. induction later as [|token later IH] using rev_ind; intros input init;
    [reflexivity |].
  rewrite fold_left_app. cbn [fold_left].
  unfold Patch.createAuthenticatedTransport at 1. cbn [Patch.patchFetchWithToken fst].
  unfold Patch.patched at 1. rewrite IH. unfold Patch.patched.
  now rewrite newInit_newInit.
Qed.

Lemma lowerAscii_idempotent (c : ascii) :
  JsString.lowerAscii (JsString.lowerAscii c) = JsString.lowerAscii c.
Proof. destruct c as [[] [] [] [] [] [] [] []]; reflexivity. Qed.

Lemma toLowerCase_idempotent (s : string) :
  JsString.toLowerCase (JsString.toLowerCase s) = JsString.toLowerCase s.
Proof.
  induction s as [|c s IH]; [reflexivity |].
  cbn [JsString.toLowerCase]. now rewrite lowerAscii_idempotent, IH.
Qed.

Lemma scanHeaders_patched (token : string) (fields : list (string * string))
    (acc : JsValue * string) :
  (forall k v, In (k, v) fields -> JsString.toLowerCase k <> "authorization") ->
  token <> "" ->
  Server.scanHeaders
    (Patch.received (Patch.assign "Authorization" ("Bearer " ++ token) fields)) acc
  = (JsString token, "Authorization header").
Proof.
  intros Hnone Htoken. induction fields as [|[k v] fields IH]; cbn [Patch.assign].
  - reflexivity.
  - assert (Hk : JsString.toLowerCase k <> "authorization") by (apply (Hnone k v); now left).
    destruct (String.eqb k "Authorization") eqn:Hname.
    { apply String.eqb_eq in Hname. subst k. now destruct Hk. }
    cbn [Patch.received map Server.scanHeaders fst snd].
    rewrite toLowerCase_idempotent. apply String.eqb_neq in Hk. rewrite Hk.
    apply IH. intros k' v' Hin. apply (Hnone k' v'). now right.
Qed.

(** X22.  The token that the client attaches is the token that the server
    extracts.  A request that the patched [fetch] sends with the
    caller's plain headers, none of them an authorization header of its
    own, arrives with headers from which [extractToken] returns exactly
    the client's token, found in the Authorization header, whatever the
    URL, the cookies and the body of the request hold. *)
Theorem patched_request_is_recognised
    (env : Server.Env) (req : IncomingMessage) (token : string)
    (init : option Patch.RequestInit) (fields : list (string * string))
    (Hplain : Patch.headersOf init = Patch.PlainObject fields)
    (Hnone : forall k v, In (k, v) fields -> JsString.toLowerCase k <> "authorization")
    (Htoken : token <> "")
    (Hreceived : headers req
                 = Patch.received
                     (Patch.sentHeaders (Patch.authorize token (Patch.headersOf init)))) :
  Server.extractToken env req = (JsString token, "Authorization header").
Proof.
  unfold Server.extractToken. rewrite Hreceived, Hplain.
  cbn [Patch.authorize Patch.sentHeaders].
  rewrite (scanHeaders_patched token fields _ Hnone Htoken).
  assert (Htruthy : truthy (JsString token) = true).
  { cbn. apply String.eqb_neq in Htoken. now rewrite Htoken. }
  now rewrite scanUrl_kept, scanCookieHeader_kept, scanBody_kept.
Qed.

Lemma patched_request_is_recognised_witness :
  Server.extractToken Scenario.env
    (Scenario.request "GET" "/sse?access_token=other"
       [("accept", HString "text/event-stream");
        ("authorization", HString "Bearer eyJ.eyJ.sig")])
  = (JsString "eyJ.eyJ.sig", "Authorization header").
Proof.
  assert (Htoken : "eyJ.eyJ.sig" <> "") by discriminate.
  apply (patched_request_is_recognised Scenario.env _ "eyJ.eyJ.sig"
           (Some (Patch.mkInit (Some (Patch.PlainObject [("Accept", "text/event-stream")])) []))
           [("Accept", "text/event-stream")] eq_refl).
  - intros k v [[= <- <-] | []]. discriminate.
  - exact Htoken.
  - reflexivity.
Defined.

(* ===================================================================== *)
(** * The CORS headers *)
(* ===================================================================== *)

Lemma setHeader_lookup (name value : string) (hs : Cors.ResponseHeaders) (i : string) :
  Cors.setHeader name value hs !! i
  = if decide (JsString.toLowerCase name = i) then Some value else hs !! i.
Proof. unfold Cors.setHeader. apply lookup_insert. Qed.

Lemma setCorsHeaders_lookup (req : IncomingMessage) (hs : Cors.ResponseHeaders) (i : string) :
  Cors.setCorsHeaders req hs !! i
  = if decide (i = "access-control-allow-origin") then Some "http://localhost:3000"
    else if decide (i = "access-control-allow-methods") then Some "GET, POST, OPTIONS"
    else if decide (i = "access-control-allow-headers")
    then Some "Authorization, Content-Type, Accept, Cache-Control, Pragma"
    else if decide (i = "access-control-allow-credentials") then Some "true"
    else if decide (i = "vary") then Some "Origin"
    else if Cors.notOptions req
    then if Server.urlIncludes req "/sse"
         then if decide (i = "content-type") then Some "text/event-stream"
              else if decide (i = "cache-control") then Some "no-cache"
              else if decide (i = "connection") then Some "keep-alive"
              else hs !! i
         else if decide (i = "content-type") then Some "application/json"
              else hs !! i
    else hs !! i.
Proof.
  unfold Cors.setCorsHeaders. cbn zeta.
  destruct (Server.urlIncludes req "/sse"), (Cors.notOptions req);
    rewrite !setHeader_lookup;
    change (JsString.toLowerCase "Access-Control-Allow-Origin")
      with "access-control-allow-origin";
    change (JsString.toLowerCase "Access-Control-Allow-Methods")
      with "access-control-allow-methods";
    change (JsString.toLowerCase "Access-Control-Allow-Headers")
      with "access-control-allow-headers";
    change (JsString.toLowerCase "Access-Control-Allow-Credentials")
      with "access-control-allow-credentials";
    change (JsString.toLowerCase "Vary") with "vary";
    change (JsString.toLowerCase "Content-Type") with "content-type";
    change (JsString.toLowerCase "Cache-Control") with "cache-control";
    change (JsString.toLowerCase "Connection") with "connection";
    repeat match goal with
           | |- context [decide (?a = ?b)] =>
               destruct (decide (a = b)); try congruence
           end.
Qed.

(** X23.  What [setCorsHeaders] does to the headers of a response.
    Setting them twice is setting them once.  The allowed origin is
    [http://localhost:3000] with credentials allowed, whatever origin the
    request names.  [Content-Type] becomes [text/event-stream] when the
    URL contains [/sse] and [application/json] otherwise, over whatever
    was set before, except on an OPTIONS request, where it is left as it
    is.  No header outside the eight that it may set is touched.  An
    OPTIONS request handled by [handleOptionsRequest] on a fresh
    response is answered 204 with an empty body. *)
Theorem setCorsHeaders_contract (req : IncomingMessage) (hs : Cors.ResponseHeaders) :
  let after := Cors.setCorsHeaders req hs in
  Cors.setCorsHeaders req after = after
  /\ after !! "access-control-allow-origin" = Some "http://localhost:3000"
  /\ after !! "access-control-allow-credentials" = Some "true"
  /\ after !! "content-type"
     = (if Cors.notOptions req
        then Some (if Server.urlIncludes req "/sse" then "text/event-stream"
                   else "application/json")
        else hs !! "content-type")
  /\ (forall name, ~ In name Cors.names -> after !! name = hs !! name)
  /\ Cors.handleOptionsRequest req hs freshResponse
     = Some (after, Gate.answered 204 (Text "")).
Proof.
  intros after. subst after.
  split; [| split; [| split; [| split; [| split; [| reflexivity]]]]].
  - apply map_eq. intros i. rewrite !setCorsHeaders_lookup.
    repeat match goal with
           | |- context [decide (?a = ?b)] => destruct (decide (a = b)); try reflexivity
           end;
      destruct (Cors.notOptions req), (Server.urlIncludes req "/sse"); reflexivity.
  - now rewrite setCorsHeaders_lookup.
  - now rewrite setCorsHeaders_lookup.
  - rewrite setCorsHeaders_lookup. cbn.
    now destruct (Cors.notOptions req), (Server.urlIncludes req "/sse").
  - intros name Hname. rewrite setCorsHeaders_lookup. unfold Cors.names in Hname.
    repeat match goal with
           | |- context [decide (?a = ?b)] =>
               destruct (decide (a = b)); [subst; exfalso; apply Hname; cbn; tauto |]
           end.
    now destruct (Cors.notOptions req), (Server.urlIncludes req "/sse").
Qed.
